(** * Verification of the upload pipeline of [app.py]

    The program reads a table with every cell as text, renames its columns
    with [clean_column], converts four fixed groups of columns (numbers,
    dates, nullable integers, forced text), stamps the batch with a
    [load_time] column and hands it to the warehouse client.

    This development embeds the column normalizer (lines 20-25), the date
    cleaning (lines 28-38), the type coercion stage (lines 56-82) and the
    timestamp stamper (line 85), and states the properties of the
    specification over that embedding.

    Conventions of the embedding.
    - A Python [str] is a [string]; a character is a code point below 256
      (Latin-1), on which [str.lower] keeps the length and [str.strip] and
      the classes of the regular expression are finite tables.
    - A [DataFrame] keeps its columns as an ordered list of labelled
      columns: pandas allows two columns to carry the same label, and both
      the order and the duplicates matter to the code.
    - An exception is the [Raise] outcome of a [result]; the class of the
      exception is not kept.
    - pandas is the library of the 1.x and 2.x series: [astype(str)] on a
      column of objects applies [str] to every cell, so that a missing
      value becomes the text "nan".
    - A float64 is a binary64 number of the kernel ([PrimFloat]): every
      operation of pandas' number parser is rounded as the processor
      rounds it, to nearest with ties to even and without fused
      multiply-add, so that the model computes the float that pandas
      stores. A C [int] is a 32-bit integer with its wrap-around.
    - [pd.to_numeric] decides the type of its result on the whole column:
      int64 when every cell is written as an integer, float64 as soon as
      one cell is missing or is not. *)

From Stdlib Require Import String Ascii List ZArith Bool Lia Arith.
From Stdlib Require Import PrimFloat SpecFloat FloatOps Uint63.
Import ListNotations.
Local Open Scope string_scope.
Local Open Scope bool_scope.

(** ** Python strings *)

Module PyStr.

Definition code (c : ascii) : N := N_of_ascii c.

Definition in_range (lo hi : N) (c : ascii) : bool :=
  ((lo <=? code c) && (code c <=? hi))%N.

(** [str.isspace] on one character: U+0009..U+000D, U+001C..U+0020,
    U+0085 and U+00A0. [str.strip()] removes exactly these. *)
Definition isspace (c : ascii) : bool :=
  in_range 9 13 c || in_range 28 32 c || (code c =? 133)%N || (code c =? 160)%N.

(** The letters that [str.lower] changes below U+0100: A-Z, and the
    accented capitals U+00C0..U+00DE except the multiplication sign. *)
Definition is_cased_upper (c : ascii) : bool :=
  in_range 65 90 c || in_range 192 214 c || in_range 216 222 c.

Definition lower_char (c : ascii) : ascii :=
  if is_cased_upper c then ascii_of_N (code c + 32) else c.

Fixpoint lower (s : string) : string :=
  match s with
  | "" => ""
  | String c s' => String (lower_char c) (lower s')
  end.

Fixpoint lstrip (s : string) : string :=
  match s with
  | "" => ""
  | String c s' => if isspace c then lstrip s' else s
  end.

Fixpoint rstrip (s : string) : string :=
  match s with
  | "" => ""
  | String c s' =>
      match rstrip s' with
      | "" => if isspace c then "" else String c ""
      | r => String c r
      end
  end.

(** [s.strip()] *)
Definition strip (s : string) : string := lstrip (rstrip s).

(** [s.replace(old, new)] for a non-empty [old]: the occurrences are found
    from the left and do not overlap. [skip] counts the characters of the
    current occurrence that are still to be dropped. *)
Fixpoint replace_from (old new : string) (skip : nat) (s : string) : string :=
  match s with
  | "" => ""
  | String c s' =>
      match skip with
      | S k => replace_from old new k s'
      | O =>
          if prefix old s
          then new ++ replace_from old new (String.length old - 1) s'
          else String c (replace_from old new 0 s')
      end
  end.

(** With an empty [old] Python inserts [new] before every character and at
    the end. *)
Fixpoint intersperse (new s : string) : string :=
  match s with
  | "" => new
  | String c s' => new ++ String c (intersperse new s')
  end.

Definition replace (old new s : string) : string :=
  match old with
  | "" => intersperse new s
  | _ => replace_from old new 0 s
  end.

(** [c in s] for a one-character [c]. *)
Fixpoint has_char (c : ascii) (s : string) : bool :=
  match s with
  | "" => false
  | String x s' => Ascii.eqb x c || has_char c s'
  end.

(** [sub in s]: some suffix of [s] starts with [sub]. *)
Fixpoint occurs (sub s : string) : bool :=
  match s with
  | "" => prefix sub ""
  | String _ s' => prefix sub s || occurs sub s'
  end.

Fixpoint all_chars (P : ascii -> bool) (s : string) : bool :=
  match s with
  | "" => true
  | String c s' => P c && all_chars P s'
  end.

Definition first_char (s : string) : option ascii :=
  match s with
  | "" => None
  | String c _ => Some c
  end.

Fixpoint last_char (s : string) : option ascii :=
  match s with
  | "" => None
  | String c s' =>
      match last_char s' with
      | None => Some c
      | Some l => Some l
      end
  end.

End PyStr.

Import PyStr.

(** ** The column normalizer (app.py, lines 20-25) *)

Definition clean_column (col : string) : string :=
  let col := lower (strip col) in
  let col := replace "/" "_" (replace "-" "_" (replace " " "_" col)) in
  let col := replace "#" "number" col in
  let col := replace "__" "_" col in
  col.

(** ** The cleaning step of the date parsers (app.py, lines 29-31 and 35-37)

    [re.sub(r"\b[A-Z]{2,4}\b", "", x).strip()]: every match of the pattern
    is deleted, wherever it stands in [x]; the matches are found from the
    left and do not overlap. *)

Module Regex.

Definition is_upper_AZ (c : ascii) : bool := in_range 65 90 c.

(** [\w] of a [str] pattern: alphanumeric characters and the underscore. *)
Definition is_word (c : ascii) : bool :=
  in_range 48 57 c || in_range 65 90 c || (code c =? 95)%N || in_range 97 122 c
  || (code c =? 170)%N || in_range 178 179 c || (code c =? 181)%N
  || in_range 185 186 c || in_range 188 190 c
  || in_range 192 214 c || in_range 216 246 c || in_range 248 255 c.

Definition is_word_at (o : option ascii) : bool :=
  match o with
  | Some c => is_word c
  | None => false
  end.

(** [\b] between the character before and the character after a position;
    the two ends of the string count as non-word. *)
Definition word_boundary (before after : option ascii) : bool :=
  xorb (is_word_at before) (is_word_at after).

(** [[A-Z]{n}\b] at the head of [s]. *)
Fixpoint upper_run_then_boundary (n : nat) (last : option ascii) (s : string) : bool :=
  match n with
  | O => word_boundary last (first_char s)
  | S n' =>
      match s with
      | "" => false
      | String c s' => is_upper_AZ c && upper_run_then_boundary n' (Some c) s'
      end
  end.

(** The length of the match of [\b[A-Z]{2,4}\b] at the head of [s], [prev]
    being the character before it. The quantifier is greedy and backtracks:
    four letters are tried first, then three, then two. *)
Definition tz_match (prev : option ascii) (s : string) : option nat :=
  if word_boundary prev (first_char s) then
    if upper_run_then_boundary 4 prev s then Some 4%nat
    else if upper_run_then_boundary 3 prev s then Some 3%nat
    else if upper_run_then_boundary 2 prev s then Some 2%nat
    else None
  else None.

Fixpoint re_sub_tz_from (prev : option ascii) (skip : nat) (s : string) : string :=
  match s with
  | "" => ""
  | String c s' =>
      match skip with
      | S k => re_sub_tz_from (Some c) k s'
      | O =>
          match tz_match prev s with
          | Some n => re_sub_tz_from (Some c) (n - 1) s'
          | None => String c (re_sub_tz_from (Some c) 0 s')
          end
      end
  end.

(** [re.sub(r"\b[A-Z]{2,4}\b", "", x)] *)
Definition re_sub_tz (x : string) : string := re_sub_tz_from None 0 x.

End Regex.

Import Regex.

(** The lambda of [parse_datetime_with_tz] and of [parse_date]. *)
Definition clean_tz (x : string) : string := strip (re_sub_tz x).

(** What section 4.2 of the specification says of the cleaning, word for
    word: a trailing token of two to four uppercase letters is stripped
    together with the whitespace around it. Used only to compare with
    [clean_tz]. *)
Module SpecWording.



End SpecWording.

(** ** Numbers: the string parser behind [pd.to_numeric]

    pandas converts each text cell with [floatify], which reads the text as
    a C string with [precise_xstrtod]: optional blanks, an optional sign,
    digits with an optional fraction, an optional exponent, optional
    blanks, and nothing else. The float64 is built digit by digit in
    float64 arithmetic, from the first seventeen digits only, and scaled by
    a power of ten of a table; it is not always the float64 nearest to the
    number written. *)

Module Numeric.

Definition is_digit (c : ascii) : bool := in_range 48 57 c.

Definition digit_value (c : ascii) : Z := Z.of_N (code c) - 48.

(** C [isspace] on ASCII: the blank and U+0009..U+000D. *)
Definition c_isspace (c : ascii) : bool := (code c =? 32)%N || in_range 9 13 c.

Fixpoint skip_space (s : string) : string :=
  match s with
  | "" => ""
  | String c s' => if c_isspace c then skip_space s' else s
  end.

(** The text as the C routines see it: what stands before the first NUL. *)
Fixpoint c_str (s : string) : string :=
  match s with
  | "" => ""
  | String c s' => if (code c =? 0)%N then "" else String c (c_str s')
  end.

(** *** float64 *)

(** The float64 nearest to an integer, ties to even. *)
Definition float_of_Z (z : Z) : float :=
  let a := Z.abs z in
  let sh := Z.max 0 (Z.log2 a - 52) in
  let q := Z.shiftr a sh in
  let r := Z.land a (Z.ones sh) in
  let half := Z.shiftl 1 (sh - 1) in
  let m := if (sh =? 0)%Z then q
           else if (half <? r)%Z || ((r =? half)%Z && Z.odd q) then (q + 1)%Z
           else q in
  let f := Z.ldexp (of_uint63 (Uint63.of_Z m)) sh in
  if (z <? 0)%Z then (- f)%float else f.

(** The table [e[]] of [precise_xstrtod]: the float64 literals 1e0 to
    1e308. *)
Definition pow10 (n : Z) : float := float_of_Z (10 ^ n).

(** The integer that a float64 is, when it is finite and whole. *)
Definition integral_value (f : float) : option Z :=
  match Prim2SF f with
  | S754_zero _ => Some 0%Z
  | S754_finite s m e =>
      let z := if (0 <=? e)%Z then Some (Z.pos m * 2 ^ e)%Z
               else if (Z.pos m mod 2 ^ (- e) =? 0)%Z then Some (Z.pos m / 2 ^ (- e))%Z
               else None in
      option_map (fun z => if s then (- z)%Z else z) z
  | _ => None
  end.

(** A C [int]: 32 bits, two's complement. *)
Definition wrap32 (z : Z) : Z := ((z + 2 ^ 31) mod 2 ^ 32 - 2 ^ 31)%Z.

Definition max_digits : nat := 17.

Definition digit (c : ascii) : float := of_uint63 (Uint63.of_Z (digit_value c)).

(** The digits of the integer part: the first [max_digits] of them enter
    [number], each further one adds one to [exponent]. *)
Fixpoint integer_digits (number : float) (num_digits : nat) (exponent : Z) (s : string)
  : float * nat * Z * string :=
  match s with
  | "" => (number, num_digits, exponent, s)
  | String c s' =>
      if is_digit c then
        if (num_digits <? max_digits)%nat
        then integer_digits (number * 10 + digit c)%float (S num_digits) exponent s'
        else integer_digits number num_digits (wrap32 (exponent + 1)) s'
      else (number, num_digits, exponent, s)
  end.

(** The digits after the point, as long as [number] takes digits. *)
Fixpoint decimal_digits (number : float) (num_digits num_decimals : nat) (s : string)
  : float * nat * nat * string :=
  match s with
  | "" => (number, num_digits, num_decimals, s)
  | String c s' =>
      if (num_digits <? max_digits)%nat && is_digit c
      then decimal_digits (number * 10 + digit c)%float (S num_digits) (S num_decimals) s'
      else (number, num_digits, num_decimals, s)
  end.

Fixpoint skip_digits (s : string) : string :=
  match s with
  | "" => ""
  | String c s' => if is_digit c then skip_digits s' else s
  end.

(** The digits of the exponent, at most [max_digits] of them, in a C
    [int]. *)
Fixpoint exponent_digits (n : Z) (num_digits : nat) (s : string) : Z * nat * string :=
  match s with
  | "" => (n, num_digits, s)
  | String c s' =>
      if (num_digits <? max_digits)%nat && is_digit c
      then exponent_digits (wrap32 (n * 10 + digit_value c)) (S num_digits) s'
      else (n, num_digits, s)
  end.

Definition read_sign (s : string) : bool * string :=
  match s with
  | String "-" s' => (true, s')
  | String "+" s' => (false, s')
  | _ => (false, s)
  end.

(** [number] times ten to the [exponent]; [None] is the error ERANGE, on
    an exponent above 308 and on an infinite result. *)
Definition scale (number : float) (exponent : Z) : option float :=
  if (308 <? exponent)%Z then None
  else
    let r :=
      if (0 <? exponent)%Z then (number * pow10 exponent)%float
      else if (exponent <? -308)%Z then
        if (exponent <? -616)%Z then 0%float
        else (number / pow10 (-308 - exponent) / pow10 308)%float
      else (number / pow10 (- exponent))%float in
    if is_infinity r then None else Some r.

(** [to_double]: [precise_xstrtod] with the decimal point ".", the exponent
    mark "E" in either case and no thousands separator, on a text that
    must be read to its end, trailing blanks apart. It returns the float64
    and whether the text is written as an integer (no point, no
    exponent). *)
Definition to_double (s : string) : option (float * bool) :=
  let s := skip_space s in
  let '(negative, s) := read_sign s in
  let '(number, num_digits, exponent, s) := integer_digits 0 0 0 s in
  let '(number, num_digits, exponent, maybe_int, s) :=
    match s with
    | String "." s' =>
        let '(number, num_digits, num_decimals, s') :=
          decimal_digits number num_digits 0 s' in
        let s' := if (max_digits <=? num_digits)%nat then skip_digits s' else s' in
        (number, num_digits, wrap32 (exponent - Z.of_nat num_decimals), false, s')
    | _ => (number, num_digits, exponent, true, s)
    end in
  match num_digits with
  | O => None
  | _ =>
      let number := if negative then (- number)%float else number in
      let '(exponent, maybe_int, s) :=
        match s with
        | String c s' =>
            if Ascii.eqb c "e" || Ascii.eqb c "E" then
              let '(neg, s1) := read_sign s' in
              let '(n, nd, s2) := exponent_digits 0 0 s1 in
              match nd with
              | O => (exponent, false, s)
              | _ => (wrap32 (if neg then exponent - n else exponent + n), false, s2)
              end
            else (exponent, maybe_int, s)
        | "" => (exponent, maybe_int, s)
        end in
      match scale number exponent with
      | None => None
      | Some number =>
          match skip_space s with
          | "" => Some (number, maybe_int)
          | _ => None
          end
      end
  end.

(** A value of a numeric column: a float64 (finite, infinite or NaN), an
    int64, a uint64, a nullable [Int64] integer, or [pd.NA]. *)
Inductive numeric : Type :=
  | NNum (f : float)
  | NInf (negative : bool)
  | NNaN
  | NI64 (z : Z)
  | NU64 (z : Z)
  | NInt (z : Z)
  | NNA.

Definition is_float (n : numeric) : bool :=
  match n with
  | NNum _ | NInf _ | NNaN => true
  | _ => false
  end.

(** The spellings of infinity that [floatify] accepts when [to_double]
    fails, in any letter case. The comparison of the C code is on ASCII;
    no other character of Latin-1 becomes one of these letters in
    lowercase. *)
Definition inf_word (s : string) : option bool :=
  let l := lower s in
  if String.eqb l "inf" || String.eqb l "+inf"
     || String.eqb l "infinity" || String.eqb l "+infinity" then Some false
  else if String.eqb l "-inf" || String.eqb l "-infinity" then Some true
  else None.

(** [floatify]: the float64 of a text, and whether the text is written as
    an integer. *)
Definition floatify (s : string) : option (numeric * bool) :=
  let data := c_str s in
  match to_double data with
  | Some (f, maybe_int) => Some (NNum f, maybe_int)
  | None =>
      match inf_word data with
      | Some neg => Some (NInf neg, false)
      | None => None
      end
  end.

(** Digits with single underscores between them, as Python's [int] reads
    them. *)
Fixpoint py_digits (acc : Z) (after_digit : bool) (s : string) : option Z :=
  match s with
  | "" => if after_digit then Some acc else None
  | String c s' =>
      if is_digit c then py_digits (10 * acc + digit_value c) true s'
      else if Ascii.eqb c "_" && after_digit then py_digits acc false s'
      else None
  end.

(** [int(s)] of Python; [None] is [ValueError]. (The limit that recent
    versions put on the number of digits is not reached: [int] is called
    on a text that [floatify] has accepted, which has at most 325
    digits.) *)
Definition py_int (s : string) : option Z :=
  let '(negative, t) := read_sign (strip s) in
  option_map (fun v => if negative then (- v)%Z else v) (py_digits 0 false t).

Definition int64_min : Z := - 2 ^ 63.
Definition int64_max : Z := 2 ^ 63 - 1.
Definition uint64_max : Z := 2 ^ 64 - 1.

Definition in_int64 (z : Z) : bool := ((int64_min <=? z) && (z <=? int64_max))%Z.

(** What the scan of [maybe_convert_numeric] keeps of one object: the
    float64 written to [floats[i]], and the integer when the object is
    one. *)
Definition scanned : Type := numeric * option Z.

(** A text: [floatify], then [int] when the text is written as an integer;
    an exception of either makes the cell NaN ([errors="coerce"]). *)
Definition scan_str (s : string) : scanned :=
  match floatify s with
  | Some (f, true) =>
      match py_int s with
      | Some z => (f, Some z)
      | None => (NNaN, None)
      end
  | Some (f, false) => (f, None)
  | None => (NNaN, None)
  end.

(** A value that is numeric already. *)
Definition scan_numeric (n : numeric) : scanned :=
  match n with
  | NNum _ | NInf _ | NNaN => (n, None)
  | NI64 z | NU64 z | NInt z => (NNum (float_of_Z z), Some z)
  | NNA => (NNaN, None)
  end.

(** The flags of the scan. The result is float64 ([seen_float]) when some
    object is a float or is missing, when an integer is outside the range
    of both int64 and uint64, and when a negative integer stands beside an
    integer above the int64 range. *)
Definition not_integer (x : scanned) : bool :=
  match snd x with
  | Some z => ((z <? int64_min) || (uint64_max <? z))%Z
  | None => true
  end.

Definition is_sint (x : scanned) : bool :=
  match snd x with
  | Some z => (z <? 0)%Z
  | None => false
  end.

Definition is_uint (x : scanned) : bool :=
  match snd x with
  | Some z => (int64_max <? z)%Z
  | None => false
  end.

Definition seen_float (l : list scanned) : bool :=
  existsb not_integer l || (existsb is_sint l && existsb is_uint l).

Definition as_uint64 (x : scanned) : numeric :=
  match snd x with
  | Some z => NU64 z
  | None => fst x
  end.

Definition as_int64 (x : scanned) : numeric :=
  match snd x with
  | Some z => NI64 z
  | None => fst x
  end.

(** The array that [maybe_convert_numeric] returns: [floats], [uints] or
    [ints]. *)
Definition convert (l : list scanned) : list numeric :=
  if seen_float l then map fst l
  else if existsb is_uint l then map as_uint64 l
  else map as_int64 l.

(** The number that a text denotes on its own, if any. *)
Definition parse_number (s : string) : option numeric :=
  match convert [scan_str s] with
  | [NNaN] | [] => None
  | v :: _ => Some v
  end.

(** [errors="coerce"]: a text that denotes no number becomes NaN. *)
Definition to_numeric_str (s : string) : numeric :=
  match parse_number s with
  | Some v => v
  | None => NNaN
  end.

End Numeric.

Import Numeric.

(** ** Calendar dates and the layouts of [pd.to_datetime] that are modelled *)

Module Dates.

Record date : Type := mkDate { year : Z; month : Z; day : Z }.

Record datetime : Type :=
  mkDateTime { dt_date : date; hour : Z; minute : Z; second : Z }.

Definition is_leap (y : Z) : bool :=
  ((y mod 4 =? 0) && (negb (y mod 100 =? 0) || (y mod 400 =? 0)))%Z.

Definition days_in_month (y m : Z) : Z :=
  match m with
  | 1 | 3 | 5 | 7 | 8 | 10 | 12 => 31
  | 4 | 6 | 9 | 11 => 30
  | 2 => if is_leap y then 29 else 28
  | _ => 0
  end%Z.

(** The years are kept inside the range of a nanosecond timestamp, so that
    a valid date is never out of bounds for pandas. *)
Definition valid_date (y m d : Z) : bool :=
  ((1678 <=? y) && (y <=? 2261) && (1 <=? m) && (m <=? 12)
   && (1 <=? d) && (d <=? days_in_month y m))%Z.

Definition valid_time (h mi s : Z) : bool :=
  ((h <? 24) && (mi <? 60) && (s <? 60))%Z.

(** Exactly [n] digits at the head of [s]. *)
Fixpoint fixed_digits (n : nat) (acc : Z) (s : string) : option (Z * string) :=
  match n with
  | O => Some (acc, s)
  | S n' =>
      match s with
      | "" => None
      | String c s' =>
          if is_digit c then fixed_digits n' (10 * acc + digit_value c) s' else None
      end
  end.

Definition expect (c : ascii) (s : string) : option string :=
  match s with
  | "" => None
  | String x s' => if Ascii.eqb x c then Some s' else None
  end.

Definition obind {A B : Type} (o : option A) (f : A -> option B) : option B :=
  match o with
  | Some a => f a
  | None => None
  end.

Notation "' p <- o ;; k" := (obind o (fun p => k))
  (at level 61, p pattern, o at next level, right associativity).

(** [YYYY-MM-DD] at the head of [s]. *)
Definition read_date (s : string) : option (date * string) :=
  '(y, s) <- fixed_digits 4 0 s ;;
  's <- expect "-" s ;;
  '(m, s) <- fixed_digits 2 0 s ;;
  's <- expect "-" s ;;
  '(d, s) <- fixed_digits 2 0 s ;;
  if valid_date y m d then Some (mkDate y m d, s) else None.

(** [HH:MM:SS] at the head of [s]. *)
Definition read_time (s : string) : option (Z * Z * Z * string) :=
  '(h, s) <- fixed_digits 2 0 s ;;
  's <- expect ":" s ;;
  '(mi, s) <- fixed_digits 2 0 s ;;
  's <- expect ":" s ;;
  '(se, s) <- fixed_digits 2 0 s ;;
  if valid_time h mi se then Some (h, mi, se, s) else None.

Inductive iso_layout : Type := DateOnly | DateAndTime.

(** A whole text in one of the two layouts [YYYY-MM-DD] and
    [YYYY-MM-DD HH:MM:SS]. *)
Definition parse_iso (ly : iso_layout) (s : string) : option datetime :=
  '(d, r) <- read_date s ;;
  match ly with
  | DateOnly =>
      match r with
      | "" => Some (mkDateTime d 0 0 0)
      | _ => None
      end
  | DateAndTime =>
      's <- expect " " r ;;
      '(h, mi, se, r) <- read_time s ;;
      match r with
      | "" => Some (mkDateTime d h mi se)
      | _ => None
      end
  end.

Definition is_some {A : Type} (o : option A) : bool :=
  match o with
  | Some _ => true
  | None => false
  end.

(** The texts that [pd.to_datetime] takes for an empty cell, whatever the
    layout of the column: the empty text and the spellings of NaN and
    NaT. *)
Definition is_null_text (s : string) : bool :=
  existsb (String.eqb s) [""; "nan"; "NaN"; "NAN"; "NaT"; "nat"; "NAT"].

End Dates.

Import Dates.

(** ** Cells, columns and exceptions *)

(** The objects a cell can hold. A file is read with [dtype=str], so that a
    raw cell is a [Str] or, when the cell is empty, [NaN]. *)
Inductive cell : Type :=
  | Str (s : string)          (* a Python str *)
  | NaN                       (* float nan: missing, in object and float columns *)
  | Num (f : float)           (* a finite float64 *)
  | Inf (negative : bool)     (* a float64 infinity *)
  | I64 (z : Z)               (* an int64: a number of an integer column *)
  | U64 (z : Z)               (* a uint64 *)
  | Int (z : Z)               (* a value of the nullable Int64 dtype *)
  | NA                        (* pd.NA: missing, in an Int64 column *)
  | Date (d : date)           (* datetime.date *)
  | NaT                       (* missing, in a date column *)
  | Timestamp (t : datetime). (* datetime.datetime *)

Definition Series : Type := list cell.

Definition is_missing (c : cell) : bool :=
  match c with
  | NaN | NA | NaT => true
  | _ => false
  end.

Inductive result (A : Type) : Type :=
  | Ok (a : A)
  | Raise.

Arguments Ok {A} a.
Arguments Raise {A}.

Definition bind {A B : Type} (r : result A) (f : A -> result B) : result B :=
  match r with
  | Ok a => f a
  | Raise => Raise
  end.

Notation "x <- r ; k" := (bind r (fun x => k))
  (at level 61, r at next level, right associativity).

Fixpoint mapM {A B : Type} (f : A -> result B) (l : list A) : result (list B) :=
  match l with
  | [] => Ok []
  | a :: l' => b <- f a ; bs <- mapM f l' ; Ok (b :: bs)
  end.

(** ** What is assumed of pandas

    [pd.to_datetime(..., errors="coerce").dt.date] is taken as a function
    of the whole column, since pandas reads a cell in the light of the
    others: pandas 2 takes the layout of the first cell that is not empty.
    [to_datetime] returns the timestamps, or raises when what pandas
    returns is not a column of timestamps, on which [.dt] raises (texts
    with different UTC offsets). Two facts about it are used: when it
    returns, it returns one result per cell; and a column whose texts are
    all in the same one of the two ISO layouts, empty cells apart, is
    parsed cell by cell in that layout, an empty cell giving the missing
    value. [py_str] is [str(x)] for an object that is not a [str] (the text
    of a float, of a date) and [numeric_view] is what [pd.to_numeric] makes
    of a date or a timestamp; neither is reached from a batch read as
    text. *)
Record Pandas : Type := {
  to_datetime : list string -> result (list (option datetime));
  to_datetime_length : forall l r,
    to_datetime l = Ok r -> List.length r = List.length l;
  to_datetime_iso : forall ly l,
    forallb (fun s => is_null_text s || is_some (parse_iso ly s)) l = true ->
    to_datetime l = Ok (map (parse_iso ly) l);
  py_str : cell -> string;
  numeric_view : cell -> numeric
}.

(** An instance, to run the model on sample batches written in the ISO
    layouts: the layout is that of the first text that does not stand for
    an empty cell, and every text is read in it. The other layouts that
    pandas reads are outside this instance, which gives NaT for them. *)
Definition first_layout (l : list string) : iso_layout :=
  match find (fun s => negb (is_null_text s)) l with
  | Some s => if is_some (parse_iso DateAndTime s) then DateAndTime else DateOnly
  | None => DateOnly
  end.

Definition iso_to_datetime (l : list string) : result (list (option datetime)) :=
  Ok (map (parse_iso (first_layout l)) l).

(** ** Data frames *)

(** [nrows] is the length of the index; every column has that many cells
    ([well_formed]). Two columns may carry the same label. *)
Record DataFrame : Type := mkDataFrame {
  nrows : nat;
  columns : list (string * Series)
}.

Definition labels (df : DataFrame) : list string := map fst (columns df).

Definition well_formed (df : DataFrame) : Prop :=
  Forall (fun c => List.length (snd c) = nrows df) (columns df).

(** [col in df.columns] *)
Definition has_column (df : DataFrame) (col : string) : bool :=
  existsb (String.eqb col) (labels df).

(** What [df[col]] is: a Series when one column carries the label, a
    DataFrame of all the columns that carry it when several do. *)
Inductive selection : Type :=
  | ASeries (s : Series)
  | AFrame (ss : list Series).

Definition select (col : string) (cols : list (string * Series)) : list Series :=
  map snd (filter (fun c => String.eqb (fst c) col) cols).

(** [df[col]]; a label that is absent raises [KeyError]. *)
Definition getitem (df : DataFrame) (col : string) : result selection :=
  match select col (columns df) with
  | [] => Raise
  | [s] => Ok (ASeries s)
  | ss => Ok (AFrame ss)
  end.

(** [df[col] = s] for a Series [s]: the columns labelled [col] take the
    value, and a new column is appended when there is none. *)
Definition setitem_series (df : DataFrame) (col : string) (s : Series) : DataFrame :=
  if has_column df col
  then mkDataFrame (nrows df)
         (map (fun c => if String.eqb (fst c) col then (fst c, s) else c) (columns df))
  else mkDataFrame (nrows df) (columns df ++ [(col, s)]).

(** [df[col] = frame] on a duplicated label: the columns labelled [col]
    take the columns of the frame in order. *)
Fixpoint assign_columns (col : string) (vals : list Series)
    (cols : list (string * Series)) : list (string * Series) :=
  match cols with
  | [] => []
  | c :: rest =>
      if String.eqb (fst c) col then
        match vals with
        | v :: vals' => (fst c, v) :: assign_columns col vals' rest
        | [] => c :: assign_columns col [] rest
        end
      else c :: assign_columns col vals rest
  end.

Definition setitem (df : DataFrame) (col : string) (v : selection) : DataFrame :=
  match v with
  | ASeries s => setitem_series df col s
  | AFrame ss => mkDataFrame (nrows df) (assign_columns col ss (columns df))
  end.

(** [df[col] = v] for a scalar [v]: the value is repeated on every row. *)
Definition setitem_scalar (df : DataFrame) (col : string) (v : cell) : DataFrame :=
  setitem_series df col (repeat v (nrows df)).

(** [df.columns = names]; pandas raises [ValueError] when the number of
    names is not the number of columns. *)
Definition set_columns (df : DataFrame) (names : list string) : result DataFrame :=
  if (List.length names =? List.length (columns df))%nat
  then Ok (mkDataFrame (nrows df) (combine names (map snd (columns df))))
  else Raise.

(** The cell of row [i] in the [k]-th column. *)
Definition cell_at (df : DataFrame) (k i : nat) : option cell :=
  match nth_error (columns df) k with
  | Some c => nth_error (snd c) i
  | None => None
  end.

(** ** Column normalization (app.py, line 54) *)

Definition normalize_columns (df : DataFrame) : result DataFrame :=
  set_columns df (map clean_column (labels df)).

(** ** The type coercion stage (app.py, lines 56-82) *)

Definition numeric_fields : list string :=
  ["settlement_amount"; "authorization_amount"; "total_amount";
   "reserved15"; "reserved16"; "reserved17"; "reserved18"; "reserved19"; "reserved20"].

Definition datetime_fields : list string :=
  ["settlement_date_time"; "submit_date_time"].

Definition reserved_fields : list string :=
  ["reserved15"; "reserved16"; "reserved17"; "reserved18"; "reserved19"; "reserved20"].

Definition string_columns : list string :=
  ["bank_account_number"; "routing_number"; "card_number"; "customer_id"; "invoice_number"].

Definition cell_of_numeric (n : numeric) : cell :=
  match n with
  | NNum f => Num f
  | NInf b => Inf b
  | NNaN => NaN
  | NI64 z => I64 z
  | NU64 z => U64 z
  | NInt z => Int z
  | NNA => NA
  end.

(** [astype("Int64")] on one value of a numeric column. pandas casts the
    array to int64 and compares the result with the array: NaN becomes
    [pd.NA], a float64 that is whole and at least -2^63 and below 2^63
    becomes that integer, an int64 is kept, a uint64 is kept when it is in
    the int64 range, and anything else makes the cast raise [TypeError]
    (cannot safely cast). The cast of a float64 outside the range is that
    of x86-64, which never compares equal. *)
Definition astype_Int64_value (n : numeric) : result cell :=
  match n with
  | NNum f =>
      match integral_value f with
      | Some z => if in_int64 z then Ok (Int z) else Raise
      | None => Raise
      end
  | NInf _ => Raise
  | NNaN => Ok NA
  | NI64 z => Ok (Int z)
  | NU64 z => if (z <=? int64_max)%Z then Ok (Int z) else Raise
  | NInt z => Ok (Int z)
  | NNA => Ok NA
  end.

Definition astype_Int64 (s : list numeric) : result Series := mapM astype_Int64_value s.

(** A loop [for col in cols: body], stopped by the first exception. *)
Fixpoint for_each (body : string -> DataFrame -> result DataFrame)
    (cols : list string) (df : DataFrame) : result DataFrame :=
  match cols with
  | [] => Ok df
  | col :: rest => df' <- body col df ; for_each body rest df'
  end.

Section Coercion.

Context (P : Pandas).

(** The scan of one object of a column. *)
Definition scan (c : cell) : scanned :=
  match c with
  | Str s => scan_str s
  | NaN => (NNaN, None)
  | Num f => (NNum f, None)
  | Inf b => (NInf b, None)
  | I64 z | U64 z | Int z => (NNum (float_of_Z z), Some z)
  | NA => (NNaN, None)
  | Date _ | NaT | Timestamp _ => scan_numeric (numeric_view P c)
  end.

Definition is_nullable (c : cell) : bool :=
  match c with
  | Int _ | NA => true
  | _ => false
  end.

Definition nullable (c : cell) : numeric :=
  match c with
  | Int z => NInt z
  | _ => NNA
  end.

(** [pd.to_numeric(s, errors="coerce")] on a column: a column of the
    nullable [Int64] type is returned as it is, any other column goes
    through the scan. *)
Definition to_numeric_series (s : Series) : list numeric :=
  if forallb is_nullable s then map nullable s else convert (map scan s).

(** What [pd.to_numeric] makes of a cell that is alone in its column. *)
Definition to_numeric_cell (c : cell) : numeric := hd NNaN (to_numeric_series [c]).

(** [pd.to_numeric(arg, errors="coerce")]; a DataFrame argument raises
    [TypeError]. *)
Definition to_numeric (arg : selection) : result (list numeric) :=
  match arg with
  | ASeries s => Ok (to_numeric_series s)
  | AFrame _ => Raise
  end.

(** [str(x)] as [astype(str)] applies it to a cell. *)
Definition str_of_cell (c : cell) : string :=
  match c with
  | Str s => s
  | NaN => "nan"
  | _ => py_str P c
  end.

Definition astype_str_series (s : Series) : Series :=
  map (fun c => Str (str_of_cell c)) s.

(** [arg.astype(str)], on a Series or on a DataFrame. *)
Definition astype_str (arg : selection) : selection :=
  match arg with
  | ASeries s => ASeries (astype_str_series s)
  | AFrame ss => AFrame (map astype_str_series ss)
  end.

Definition date_cell (o : option datetime) : cell :=
  match o with
  | Some t => Date (dt_date t)
  | None => NaT
  end.

(** [parse_datetime_with_tz] (app.py, lines 28-32). On a DataFrame the
    call raises: the lambda receives a column instead of a text. *)
Definition parse_datetime_with_tz (arg : selection) : result Series :=
  match arg with
  | ASeries s =>
      let series_clean := map (fun c => clean_tz (str_of_cell c)) s in
      r <- to_datetime P series_clean ;
      Ok (map date_cell r)
  | AFrame _ => Raise
  end.

(** [parse_date] (app.py, lines 34-38) has the same body. *)
Definition parse_date (arg : selection) : result Series :=
  match arg with
  | ASeries s =>
      let series_clean := map (fun c => clean_tz (str_of_cell c)) s in
      r <- to_datetime P series_clean ;
      Ok (map date_cell r)
  | AFrame _ => Raise
  end.

(** Lines 61-63, one turn of the loop. *)
Definition numeric_body (col : string) (df : DataFrame) : result DataFrame :=
  if has_column df col then
    x <- getitem df col ;
    v <- to_numeric x ;
    Ok (setitem_series df col (map cell_of_numeric v))
  else Ok df.

(** Lines 66-68. *)
Definition datetime_body (col : string) (df : DataFrame) : result DataFrame :=
  if has_column df col then
    x <- getitem df col ;
    v <- parse_datetime_with_tz x ;
    Ok (setitem_series df col v)
  else Ok df.

(** Lines 70-71. *)
Definition business_day_step (df : DataFrame) : result DataFrame :=
  if has_column df "business_day" then
    x <- getitem df "business_day" ;
    v <- parse_date x ;
    Ok (setitem_series df "business_day" v)
  else Ok df.

(** Lines 74-76. *)
Definition reserved_body (col : string) (df : DataFrame) : result DataFrame :=
  if has_column df col then
    x <- getitem df col ;
    v <- to_numeric x ;
    w <- astype_Int64 v ;
    Ok (setitem_series df col w)
  else Ok df.

(** Lines 80-82. *)
Definition string_body (col : string) (df : DataFrame) : result DataFrame :=
  if has_column df col then
    x <- getitem df col ;
    Ok (setitem df col (astype_str x))
  else Ok df.

Definition numeric_loop : DataFrame -> result DataFrame :=
  for_each numeric_body numeric_fields.

Definition datetime_loop : DataFrame -> result DataFrame :=
  for_each datetime_body datetime_fields.

Definition reserved_loop : DataFrame -> result DataFrame :=
  for_each reserved_body reserved_fields.

Definition string_loop : DataFrame -> result DataFrame :=
  for_each string_body string_columns.

Definition type_coercion_stage (df : DataFrame) : result DataFrame :=
  df <- numeric_loop df ;
  df <- datetime_loop df ;
  df <- business_day_step df ;
  df <- reserved_loop df ;
  string_loop df.

End Coercion.

(** ** The timestamp stamper (app.py, line 85)

    [now] is the value that [datetime.utcnow()] returned, read once. *)
Definition stamp_load_time (now : datetime) (df : DataFrame) : DataFrame :=
  setitem_scalar df "load_time" (Timestamp now).

(** Lines 54-85 on one batch. *)
Definition process_batch (P : Pandas) (now : datetime) (df : DataFrame) : result DataFrame :=
  df <- normalize_columns df ;
  df <- type_coercion_stage P df ;
  Ok (stamp_load_time now df).

(** A text is in one of the two ISO layouts at most, and a text that
    stands for an empty cell is in neither. *)
Lemma parse_iso_one_layout s t :
  parse_iso DateAndTime s = Some t -> parse_iso DateOnly s = None.
Proof.
  unfold parse_iso. destruct (read_date s) as [[d r]|]; simpl; [|discriminate].
  destruct r as [|c r]; [discriminate|reflexivity].
Qed.

Lemma parse_iso_null ly s : is_null_text s = true -> parse_iso ly s = None.
Proof.
  unfold is_null_text. intros H. apply existsb_exists in H as (w & Hw & E).
  apply String.eqb_eq in E. subst w.
  simpl in Hw. decompose [or] Hw; subst; try contradiction; now destruct ly.
Qed.

Lemma first_layout_uniform ly l :
  forallb (fun s => is_null_text s || is_some (parse_iso ly s)) l = true ->
  map (parse_iso (first_layout l)) l = map (parse_iso ly) l.
Proof.
  intros H. rewrite forallb_forall in H. unfold first_layout.
  destruct (find _ l) as [s0|] eqn:Ef.
  - apply find_some in Ef as [Hin Hs0]. specialize (H s0 Hin).
    apply negb_true_iff in Hs0. rewrite Hs0 in H. cbn [orb] in H.
    destruct ly.
    + destruct (parse_iso DateAndTime s0) as [t|] eqn:E; [|reflexivity].
      now rewrite (parse_iso_one_layout s0 t E) in H.
    + now rewrite H.
  - apply map_ext_in. intros s Hs.
    pose proof (find_none _ _ Ef s Hs) as Hn. apply negb_false_iff in Hn.
    now rewrite !(parse_iso_null _ s Hn).
Qed.

(** The instance of [Pandas] used to run the model on sample batches. Its
    [py_str] and [numeric_view] are not reached from a batch of texts. *)
Definition iso_pandas : Pandas.
Proof.
  refine {| to_datetime := iso_to_datetime;
            py_str := fun _ => "";
            numeric_view := fun _ => NNaN |}.
  - intros l r [= <-]. apply length_map.
  - intros ly l H. unfold iso_to_datetime. f_equal. now apply first_layout_uniform.
Defined.

(** ** Vocabulary of the properties *)

(** The first character, the last character of a string is not whitespace;
    every character is its own lowercase. *)
Definition first_ok (s : string) : bool :=
  match first_char s with
  | Some c => negb (isspace c)
  | None => true
  end.

Definition last_ok (s : string) : bool :=
  match last_char s with
  | Some c => negb (isspace c)
  | None => true
  end.

Definition lowered (s : string) : bool :=
  all_chars (fun c => Ascii.eqb (lower_char c) c) s.

(** No uppercase letter A-Z. *)
Definition no_upper (s : string) : bool :=
  all_chars (fun c => negb (is_upper_AZ c)) s.

(** Whitespace only. *)
Definition blank (s : string) : bool := all_chars isspace s.

(** Two to four uppercase letters A-Z. *)
Definition tz_token (s : string) : bool :=
  all_chars is_upper_AZ s && (2 <=? String.length s)%nat && (String.length s <=? 4)%nat.






Definition is_date_or_NaT (c : cell) : bool :=
  match c with
  | Date _ | NaT => true
  | _ => false
  end.

(** A relation between the value of a column before and after a step,
    given its label. *)
Definition col_rel : Type := string -> Series -> Series -> Prop.

(** [df'] has the rows and the labels of [df], in the same order, and every
    column is related to what it was by [R]. *)
Definition framewise (R : col_rel) (df df' : DataFrame) : Prop :=
  nrows df' = nrows df /\
  Forall2 (fun c c' => fst c' = fst c /\ R (fst c) (snd c) (snd c'))
    (columns df) (columns df').

(** The columns labelled in [cols] change as [F] says; the others do not
    change. *)
Definition touches (cols : list string) (F : Series -> Series -> Prop) : col_rel :=
  fun l v v' => if existsb (String.eqb l) cols then F v v' else v' = v.

(** The shape shared by the loop bodies that assign a Series. *)
Definition series_body (f : selection -> result Series) (col : string)
    (df : DataFrame) : result DataFrame :=
  if has_column df col then
    x <- getitem df col ;
    v <- f x ;
    Ok (setitem_series df col v)
  else Ok df.

Section ColumnRelations.

Context (P : Pandas).

(** Lines 63, 68 and 71, 76, 82 as relations between the column before and
    the column after. *)
Definition numeric_column (v v' : Series) : Prop :=
  v' = map cell_of_numeric (to_numeric_series P v).

Definition date_column (v v' : Series) : Prop :=
  exists r, to_datetime P (map (fun c => clean_tz (str_of_cell P c)) v) = Ok r
            /\ v' = map date_cell r.

Definition int64_column (v v' : Series) : Prop :=
  astype_Int64 (to_numeric_series P v) = Ok v'.

Definition text_column (v v' : Series) : Prop := v' = astype_str_series P v.

(** The five steps, one after the other, on the column labelled [l]. *)
Definition stage_column : col_rel := fun l v v' =>
  exists v1 v2 v3 v4,
    touches numeric_fields numeric_column l v v1 /\
    touches datetime_fields date_column l v1 v2 /\
    touches ["business_day"] date_column l v2 v3 /\
    touches reserved_fields int64_column l v3 v4 /\
    touches string_columns text_column l v4 v'.

End ColumnRelations.

(** Every reserved column of [df] can be cast to [Int64]: what
    [pd.to_numeric] makes of it has no float that is not whole or not in
    the int64 range, and no integer above that range. *)
Definition castable (P : Pandas) (df : DataFrame) : Prop :=
  forall c, In c (columns df) -> In (fst c) reserved_fields ->
            exists w, astype_Int64 (to_numeric_series P (snd c)) = Ok w.

(** The date parser returns on the columns of [df] that carry a name of
    [names]; on every date column of [df]. *)
Definition date_fields : list string :=
  (datetime_fields ++ ["business_day"])%list.

Definition datable_on (P : Pandas) (names : list string) (df : DataFrame) : Prop :=
  forall c, In c (columns df) -> In (fst c) names ->
            exists r, to_datetime P (map (fun x => clean_tz (str_of_cell P x)) (snd c)) = Ok r.

Definition datable (P : Pandas) : DataFrame -> Prop := datable_on P date_fields.

(** The names that the stage looks for. *)
Definition all_groups : list string :=
  (numeric_fields ++ datetime_fields ++ ["business_day"] ++ reserved_fields
   ++ string_columns)%list.

Definition in_any_group (l : string) : bool := existsb (String.eqb l) all_groups.

(** *** Sample batches *)

(** A file with the two headers "Invoice #" and "invoice number". *)
Definition colliding_headers : DataFrame :=
  mkDataFrame 1 [("Invoice #", [Str "A"]); ("invoice number", [Str "B"])].

Definition some_moment : datetime := mkDateTime (mkDate 2024 1 15) 10 30 0.

(** A batch read from a file that already has a "load_time" column. *)
Definition already_stamped : DataFrame :=
  mkDataFrame 2 [("load_time", [Str "2023-12-31"; Str "2023-12-31"]);
                 ("transaction_id", [Str "1"; Str "2"])].

(** A file with the two headers "Settlement Amount" and
    "settlement_amount", and the batch it is after column normalization. *)
Definition two_amount_headers : DataFrame :=
  mkDataFrame 1 [("Settlement Amount", [Str "N/A"]); ("settlement_amount", [Str "10.50"])].

Definition two_amount_columns : DataFrame :=
  mkDataFrame 1 [("settlement_amount", [Str "N/A"]); ("settlement_amount", [Str "10.50"])].

(** A batch with two columns named "memo" beside an amount column. *)
Definition amounts_with_memos : DataFrame :=
  mkDataFrame 2 [("memo", [Str "a"; Str "b"]);
                 ("settlement_amount", [Str "N/A"; Str "10.50"]);
                 ("memo", [Str "c"; Str "d"])].

Definition reserved_batch : DataFrame :=
  mkDataFrame 2 [("transaction_id", [Str "1"; Str "2"]);
                 ("reserved15", [Str "12.0"; Str "abc"])].

Definition reserved_batch_coerced : DataFrame :=
  mkDataFrame 2 [("transaction_id", [Str "1"; Str "2"]);
                 ("reserved15", [Int 12; NA])].

Definition fractional_reserved : DataFrame :=
  mkDataFrame 1 [("reserved15", [Str "12.5"])].

(** ** The choice of the reader (app.py, lines 48-51) *)

(** [s.endswith(suffix)] *)
Definition endswith (s suffix : string) : bool :=
  (String.length suffix <=? String.length s)%nat
  && String.eqb (substring (String.length s - String.length suffix)
                   (String.length suffix) s) suffix.

Inductive reader : Type :=
  | ReadCsv      (* pd.read_csv(uploaded_file, dtype=str, low_memory=False) *)
  | ReadExcel.   (* pd.read_excel(uploaded_file, dtype=str) *)

Definition reader_for (name : string) : reader :=
  if endswith name ".csv" then ReadCsv else ReadExcel.

(** ** The schema of the load job (app.py, lines 94-165) *)

Inductive bq_type : Type := STRING | FLOAT64 | DATE | INT64 | DATETIME.

Definition schema : list (string * bq_type) :=
  [("transaction_id", STRING); ("transaction_status", STRING);
   ("settlement_amount", FLOAT64); ("settlement_currency", STRING);
   ("settlement_date_time", DATE); ("authorization_amount", FLOAT64);
   ("authorization_currency", STRING); ("submit_date_time", DATE);
   ("authorization_code", STRING); ("reference_transaction_id", STRING);
   ("transaction_type", STRING); ("address_verification_status", STRING);
   ("card_code_status", STRING); ("fraudscreen_applied", STRING);
   ("recurring_billing_transaction", STRING); ("partial_capture_status", STRING);
   ("card_number", STRING); ("expiration_date", STRING);
   ("bank_account_number", STRING); ("routing_number", STRING);
   ("total_amount", FLOAT64); ("currency", STRING); ("invoice_number", STRING);
   ("invoice_description", STRING); ("customer_first_name", STRING);
   ("customer_last_name", STRING); ("company", STRING); ("address", STRING);
   ("city", STRING); ("state", STRING); ("zip", STRING); ("country", STRING);
   ("phone", STRING); ("fax", STRING); ("email", STRING); ("customer_id", STRING);
   ("ship_to_first_name", STRING); ("ship_to_last_name", STRING);
   ("ship_to_company", STRING); ("ship_to_address", STRING); ("ship_to_city", STRING);
   ("ship_to_state", STRING); ("ship_to_zip", STRING); ("ship_to_country", STRING);
   ("l2__tax", STRING); ("l2__freight", STRING); ("l2__tax_exempt", STRING);
   ("l2__purchase_order_number", STRING); ("cavv_results_code", STRING);
   ("business_day", DATE); ("order_number", STRING);
   ("available_card_balance", STRING); ("approved_amount", STRING);
   ("market_type", STRING); ("product", STRING); ("reserved7", STRING);
   ("reserved8", STRING); ("reserved9", STRING); ("reserved10", STRING);
   ("reserved11", STRING); ("reserved12", STRING); ("reserved13", STRING);
   ("reserved14", STRING); ("reserved15", INT64); ("reserved16", INT64);
   ("reserved17", INT64); ("reserved18", INT64); ("reserved19", INT64);
   ("reserved20", INT64); ("load_time", DATETIME)].

(** ** Vocabulary of the further properties *)

(** A cell as the readers produce it with [dtype=str]: a text, or NaN for
    an empty cell. *)
Definition raw_cell (c : cell) : bool :=
  match c with
  | Str _ | NaN => true
  | _ => false
  end.

Definition raw_batch (df : DataFrame) : Prop :=
  forall c, In c (columns df) -> forallb raw_cell (snd c) = true.

(** The kind of value that a column of each schema type holds: texts (or
    the NaN of an empty cell), float64 values, dates, nullable 64-bit
    integers, timestamps, each with its own missing value. *)
Definition holds_type (T : bq_type) (c : cell) : bool :=
  match T, c with
  | STRING, (Str _ | NaN) => true
  | FLOAT64, (Num _ | Inf _ | NaN) => true
  | DATE, (Date _ | NaT) => true
  | INT64, Int z => in_int64 z
  | INT64, NA => true
  | DATETIME, Timestamp _ => true
  | _, _ => false
  end.

Definition is_int64_cell (c : cell) : bool :=
  match c with
  | I64 z => in_int64 z
  | _ => false
  end.

Definition is_uint64_cell (c : cell) : bool :=
  match c with
  | U64 z => ((0 <=? z) && (z <=? uint64_max))%Z
  | _ => false
  end.

(** A column of numbers as [pd.to_numeric] returns it: of float64 values,
    of int64 values or of uint64 values throughout. *)
Definition numeric_dtype (v : Series) : bool :=
  forallb (holds_type FLOAT64) v || forallb is_int64_cell v || forallb is_uint64_cell v.

(** What a processed column is, by the type that the schema declares for
    it. A FLOAT64 column is a column of numbers, which is a column of
    integers when every cell of the file is written as an integer. *)
Definition fits (T : bq_type) (v : Series) : bool :=
  match T with
  | FLOAT64 => numeric_dtype v
  | _ => forallb (holds_type T) v
  end.

(** The number of columns of [df] that carry the label [col]. *)
Definition label_count (col : string) (df : DataFrame) : nat :=
  List.length (select col (columns df)).

(** The names whose columns are given to [pd.to_numeric] or to a date
    parser, which take one column only. *)
Definition series_only_fields : list string :=
  (numeric_fields ++ datetime_fields ++ ["business_day"])%list.

(** The characters of [s] that are not capitals A-Z, in order. *)
Fixpoint drop_upper (s : string) : string :=
  match s with
  | "" => ""
  | String c s' => if is_upper_AZ c then drop_upper s' else String c (drop_upper s')
  end.

(** None of the characters that the normalizer replaces. *)
Definition no_replaced_char (s : string) : bool :=
  negb (has_char " " s || has_char "-" s || has_char "/" s || has_char "#" s).

(** The first [k] characters of [s], as far as there are any, are capitals. *)
Fixpoint upper_prefix (k : nat) (s : string) : bool :=
  match k, s with
  | S k', String c s' => is_upper_AZ c && upper_prefix k' s'
  | _, _ => true
  end.

(** No name of [cols] is carried by two columns of [df]. *)
Definition unique_in (cols : list string) (df : DataFrame) : Prop :=
  forall col, In col cols -> (label_count col df <= 1)%nat.

(** The state of the date loops before the turn of the first name of
    [rest]: no name is carried twice, and the date parser returns on the
    columns that are still to be converted. *)
Definition dates_ahead (P : Pandas) (rest : list string) (df : DataFrame) : Prop :=
  NoDup (rest ++ ["business_day"]) /\
  unique_in series_only_fields df /\
  datable_on P (rest ++ ["business_day"]) df.


(** The groups of the coercion stage in which a schema entry must be, and
    must not be, for its declared type. *)
Definition schema_entry_ok (e : string * bq_type) : bool :=
  let l := fst e in
  let n := existsb (String.eqb l) numeric_fields in
  let d := existsb (String.eqb l) datetime_fields in
  let b := existsb (String.eqb l) ["business_day"] in
  let r := existsb (String.eqb l) reserved_fields in
  let t := existsb (String.eqb l) string_columns in
  match snd e with
  | STRING => negb (String.eqb l "load_time") && negb n && negb d && negb b && negb r
  | FLOAT64 => negb (String.eqb l "load_time") && n && negb d && negb b && negb r && negb t
  | DATE => negb (String.eqb l "load_time") && negb n && (d || b) && negb r && negb t
  | INT64 => negb (String.eqb l "load_time") && n && negb d && negb b && r && negb t
  | DATETIME => String.eqb l "load_time"
  end.

(** The characters of a number as [pd.to_numeric] reads it. *)
Definition numeric_char (c : ascii) : bool :=
  is_digit c || has_char c "+-.eE" || c_isspace c.

(** The letters of "infinity", in either case, and the signs. *)
Definition infinity_char (c : ascii) : bool := has_char (lower_char c) "+-infty".

(** The integer that a text is, when it is written as an integer of the
    int64 range. *)
Definition int64_text (s : string) : option Z :=
  match scan_str s with
  | (_, Some z) => if in_int64 z then Some z else None
  | _ => None
  end.

Definition int64_cell (c : cell) : bool :=
  match c with
  | Str s => is_some (int64_text s)
  | _ => false
  end.

(** A reserved column of integers, one of them above 2^53, and the batch
    after the stage. *)
Definition big_reserved : DataFrame :=
  mkDataFrame 2 [("reserved15", [Str "9007199254740993"; Str "-7"])].

Definition big_reserved_coerced : DataFrame :=
  mkDataFrame 2 [("reserved15", [Int 9007199254740993; Int (-7)])].

(** A file whose "Total Amount" column is written in whole numbers, and
    the batch after the stage. *)
Definition whole_amounts : DataFrame :=
  mkDataFrame 2 [("Transaction ID", [Str "1"; Str "2"]);
                 ("Reserved15", [Str "12.0"; NaN]);
                 ("Settlement Amount", [Str "1,000.50"; Str "10.50"]);
                 ("Total Amount", [Str "100"; Str "250"]);
                 ("Business Day", [Str "2024-01-15"; Str "2024-01-16"]);
                 ("Card Number", [Str "0001234"; NaN])].

Definition whole_amounts_coerced : DataFrame :=
  mkDataFrame 2 [("transaction_id", [Str "1"; Str "2"]);
                 ("reserved15", [Int 12; NA]);
                 ("settlement_amount", [NaN; Num 10.5]);
                 ("total_amount", [I64 100; I64 250]);
                 ("business_day", [Date (mkDate 2024 1 15); Date (mkDate 2024 1 16)]);
                 ("card_number", [Str "0001234"; Str "nan"])].

(** A header-only batch, and batches used to run the theorems. *)
Definition mixed_batch : DataFrame :=
  mkDataFrame 2 [("Transaction ID", [Str "1"; Str "2"]);
                 ("Reserved15", [Str "12.0"; NaN]);
                 ("Settlement Amount", [Str "1,000.50"; Str "10.50"]);
                 ("Business Day", [Str "2024-01-15"; Str "2024-01-16"]);
                 ("Card Number", [Str "0001234"; NaN])].

Definition mixed_batch_clean : DataFrame :=
  mkDataFrame 2 [("transaction_id", [Str "1"; Str "2"]);
                 ("reserved15", [Str "12.0"; NaN]);
                 ("settlement_amount", [Str "1,000.50"; Str "10.50"]);
                 ("business_day", [Str "2024-01-15"; Str "2024-01-16"]);
                 ("card_number", [Str "0001234"; NaN])].

Definition mixed_batch_coerced : DataFrame :=
  mkDataFrame 2 [("transaction_id", [Str "1"; Str "2"]);
                 ("reserved15", [Int 12; NA]);
                 ("settlement_amount", [NaN; Num 10.5]);
                 ("business_day", [Date (mkDate 2024 1 15); Date (mkDate 2024 1 16)]);
                 ("card_number", [Str "0001234"; Str "nan"])].

Definition header_only : DataFrame :=
  mkDataFrame 0 [("transaction_id", []); ("reserved15", []); ("business_day", [])].

(** * Properties *)

(** ** The examples of the specification, run on the model *)

Example clean_column_settlement :
  clean_column "Settlement Date/Time" = "settlement_date_time".
Proof. reflexivity. Qed.

Example clean_column_invoice : clean_column "Invoice #" = "invoice_number".
Proof. reflexivity. Qed.

Example clean_column_mixed : clean_column "  A-/b # " = "a_b_number".
Proof. reflexivity. Qed.

Example clean_tz_est : clean_tz "2024-01-15 10:30:00 EST" = "2024-01-15 10:30:00".
Proof. reflexivity. Qed.

Example clean_tz_keeps_long_and_joined :
  clean_tz "ABCDE AB_ AB CD1 ABCD-EF" = "ABCDE AB_  CD1 -".
Proof. reflexivity. Qed.

Example to_numeric_whole : to_numeric_str "12.0" = NNum 12.
Proof. reflexivity. Qed.

Example to_numeric_exponent : to_numeric_str " -1.5e2 " = NNum (-150).
Proof. reflexivity. Qed.

Example to_numeric_not_a_number : to_numeric_str "N/A" = NNaN.
Proof. reflexivity. Qed.

Example to_numeric_infinity : to_numeric_str "-Infinity" = NInf true.
Proof. reflexivity. Qed.

Example card_number_keeps_leading_zeros :
  type_coercion_stage iso_pandas (mkDataFrame 2 [("card_number", [Str "0001234"; NaN])])
  = Ok (mkDataFrame 2 [("card_number", [Str "0001234"; Str "nan"])]).
Proof. reflexivity. Qed.

Example stage_on_a_small_batch :
  type_coercion_stage iso_pandas
    (mkDataFrame 2 [("reserved15", [Str "12.0"; Str "abc"]);
                    ("settlement_date_time",
                     [Str "2024-01-15 10:30:00 EST"; Str "2024-01-16 08:00:00 PST"]);
                    ("memo", [Str "x"; NaN]);
                    ("settlement_amount", [Str "N/A"; Str "1.5"])])
  = Ok (mkDataFrame 2 [("reserved15", [Int 12; NA]);
                       ("settlement_date_time",
                        [Date (mkDate 2024 1 15); Date (mkDate 2024 1 16)]);
                       ("memo", [Str "x"; NaN]);
                       ("settlement_amount", [NaN; Num 1.5])]).
Proof. reflexivity. Qed.

(** ** Characters *)

Ltac each_char c :=
  destruct c as [[|] [|] [|] [|] [|] [|] [|] [|]]; vm_compute; try reflexivity; try discriminate.

Lemma isspace_lower_char c : isspace (lower_char c) = isspace c.
Proof. each_char c. Qed.

Lemma lower_char_idem c : lower_char (lower_char c) = lower_char c.
Proof. each_char c. Qed.


Lemma upper_AZ_is_word c : is_upper_AZ c = true -> is_word c = true.
Proof. each_char c. Qed.

(** ** Strings *)

Lemma all_chars_app P a b :
  all_chars P (a ++ b) = all_chars P a && all_chars P b.
Proof.
  induction a as [|c a IH]; simpl; [reflexivity|].
  rewrite IH. now rewrite andb_assoc.
Qed.

Lemma has_char_all_chars c s :
  has_char c s = negb (all_chars (fun x => negb (Ascii.eqb x c)) s).
Proof.
  induction s as [|x s IH]; simpl; [reflexivity|].
  rewrite IH. now destruct (Ascii.eqb x c).
Qed.

Lemma prefix_empty s : prefix "" s = true.
Proof. now destruct s. Qed.

(** *** [replace] keeps what holds of every character *)

Lemma replace_from_all_chars P old new :
  all_chars P new = true ->
  forall s k, all_chars P s = true -> all_chars P (replace_from old new k s) = true.
Proof.
  intros Hnew. induction s as [|c s IH]; intros k Hs; [reflexivity|].
  cbn [all_chars] in Hs. apply andb_true_iff in Hs as [Hc Hs].
  cbn [replace_from]. destruct k as [|k].
  - destruct (prefix old (String c s)).
    + rewrite all_chars_app, Hnew. now apply IH.
    + cbn [all_chars]. rewrite Hc. now apply IH.
  - now apply IH.
Qed.

Lemma replace_all_chars P old new s :
  old <> "" -> all_chars P new = true -> all_chars P s = true ->
  all_chars P (replace old new s) = true.
Proof.
  intros Hold Hnew Hs. destruct old as [|o old]; [congruence|].
  now apply replace_from_all_chars.
Qed.

(** *** Replacing a single character *)

Lemma prefix_single o c s : prefix (String o "") (String c s) = Ascii.eqb o c.
Proof.
  simpl. destruct (ascii_dec o c) as [->|Hne].
  - rewrite prefix_empty. now rewrite Ascii.eqb_refl.
  - symmetry. now apply Ascii.eqb_neq.
Qed.

Lemma replace_char_removes o new s :
  has_char o new = false -> has_char o (replace (String o "") new s) = false.
Proof.
  intros Hnew. unfold replace.
  rewrite has_char_all_chars in *. apply negb_false_iff in Hnew. apply negb_false_iff.
  induction s as [|c s IH]; [reflexivity|].
  cbn [replace_from]. rewrite prefix_single. cbn [String.length Nat.sub].
  destruct (Ascii.eqb o c) eqn:E.
  - rewrite all_chars_app, Hnew. exact IH.
  - cbn [all_chars]. rewrite IH, andb_true_r. rewrite Ascii.eqb_sym, E. reflexivity.
Qed.

Lemma replace_keeps_absent x old new s :
  old <> "" -> has_char x new = false -> has_char x s = false ->
  has_char x (replace old new s) = false.
Proof.
  intros Hold Hnew Hs. rewrite has_char_all_chars in *.
  apply negb_false_iff in Hnew, Hs. apply negb_false_iff.
  now apply replace_all_chars.
Qed.

Lemma replace_char_absent o new s :
  has_char o s = false -> replace (String o "") new s = s.
Proof.
  unfold replace. induction s as [|c s IH]; intros H; [reflexivity|].
  cbn [replace_from]. rewrite prefix_single. simpl in H.
  apply orb_false_iff in H as [Hc Hs]. rewrite Ascii.eqb_sym, Hc.
  f_equal. now apply IH.
Qed.

Lemma replace_absent old new s :
  old <> "" -> occurs old s = false -> replace old new s = s.
Proof.
  intros Hold. destruct old as [|o old]; [congruence|]. unfold replace.
  induction s as [|c s IH]; intros H; [reflexivity|].
  cbn [replace_from]. cbn [occurs] in H. apply orb_false_iff in H as [Hp Hs].
  rewrite Hp. f_equal. now apply IH.
Qed.

(** *** Strings that [strip] and [lower] leave alone *)

Lemma last_char_cons c s :
  last_char (String c s) = match s with "" => Some c | _ => last_char s end.
Proof.
  destruct s as [|x s]; [reflexivity|].
  cbn [last_char]. now destruct (last_char s).
Qed.

Lemma last_ok_tail c s : last_ok (String c s) = true -> last_ok s = true.
Proof.
  unfold last_ok. rewrite last_char_cons. now destruct s.
Qed.

Lemma last_char_app a b :
  last_char (a ++ b) = match last_char b with Some l => Some l | None => last_char a end.
Proof.
  induction a as [|c a IH]; simpl.
  - now destruct (last_char b).
  - rewrite IH. destruct (last_char b); [reflexivity|]. now destruct (last_char a).
Qed.

Lemma last_ok_app a b : last_ok a = true -> last_ok b = true -> last_ok (a ++ b) = true.
Proof.
  unfold last_ok. rewrite last_char_app. now destruct (last_char b).
Qed.

Lemma lstrip_first_ok s : first_ok (lstrip s) = true.
Proof.
  induction s as [|c s IH]; [reflexivity|].
  simpl. destruct (isspace c) eqn:E; [exact IH|].
  unfold first_ok. simpl. now rewrite E.
Qed.

Lemma rstrip_last_ok s : last_ok (rstrip s) = true.
Proof.
  induction s as [|c s IH]; [reflexivity|].
  cbn [rstrip]. destruct (rstrip s) as [|x r] eqn:E.
  - destruct (isspace c) eqn:Ec; [reflexivity|]. unfold last_ok. simpl. now rewrite Ec.
  - unfold last_ok in *. now rewrite last_char_cons.
Qed.

Lemma lstrip_last_ok s : last_ok s = true -> last_ok (lstrip s) = true.
Proof.
  induction s as [|c s IH]; intros H; [reflexivity|].
  simpl. destruct (isspace c); [|exact H].
  apply IH. now apply last_ok_tail in H.
Qed.

Lemma strip_first_ok s : first_ok (strip s) = true.
Proof. apply lstrip_first_ok. Qed.

Lemma strip_last_ok s : last_ok (strip s) = true.
Proof. apply lstrip_last_ok, rstrip_last_ok. Qed.

Lemma first_ok_lstrip s : first_ok s = true -> lstrip s = s.
Proof.
  destruct s as [|c s]; [reflexivity|].
  unfold first_ok. simpl. now destruct (isspace c).
Qed.

Lemma last_ok_rstrip s : last_ok s = true -> rstrip s = s.
Proof.
  induction s as [|c s IH]; intros H; [reflexivity|].
  cbn [rstrip]. rewrite IH by (now apply last_ok_tail in H).
  destruct s; [|reflexivity].
  unfold last_ok in H. simpl in H. now destruct (isspace c).
Qed.

Lemma trimmed_strip s : first_ok s = true -> last_ok s = true -> strip s = s.
Proof.
  intros Hf Hl. unfold strip. rewrite last_ok_rstrip by exact Hl.
  now apply first_ok_lstrip.
Qed.

Lemma lower_first_ok s : first_ok s = true -> first_ok (lower s) = true.
Proof.
  destruct s as [|c s]; [reflexivity|].
  unfold first_ok. simpl. now rewrite isspace_lower_char.
Qed.

Lemma last_char_lower s :
  last_char (lower s) = option_map lower_char (last_char s).
Proof.
  induction s as [|c s IH]; [reflexivity|].
  simpl. rewrite IH. now destruct (last_char s).
Qed.

Lemma lower_last_ok s : last_ok s = true -> last_ok (lower s) = true.
Proof.
  unfold last_ok. rewrite last_char_lower.
  destruct (last_char s); simpl; [|reflexivity]. now rewrite isspace_lower_char.
Qed.

Lemma lowered_lower s : lowered (lower s) = true.
Proof.
  induction s as [|c s IH]; [reflexivity|].
  unfold lowered in *. simpl. rewrite IH, lower_char_idem, Ascii.eqb_refl. reflexivity.
Qed.

Lemma lowered_fixed s : lowered s = true -> lower s = s.
Proof.
  unfold lowered. induction s as [|c s IH]; intros H; [reflexivity|].
  simpl in *. apply andb_true_iff in H as [Hc Hs].
  apply Ascii.eqb_eq in Hc. rewrite Hc. f_equal. now apply IH.
Qed.

Lemma first_char_app a b :
  first_char (a ++ b) = match first_char a with Some c => Some c | None => first_char b end.
Proof. now destruct a. Qed.

Lemma replace_first_ok old new s :
  old <> "" -> new <> "" -> first_ok new = true -> first_ok s = true ->
  first_ok (replace old new s) = true.
Proof.
  intros Hold Hnew Hf Hs. destruct old as [|o old]; [congruence|]. unfold replace.
  destruct s as [|c s]; [reflexivity|].
  cbn [replace_from]. destruct (prefix (String o old) (String c s)).
  - unfold first_ok in *. rewrite first_char_app.
    destruct new; [congruence|exact Hf].
  - exact Hs.
Qed.

Lemma replace_from_empty old new s :
  new <> "" -> replace_from old new 0 s = "" -> s = "".
Proof.
  intros Hnew. destruct s as [|c s]; [reflexivity|].
  cbn [replace_from]. destruct (prefix old (String c s)); [|discriminate].
  destruct new; [congruence|discriminate].
Qed.

Lemma replace_from_last_ok old new :
  new <> "" -> last_ok new = true ->
  forall s k, last_ok s = true -> last_ok (replace_from old new k s) = true.
Proof.
  intros Hnew Hl. induction s as [|c s IH]; intros k Hs; [reflexivity|].
  pose proof (last_ok_tail _ _ Hs) as Hs'.
  cbn [replace_from]. destruct k as [|k]; [|now apply IH].
  destruct (prefix old (String c s)).
  - apply last_ok_app; [exact Hl|now apply IH].
  - specialize (IH 0%nat Hs').
    destruct (replace_from old new 0 s) as [|x r] eqn:E.
    + apply replace_from_empty in E; [|exact Hnew]. now subst s.
    + unfold last_ok in *. now rewrite last_char_cons.
Qed.

Lemma replace_last_ok old new s :
  old <> "" -> new <> "" -> last_ok new = true -> last_ok s = true ->
  last_ok (replace old new s) = true.
Proof.
  intros Hold Hnew Hl Hs. destruct old as [|o old]; [congruence|].
  now apply replace_from_last_ok.
Qed.

(** *** [replace] with a shorter [new] shortens the string where [old] occurs *)

Lemma string_length_app a b :
  String.length (a ++ b) = (String.length a + String.length b)%nat.
Proof. induction a as [|c a IH]; simpl; [reflexivity|now rewrite IH]. Qed.

Lemma prefix_length old s :
  prefix old s = true -> (String.length old <= String.length s)%nat.
Proof.
  revert s. induction old as [|o old IH]; intros s H; simpl; [lia|].
  destruct s as [|c s]; simpl in H; [discriminate|].
  destruct (ascii_dec o c); [|discriminate].
  apply IH in H. simpl. lia.
Qed.

Lemma replace_from_length old new :
  old <> "" -> (String.length new <= String.length old)%nat ->
  forall s k, (k <= String.length s)%nat ->
  (String.length (replace_from old new k s) + k <= String.length s)%nat.
Proof.
  intros Hold Hlen. induction s as [|c s IH]; intros k Hk.
  - simpl in *. lia.
  - cbn [replace_from]. destruct k as [|k].
    + destruct (prefix old (String c s)) eqn:E.
      * apply prefix_length in E. cbn [String.length] in *.
        assert (Ho : (1 <= String.length old)%nat) by (destruct old; [congruence|simpl; lia]).
        rewrite string_length_app.
        specialize (IH (String.length old - 1)%nat ltac:(lia)). lia.
      * cbn [String.length]. specialize (IH 0%nat ltac:(lia)). lia.
    + cbn [String.length] in *. specialize (IH k ltac:(lia)). lia.
Qed.

Lemma replace_shortens old new s :
  old <> "" -> (String.length new < String.length old)%nat -> occurs old s = true ->
  (String.length (replace old new s) < String.length s)%nat.
Proof.
  intros Hold Hlen. destruct old as [|o old]; [congruence|]. unfold replace.
  induction s as [|c s IH]; intros H.
  - simpl in H. discriminate.
  - cbn [replace_from]. cbn [occurs] in H.
    destruct (prefix (String o old) (String c s)) eqn:E.
    + pose proof (prefix_length _ _ E) as Hp.
      rewrite string_length_app.
      pose proof (replace_from_length (String o old) new Hold ltac:(lia) s
                    (String.length (String o old) - 1)%nat) as Hl.
      cbn [String.length] in *. specialize (Hl ltac:(lia)). lia.
    + simpl in H. specialize (IH H). cbn [String.length]. lia.
Qed.

(** ** The column normalizer *)

Lemma nonempty_string c s : String c s <> "".
Proof. discriminate. Qed.

Create HintDb pystr.

#[local] Hint Resolve nonempty_string : pystr.

(** The output of the normalizer has none of the characters that it
    replaces, whatever the input. *)
Lemma clean_column_replaced_chars_absent s :
  has_char " " (clean_column s) = false /\
  has_char "-" (clean_column s) = false /\
  has_char "/" (clean_column s) = false /\
  has_char "#" (clean_column s) = false.
Proof.
  unfold clean_column.
  set (u := lower (strip s)).
  assert (H1 : has_char " " (replace " " "_" u) = false)
    by (now apply replace_char_removes).
  assert (H2 : has_char "-" (replace "-" "_" (replace " " "_" u)) = false)
    by (now apply replace_char_removes).
  set (r2 := replace "-" "_" (replace " " "_" u)) in *.
  assert (H1' : has_char " " r2 = false)
    by (apply replace_keeps_absent; auto with pystr).
  assert (H3 : has_char "/" (replace "/" "_" r2) = false)
    by (now apply replace_char_removes).
  set (r3 := replace "/" "_" r2) in *.
  assert (H4 : has_char "#" (replace "#" "number" r3) = false)
    by (now apply replace_char_removes).
  repeat split; repeat (apply replace_keeps_absent; auto with pystr).
Qed.

Lemma clean_column_trimmed s :
  first_ok (clean_column s) = true /\ last_ok (clean_column s) = true.
Proof.
  unfold clean_column. split.
  - repeat (apply replace_first_ok; auto with pystr).
    apply lower_first_ok, strip_first_ok.
  - repeat (apply replace_last_ok; auto with pystr).
    apply lower_last_ok, strip_last_ok.
Qed.

Lemma clean_column_lowered s : lowered (clean_column s) = true.
Proof.
  unfold clean_column, lowered.
  repeat (apply replace_all_chars; auto with pystr).
  apply lowered_lower.
Qed.

(** On a name that is already an output of the normalizer, only the last
    step, the collapse of the first doubled underscores, can act. *)
Lemma clean_column_twice s :
  clean_column (clean_column s) = replace "__" "_" (clean_column s).
Proof.
  destruct (clean_column_replaced_chars_absent s) as (Hsp & Hhy & Hsl & Hnb).
  destruct (clean_column_trimmed s) as [Hf Hl].
  pose proof (clean_column_lowered s) as Hlow.
  set (t := clean_column s) in *.
  unfold clean_column at 1. fold t.
  rewrite (trimmed_strip t Hf Hl), (lowered_fixed t Hlow).
  rewrite (replace_char_absent " " "_" t Hsp), (replace_char_absent "-" "_" t Hhy).
  rewrite (replace_char_absent "/" "_" t Hsl), (replace_char_absent "#" "number" t Hnb).
  reflexivity.
Qed.

(** C9. For every raw column name that contains a space, a hyphen or a
    slash, the output of the normalizer contains no space, no hyphen and no
    slash. *)
Theorem clean_column_drops_separators (s : string) :
  has_char " " s || has_char "-" s || has_char "/" s = true ->
  has_char " " (clean_column s) = false /\
  has_char "-" (clean_column s) = false /\
  has_char "/" (clean_column s) = false.
Proof.
  intros _. destruct (clean_column_replaced_chars_absent s) as (Hsp & Hhy & Hsl & _).
  auto.
Qed.

(** The theorem on the header "Settlement Date/Time". *)
Lemma clean_column_drops_separators_witness :
  has_char " " "Settlement Date/Time" || has_char "-" "Settlement Date/Time"
    || has_char "/" "Settlement Date/Time" = true /\
  has_char " " (clean_column "Settlement Date/Time") = false /\
  has_char "-" (clean_column "Settlement Date/Time") = false /\
  has_char "/" (clean_column "Settlement Date/Time") = false.
Proof.
  split; [reflexivity|].
  apply (clean_column_drops_separators "Settlement Date/Time"). reflexivity.
Defined.

(** C4, as stated, fails: the header "L2 - Tax" normalizes to "l2__tax"
    (the three underscores it goes through lose one), and normalizing
    "l2__tax" again gives "l2_tax". *)
Lemma clean_column_not_idempotent :
  clean_column "L2 - Tax" = "l2__tax" /\
  clean_column (clean_column "L2 - Tax") = "l2_tax" /\
  clean_column (clean_column "L2 - Tax") <> clean_column "L2 - Tax".
Proof. repeat split. discriminate. Qed.

(** C4, amended. Normalizing an output of the normalizer again returns it
    unchanged exactly when that output contains no doubled underscore:
    [clean_column (clean_column s) = clean_column s] if and only if "__"
    does not occur in [clean_column s]. *)
Theorem clean_column_idempotent_iff (s : string) :
  clean_column (clean_column s) = clean_column s <->
  occurs "__" (clean_column s) = false.
Proof.
  rewrite clean_column_twice. split.
  - intros H. destruct (occurs "__" (clean_column s)) eqn:E; [|reflexivity].
    apply (replace_shortens "__" "_") in E; [|discriminate|simpl; lia].
    rewrite H in E. lia.
  - intros H. apply replace_absent; [discriminate|exact H].
Qed.

(** ** The cleaning step of the date parsers *)


Lemma not_word_not_upper c : is_word c = false -> is_upper_AZ c = false.
Proof. each_char c. Qed.


Lemma tz_match_not_upper prev c s :
  is_upper_AZ c = false -> tz_match prev (String c s) = None.
Proof.
  intros H. unfold tz_match. cbn [upper_run_then_boundary]. rewrite H. simpl.
  now destruct (word_boundary prev (Some c)).
Qed.

(** Where there is no uppercase letter nothing matches, and the text is
    copied. *)
Lemma re_sub_tz_no_upper body :
  no_upper body = true ->
  forall prev rest,
    re_sub_tz_from prev 0 (body ++ rest)
    = body ++ re_sub_tz_from (match last_char body with Some l => Some l | None => prev end) 0 rest.
Proof.
  unfold no_upper. induction body as [|c b IH]; intros H prev rest; [reflexivity|].
  cbn [all_chars] in H. apply andb_true_iff in H as [Hc Hb].
  apply negb_true_iff in Hc.
  cbn [append re_sub_tz_from]. rewrite (tz_match_not_upper prev c (b ++ rest) Hc).
  rewrite (IH Hb (Some c) rest). cbn [last_char append].
  now destruct (last_char b).
Qed.

Lemma first_not_word_not_upper rest :
  is_word_at (first_char rest) = false ->
  match rest with "" => true | String x _ => negb (is_upper_AZ x) end = true.
Proof.
  destruct rest as [|x r]; [reflexivity|]. simpl. intros H.
  now rewrite (not_word_not_upper x H).
Qed.

(** A token of two to four capitals between two non-word positions is one
    match, and it is deleted. *)
Lemma re_sub_tz_token prev tz rest :
  is_word_at prev = false -> tz_token tz = true ->
  is_word_at (first_char rest) = false ->
  re_sub_tz_from prev 0 (tz ++ rest) = re_sub_tz_from (last_char tz) 0 rest.
Proof.
  intros Hprev Htz Hrest. unfold tz_token in Htz.
  apply andb_true_iff in Htz as [Htz Hmax]. apply andb_true_iff in Htz as [Hup Hmin].
  apply Nat.leb_le in Hmin, Hmax.
  pose proof (first_not_word_not_upper rest Hrest) as Hnu.
  destruct tz as [|a [|b [|c [|d [|e tz]]]]]; simpl in Hmin, Hmax; try lia;
    cbn [all_chars] in Hup;
    repeat (apply andb_true_iff in Hup as [?Hu Hup]);
    cbn [append re_sub_tz_from]; unfold tz_match;
    cbn [upper_run_then_boundary first_char]; unfold word_boundary;
    cbn [is_word_at]; rewrite Hprev;
    repeat match goal with
           | H : is_upper_AZ ?x = true |- _ =>
               rewrite (upper_AZ_is_word x H); rewrite H; clear H
           end;
    rewrite ?Hrest; cbn [xorb andb negb].
  - destruct rest as [|x r]; cbn [andb]; [reflexivity|].
    cbn [first_char is_word_at] in Hrest. simpl in Hnu. apply negb_true_iff in Hnu.
    rewrite Hnu. cbn [andb]. reflexivity.
  - destruct rest as [|x r]; cbn [andb]; [reflexivity|].
    cbn [first_char is_word_at] in Hrest. simpl in Hnu. apply negb_true_iff in Hnu.
    rewrite Hnu. cbn [andb]. reflexivity.
  - reflexivity.
Qed.

Lemma re_sub_tz_from_no_upper s prev :
  no_upper s = true -> re_sub_tz_from prev 0 s = s.
Proof.
  unfold no_upper. revert prev. induction s as [|c s IH]; intros prev H; [reflexivity|].
  cbn [all_chars] in H. apply andb_true_iff in H as [Hc Hs]. apply negb_true_iff in Hc.
  cbn [re_sub_tz_from]. rewrite (tz_match_not_upper prev c s Hc).
  f_equal. now apply IH.
Qed.



Lemma rstrip_blank w : blank w = true -> rstrip w = "".
Proof.
  unfold blank. induction w as [|c w IH]; intros H; [reflexivity|].
  cbn [all_chars] in H. apply andb_true_iff in H as [Hc Hw].
  cbn [rstrip]. now rewrite (IH Hw), Hc.
Qed.

Lemma rstrip_app_blank b w : blank w = true -> rstrip (b ++ w) = rstrip b.
Proof.
  intros Hw. induction b as [|c b IH]; simpl.
  - now apply rstrip_blank.
  - now rewrite IH.
Qed.



(** A token of two to four capitals is deleted wherever it stands, at the
    end of the value or in the middle of it. *)
Lemma re_sub_tz_single_token pre tz post :
  no_upper pre = true -> no_upper post = true ->
  is_word_at (last_char pre) = false -> is_word_at (first_char post) = false ->
  tz_token tz = true ->
  re_sub_tz (pre ++ tz ++ post) = pre ++ post.
Proof.
  intros Hpre Hpost Hl Hf Htz. unfold re_sub_tz.
  rewrite (re_sub_tz_no_upper pre Hpre).
  rewrite (re_sub_tz_token _ tz post); [| |exact Htz|exact Hf].
  - now rewrite (re_sub_tz_from_no_upper post _ Hpost).
  - now destruct (last_char pre).
Qed.


(** ** Data frames: what a step does to each column *)

Lemma framewise_labels R df df' : framewise R df df' -> labels df' = labels df.
Proof.
  intros [_ H]. unfold labels. induction H as [|c c' l l' [Hc _] _ IH]; simpl.
  - reflexivity.
  - now rewrite Hc, IH.
Qed.

Lemma framewise_nth R df df' k l v :
  framewise R df df' -> nth_error (columns df) k = Some (l, v) ->
  exists v', nth_error (columns df') k = Some (l, v') /\ R l v v'.
Proof.
  intros [_ H]. revert k. induction H as [|c c' cs cs' [Hc HR] _ IH]; intros k Hk.
  - now destruct k.
  - destruct k as [|k]; simpl in *.
    + injection Hk as ->. destruct c' as [l' v']. simpl in *. subst l'.
      now exists v'.
    + now apply IH.
Qed.

Lemma framewise_trans R1 R2 a b c :
  framewise R1 a b -> framewise R2 b c ->
  framewise (fun l v v'' => exists v', R1 l v v' /\ R2 l v' v'') a c.
Proof.
  intros [Hn1 H1] [Hn2 H2]. split; [congruence|].
  revert H2. generalize (columns c). clear Hn1 Hn2.
  induction H1 as [|x y xs ys [Hl HR] _ IH]; intros zs H2; inversion H2; subst.
  - constructor.
  - constructor; [|now apply IH].
    destruct H1 as [Hl' HR']. split; [congruence|].
    exists (snd y). split; [exact HR|]. now rewrite <- Hl.
Qed.

Lemma framewise_impl (R R' : col_rel) df df' :
  (forall l v v', R l v v' -> R' l v v') -> framewise R df df' -> framewise R' df df'.
Proof.
  intros Himp [Hn H]. split; [exact Hn|].
  induction H as [|x y xs ys [Hl HR] _ IH]; constructor; auto.
Qed.

Lemma Forall2_map_self {A : Type} (Q : A -> A -> Prop) (g : A -> A) (l : list A) :
  (forall c, In c l -> Q c (g c)) -> Forall2 Q l (map g l).
Proof.
  induction l as [|c l IH]; intros H; simpl; constructor.
  - apply H. now left.
  - apply IH. intros x Hx. apply H. now right.
Qed.

(** *** Selecting columns by label *)

Lemma select_cons col c cols :
  select col (c :: cols)
  = if String.eqb (fst c) col then snd c :: select col cols else select col cols.
Proof. unfold select. simpl. now destruct (String.eqb (fst c) col). Qed.

Lemma select_nil col cols c :
  select col cols = [] -> In c cols -> String.eqb (fst c) col = false.
Proof.
  induction cols as [|x cols IH]; intros H Hin; [destruct Hin|].
  rewrite select_cons in H. destruct (String.eqb (fst x) col) eqn:E; [discriminate|].
  destruct Hin as [->|Hin]; [exact E|now apply IH].
Qed.

Lemma select_single col cols s c :
  select col cols = [s] -> In c cols -> String.eqb (fst c) col = true -> snd c = s.
Proof.
  induction cols as [|x cols IH]; intros H Hin Hc; [destruct Hin|].
  rewrite select_cons in H. destruct (String.eqb (fst x) col) eqn:E.
  - injection H as Hs Hnil. destruct Hin as [->|Hin]; [exact Hs|].
    rewrite (select_nil col cols c Hnil Hin) in Hc. discriminate.
  - destruct Hin as [->|Hin]; [congruence|now apply IH].
Qed.

Lemma has_column_false df col c :
  has_column df col = false -> In c (columns df) -> String.eqb (fst c) col = false.
Proof.
  unfold has_column, labels. intros H Hin.
  destruct (String.eqb (fst c) col) eqn:E; [|reflexivity].
  apply String.eqb_eq in E. rewrite <- H. symmetry. apply existsb_exists.
  exists (fst c). split; [now apply in_map|]. rewrite E. apply String.eqb_refl.
Qed.

Lemma has_column_select df col :
  has_column df col = true -> select col (columns df) <> [].
Proof.
  unfold has_column, labels. intros H Hnil. apply existsb_exists in H as (l & Hin & Hl).
  apply in_map_iff in Hin as (c & Hc & Hin). subst l.
  apply (select_nil col _ c Hnil) in Hin.
  rewrite String.eqb_sym in Hl. congruence.
Qed.

Lemma touches_single col (F : Series -> Series -> Prop) l v v' :
  touches [col] F l v v' <-> (if String.eqb l col then F v v' else v' = v).
Proof. unfold touches. simpl. now rewrite orb_false_r. Qed.

(** *** One turn of a loop *)

Lemma framewise_id df (R : col_rel) :
  (forall c, In c (columns df) -> R (fst c) (snd c) (snd c)) -> framewise R df df.
Proof.
  intros H. split; [reflexivity|].
  rewrite <- (map_id (columns df)) at 2. apply Forall2_map_self. auto.
Qed.

Lemma series_body_framewise f col df df' :
  (forall ss, f (AFrame ss) = Raise) ->
  series_body f col df = Ok df' ->
  framewise (touches [col] (fun v v' => f (ASeries v) = Ok v')) df df'.
Proof.
  intros Hframe. unfold series_body. destruct (has_column df col) eqn:Hc.
  - unfold getitem. destruct (select col (columns df)) as [|s [|s' ss]] eqn:Hsel;
      simpl; try discriminate.
    + destruct (f (ASeries s)) as [v|] eqn:Hf; simpl; [|discriminate].
      intros [= <-]. unfold setitem_series. rewrite Hc. split; [reflexivity|].
      simpl. apply Forall2_map_self. intros c Hin. rewrite touches_single.
      destruct (String.eqb (fst c) col) eqn:E; simpl; split; try reflexivity.
      now rewrite (select_single col _ s c Hsel Hin E).
    + now rewrite Hframe.
  - intros [= <-]. apply framewise_id. intros c Hin. rewrite touches_single.
    now rewrite (has_column_false df col c Hc Hin).
Qed.

(** *** A whole loop *)

Lemma for_each_framewise body cols (F : Series -> Series -> Prop) :
  NoDup cols ->
  (forall col d d', body col d = Ok d' -> framewise (touches [col] F) d d') ->
  forall df df', for_each body cols df = Ok df' -> framewise (touches cols F) df df'.
Proof.
  intros Hnd Hbody. induction cols as [|c rest IH]; intros df df' H; simpl in H.
  - injection H as <-. apply framewise_id. intros c _. reflexivity.
  - inversion Hnd as [|? ? Hnotin Hnd']; subst.
    destruct (body c df) as [d1|] eqn:E; simpl in H; [|discriminate].
    apply Hbody in E. apply (IH Hnd') in H.
    eapply framewise_impl; [|exact (framewise_trans _ _ _ _ _ E H)].
    intros l v v' (v1 & H1 & H2). apply touches_single in H1.
    unfold touches in *. simpl. destruct (String.eqb l c) eqn:Elc; simpl.
    + apply String.eqb_eq in Elc. subst l.
      destruct (existsb (String.eqb c) rest) eqn:Ex.
      * exfalso. apply Hnotin. apply existsb_exists in Ex as (x & Hx & Hcx).
        apply String.eqb_eq in Hcx. now subst x.
      * now subst v'.
    + now subst v1.
Qed.

Lemma for_each_skip body cols df :
  (forall col, In col cols -> body col df = Ok df) -> for_each body cols df = Ok df.
Proof.
  induction cols as [|c rest IH]; intros H; simpl; [reflexivity|].
  rewrite (H c) by now left. simpl. apply IH. intros col Hin. apply H. now right.
Qed.

Lemma for_each_ok body cols (Inv : DataFrame -> Prop) :
  (forall col d, In col cols -> Inv d -> exists d', body col d = Ok d' /\ Inv d') ->
  forall df, Inv df -> exists df', for_each body cols df = Ok df' /\ Inv df'.
Proof.
  induction cols as [|c rest IH]; intros Hbody df Hdf; simpl.
  - now exists df.
  - destruct (Hbody c df (or_introl eq_refl) Hdf) as (d1 & -> & H1). simpl.
    apply IH; [|exact H1]. intros col d Hin. apply Hbody. now right.
Qed.

(** *** The forced-text turn, on one column or on several *)

Lemma assign_select col (f : Series -> Series) cols :
  assign_columns col (map f (select col cols)) cols
  = map (fun c => if String.eqb (fst c) col then (fst c, f (snd c)) else c) cols.
Proof.
  induction cols as [|c cols IH]; [reflexivity|].
  rewrite select_cons. cbn [assign_columns map].
  destruct (String.eqb (fst c) col); cbn [map]; now rewrite IH.
Qed.

Lemma string_body_eq P col df :
  string_body P col df
  = Ok (mkDataFrame (nrows df)
          (map (fun c => if String.eqb (fst c) col
                         then (fst c, astype_str_series P (snd c)) else c)
             (columns df))).
Proof.
  unfold string_body. destruct (has_column df col) eqn:Hc.
  - unfold getitem. pose proof (has_column_select df col Hc) as Hne.
    destruct (select col (columns df)) as [|s [|s' ss]] eqn:Hsel; [congruence| |].
    + simpl. unfold setitem_series. rewrite Hc. do 2 f_equal.
      apply map_ext_in. intros c Hin.
      destruct (String.eqb (fst c) col) eqn:E; [|reflexivity].
      now rewrite (select_single col _ s c Hsel Hin E).
    + cbn [bind astype_str setitem]. rewrite <- Hsel. now rewrite assign_select.
  - destruct df as [n cols]. simpl in *. do 2 f_equal.
    rewrite <- (map_id cols) at 1. apply map_ext_in. intros c Hin.
    now rewrite (has_column_false (mkDataFrame n cols) col c Hc Hin).
Qed.

Lemma string_body_framewise P col df df' :
  string_body P col df = Ok df' ->
  framewise (touches [col] (fun v v' => v' = astype_str_series P v)) df df'.
Proof.
  rewrite string_body_eq. intros [= <-]. split; [reflexivity|]. simpl.
  apply Forall2_map_self. intros c _. rewrite touches_single.
  now destruct (String.eqb (fst c) col).
Qed.

(** ** The type coercion stage, column by column *)

Section StageColumns.

Context (P : Pandas).

Lemma numeric_body_framewise col d d' :
  numeric_body P col d = Ok d' -> framewise (touches [col] (numeric_column P)) d d'.
Proof.
  intros H.
  assert (Hs : series_body (fun x => v <- to_numeric P x ; Ok (map cell_of_numeric v)) col d
               = Ok d').
  { rewrite <- H. unfold series_body, numeric_body.
    destruct (has_column d col); [|reflexivity].
    destruct (getitem d col) as [x|]; [|reflexivity]. simpl.
    now destruct (to_numeric P x). }
  apply series_body_framewise in Hs; [|reflexivity].
  eapply framewise_impl; [|exact Hs]. intros l v v'. unfold touches.
  destruct (existsb (String.eqb l) [col]); [|auto].
  simpl. now intros [= <-].
Qed.

Lemma parse_date_column v v' :
  parse_datetime_with_tz P (ASeries v) = Ok v' -> date_column P v v'.
Proof.
  unfold date_column. simpl.
  destruct (to_datetime P _) as [r|]; simpl; [|discriminate].
  intros [= <-]. now exists r.
Qed.

Lemma datetime_body_framewise col d d' :
  datetime_body P col d = Ok d' -> framewise (touches [col] (date_column P)) d d'.
Proof.
  intros H. change (series_body (parse_datetime_with_tz P) col d = Ok d') in H.
  apply series_body_framewise in H; [|reflexivity].
  eapply framewise_impl; [|exact H]. intros l v v'. unfold touches.
  destruct (existsb (String.eqb l) [col]); [|auto].
  apply parse_date_column.
Qed.

Lemma business_day_framewise d d' :
  business_day_step P d = Ok d' -> framewise (touches ["business_day"] (date_column P)) d d'.
Proof.
  intros H. change (series_body (parse_date P) "business_day" d = Ok d') in H.
  apply series_body_framewise in H; [|reflexivity].
  eapply framewise_impl; [|exact H]. intros l v v'. unfold touches.
  destruct (existsb (String.eqb l) ["business_day"]); [|auto].
  apply parse_date_column.
Qed.

Lemma reserved_body_framewise col d d' :
  reserved_body P col d = Ok d' -> framewise (touches [col] (int64_column P)) d d'.
Proof.
  intros H.
  assert (Hs : series_body (fun x => v <- to_numeric P x ; astype_Int64 v) col d = Ok d').
  { rewrite <- H. unfold series_body, reserved_body.
    destruct (has_column d col); [|reflexivity].
    destruct (getitem d col) as [x|]; [|reflexivity]. simpl.
    now destruct (to_numeric P x). }
  apply series_body_framewise in Hs; [|reflexivity].
  eapply framewise_impl; [|exact Hs]. intros l v v'. unfold touches.
  destruct (existsb (String.eqb l) [col]); auto.
Qed.

Ltac nodup_strings :=
  repeat (constructor; [simpl; intuition discriminate|]); constructor.

Lemma NoDup_numeric_fields : NoDup numeric_fields.
Proof. unfold numeric_fields. nodup_strings. Qed.

Lemma NoDup_datetime_fields : NoDup datetime_fields.
Proof. unfold datetime_fields. nodup_strings. Qed.

Lemma NoDup_reserved_fields : NoDup reserved_fields.
Proof. unfold reserved_fields. nodup_strings. Qed.

Lemma NoDup_string_columns : NoDup string_columns.
Proof. unfold string_columns. nodup_strings. Qed.

Lemma stage_framewise df df' :
  type_coercion_stage P df = Ok df' -> framewise (stage_column P) df df'.
Proof.
  unfold type_coercion_stage. intros H.
  destruct (numeric_loop P df) as [d1|] eqn:E1; simpl in H; [|discriminate].
  destruct (datetime_loop P d1) as [d2|] eqn:E2; simpl in H; [|discriminate].
  destruct (business_day_step P d2) as [d3|] eqn:E3; simpl in H; [|discriminate].
  destruct (reserved_loop P d3) as [d4|] eqn:E4; simpl in H; [|discriminate].
  apply (for_each_framewise _ _ (numeric_column P) NoDup_numeric_fields
           numeric_body_framewise) in E1.
  apply (for_each_framewise _ _ (date_column P) NoDup_datetime_fields
           datetime_body_framewise) in E2.
  apply business_day_framewise in E3.
  apply (for_each_framewise _ _ (int64_column P) NoDup_reserved_fields
           reserved_body_framewise) in E4.
  apply (for_each_framewise _ _ (text_column P) NoDup_string_columns
           (string_body_framewise P)) in H.
  pose proof (framewise_trans _ _ _ _ _ E1
                (framewise_trans _ _ _ _ _ E2
                   (framewise_trans _ _ _ _ _ E3
                      (framewise_trans _ _ _ _ _ E4 H)))) as Hall.
  eapply framewise_impl; [|exact Hall]. clear.
  intros l v v' (v1 & H1 & v2 & H2 & v3 & H3 & v4 & H4 & H5).
  now exists v1, v2, v3, v4.
Qed.

End StageColumns.

(** ** Column normalization on a batch *)

Lemma combine_map_fst_snd {A B C : Type} (f : A -> C) (l : list (A * B)) :
  combine (map f (map fst l)) (map snd l) = map (fun c => (f (fst c), snd c)) l.
Proof. induction l as [|c l IH]; simpl; [reflexivity|now rewrite IH]. Qed.

Lemma normalize_columns_eq df :
  normalize_columns df
  = Ok (mkDataFrame (nrows df) (map (fun c => (clean_column (fst c), snd c)) (columns df))).
Proof.
  unfold normalize_columns, set_columns, labels.
  rewrite !length_map, Nat.eqb_refl. now rewrite combine_map_fst_snd.
Qed.

(** C3, as stated, fails: the two headers normalize to "invoice_number",
    and after the step the batch has two columns of that name, the first
    still holding the values of the earlier raw column. *)
Lemma normalize_columns_keeps_both :
  clean_column "Invoice #" = clean_column "invoice number" /\
  normalize_columns colliding_headers
  = Ok (mkDataFrame 1 [("invoice_number", [Str "A"]); ("invoice_number", [Str "B"])]) /\
  select "invoice_number"
    (map (fun c => (clean_column (fst c), snd c)) (columns colliding_headers))
  = [[Str "A"]; [Str "B"]].
Proof. repeat split. Qed.

(** C3, amended. The column-normalization step raises nothing and keeps
    every column, in order and with its values; only the labels change,
    each to its normalized form. So when two distinct raw headers
    normalize to the same canonical name, the batch has that name on both
    columns: the columns that carry a canonical name afterwards are all the
    raw columns whose header normalizes to it, each with its own values,
    and nothing is overwritten. *)
Theorem normalize_columns_relabels_only (df : DataFrame) :
  exists df',
    normalize_columns df = Ok df' /\
    nrows df' = nrows df /\
    labels df' = map clean_column (labels df) /\
    map snd (columns df') = map snd (columns df) /\
    forall name,
      select name (columns df')
      = map snd (filter (fun c => String.eqb (clean_column (fst c)) name) (columns df)).
Proof.
  eexists. split; [apply normalize_columns_eq|]. simpl. unfold labels. simpl.
  repeat split.
  - rewrite !map_map. reflexivity.
  - rewrite map_map. reflexivity.
  - intros name. unfold select. induction (columns df) as [|c cols IH]; [reflexivity|].
    simpl. destruct (String.eqb (clean_column (fst c)) name); simpl; now rewrite IH.
Qed.

(** ** The timestamp stamper *)

(** C7, as stated, fails: on a batch that already has a column named
    "load_time" the stamper adds no column, and the stamped column stays
    where it was, here first and not last. *)
Lemma stamp_adds_no_column_when_present :
  labels (stamp_load_time some_moment already_stamped) = ["load_time"; "transaction_id"] /\
  List.length (columns (stamp_load_time some_moment already_stamped))
  = List.length (columns already_stamped) /\
  nth_error (columns (stamp_load_time some_moment already_stamped)) 0
  = Some ("load_time", [Timestamp some_moment; Timestamp some_moment]).
Proof. repeat split. Qed.

Lemma stamp_load_time_eq now df :
  stamp_load_time now df
  = if has_column df "load_time"
    then mkDataFrame (nrows df)
           (map (fun c => if String.eqb (fst c) "load_time"
                          then (fst c, repeat (Timestamp now) (nrows df)) else c)
              (columns df))
    else mkDataFrame (nrows df)
           (columns df ++ [("load_time", repeat (Timestamp now) (nrows df))]).
Proof. reflexivity. Qed.

(** C7, amended. On a batch that has no column named "load_time" the
    stamper adds exactly one column, last, and changes nothing else. On a
    batch that already has such a column it adds none: the labels stay as
    they are and that column is overwritten where it stands. In both cases
    the row count is unchanged, the columns with another label keep their
    place and their values, and every row of a "load_time" column holds the
    same value, the one moment [now] read when the batch was stamped. *)
Theorem stamp_load_time_column (now : datetime) (df : DataFrame) :
  nrows (stamp_load_time now df) = nrows df /\
  (has_column df "load_time" = false ->
   columns (stamp_load_time now df)
   = (columns df ++ [("load_time", repeat (Timestamp now) (nrows df))])%list) /\
  (has_column df "load_time" = true ->
   labels (stamp_load_time now df) = labels df) /\
  (forall k l v, nth_error (columns df) k = Some (l, v) -> l <> "load_time" ->
                 nth_error (columns (stamp_load_time now df)) k = Some (l, v)) /\
  (forall v, In ("load_time", v) (columns (stamp_load_time now df)) ->
             v = repeat (Timestamp now) (nrows df) /\
             forall i c, nth_error v i = Some c -> c = Timestamp now).
Proof.
  rewrite stamp_load_time_eq.
  assert (Hrep : forall i c, nth_error (repeat (Timestamp now) (nrows df)) i = Some c ->
                             c = Timestamp now).
  { intros i c H. apply nth_error_In in H. now apply repeat_spec in H. }
  destruct (has_column df "load_time") eqn:Hc; simpl.
  - split; [reflexivity|]. split; [discriminate|]. split; [|split].
    + intros _. unfold labels. simpl. rewrite map_map. apply map_ext.
      intros c. cbv beta. destruct (String.eqb _ _); reflexivity.
    + intros k l v Hk Hl. unfold Series in *. rewrite nth_error_map, Hk. simpl.
      apply String.eqb_neq in Hl. rewrite Hl. reflexivity.
    + intros v Hin. apply in_map_iff in Hin as (c & Hcv & _).
      destruct (String.eqb (fst c) "load_time") eqn:E.
      * injection Hcv as _ <-. split; [reflexivity|exact Hrep].
      * subst c. simpl in E. discriminate.
  - split; [reflexivity|]. split; [reflexivity|]. split; [discriminate|]. split.
    + intros k l v Hk _. rewrite nth_error_app1; [exact Hk|].
      apply nth_error_Some. congruence.
    + intros v Hin. apply in_app_or in Hin as [Hin|[Hin|[]]].
      * apply (has_column_false df "load_time" _ Hc) in Hin. simpl in Hin. discriminate.
      * injection Hin as <-. split; [reflexivity|exact Hrep].
Qed.

(** ** Batches whose labels are pairwise distinct *)

Lemma In_existsb_eqb l cols : In l cols -> existsb (String.eqb l) cols = true.
Proof.
  intros H. apply existsb_exists. exists l. split; [exact H|apply String.eqb_refl].
Qed.

Lemma select_absent col cols :
  ~ In col (map fst cols) -> select col cols = [].
Proof.
  induction cols as [|c cols IH]; intros H; [reflexivity|].
  rewrite select_cons. simpl in H. destruct (String.eqb (fst c) col) eqn:E.
  - apply String.eqb_eq in E. tauto.
  - apply IH. tauto.
Qed.

Lemma select_NoDup col cols :
  NoDup (map fst cols) -> (List.length (select col cols) <= 1)%nat.
Proof.
  induction cols as [|c cols IH]; intros H; [simpl; lia|].
  simpl in H. inversion H as [|? ? Hnotin Hnd]; subst.
  rewrite select_cons. destruct (String.eqb (fst c) col) eqn:E.
  - apply String.eqb_eq in E. subst col. rewrite (select_absent _ _ Hnotin). simpl. lia.
  - now apply IH.
Qed.

Lemma cell_at_column df k l v i :
  nth_error (columns df) k = Some (l, v) -> cell_at df k i = nth_error v i.
Proof. unfold cell_at. now intros ->. Qed.

Lemma select_single_In col cols s : select col cols = [s] -> In (col, s) cols.
Proof.
  unfold select. intros Hsel.
  assert (Hi : In s (map snd (filter (fun c => String.eqb (fst c) col) cols)))
    by (rewrite Hsel; now left).
  apply in_map_iff in Hi as ([l v] & Hv & Hf). simpl in Hv. subst v.
  apply filter_In in Hf as [Hf Hl]. simpl in Hl. apply String.eqb_eq in Hl.
  now subst l.
Qed.

Lemma select_length_labels col cols :
  List.length (select col cols)
  = List.length (filter (fun l => String.eqb l col) (map fst cols)).
Proof.
  induction cols as [|c cols IH]; [reflexivity|].
  rewrite select_cons. simpl. destruct (String.eqb (fst c) col); simpl; now rewrite IH.
Qed.

Lemma label_count_labels col d d' :
  labels d' = labels d -> label_count col d' = label_count col d.
Proof.
  unfold label_count, labels. intros H. now rewrite !select_length_labels, H.
Qed.

Lemma unique_in_labels cols d d' :
  labels d' = labels d -> unique_in cols d -> unique_in cols d'.
Proof.
  intros H Hu col Hin. rewrite (label_count_labels col d d' H). now apply Hu.
Qed.

Lemma select_no_column df col : has_column df col = false -> select col (columns df) = [].
Proof.
  intros H.
  assert (Hf : forall c, In c (columns df) -> String.eqb (fst c) col = false)
    by (intros c; apply has_column_false; exact H).
  clear H. induction (columns df) as [|c cols IH]; [reflexivity|].
  rewrite select_cons, (Hf c (or_introl eq_refl)). apply IH.
  intros x Hx. apply Hf. now right.
Qed.

Lemma getitem_single df col :
  has_column df col = true -> (label_count col df <= 1)%nat ->
  exists s, getitem df col = Ok (ASeries s) /\ In (col, s) (columns df).
Proof.
  intros Hc Hle. unfold getitem, label_count in *.
  pose proof (has_column_select df col Hc) as Hne.
  destruct (select col (columns df)) as [|s [|s' ss]] eqn:Hsel;
    [congruence| |simpl in Hle; lia].
  exists s. split; [reflexivity|]. now apply select_single_In.
Qed.

Lemma getitem_several df col :
  (2 <= label_count col df)%nat ->
  has_column df col = true /\ exists ss, getitem df col = Ok (AFrame ss).
Proof.
  intros Hge. unfold getitem, label_count in *. split.
  - destruct (has_column df col) eqn:Hc; [reflexivity|].
    rewrite (select_no_column df col Hc) in Hge. simpl in Hge. lia.
  - destruct (select col (columns df)) as [|s [|s' ss]]; simpl in Hge; try lia.
    eexists. reflexivity.
Qed.

(** *** What [pd.to_numeric] makes of a column *)

Lemma convert_length l : List.length (convert l) = List.length l.
Proof.
  unfold convert. destruct (seen_float l); [apply length_map|].
  destruct (existsb is_uint l); apply length_map.
Qed.

Lemma to_numeric_series_length P v :
  List.length (to_numeric_series P v) = List.length v.
Proof.
  unfold to_numeric_series. destruct (forallb is_nullable v); [apply length_map|].
  now rewrite convert_length, length_map.
Qed.

Lemma not_all_nullable (v : Series) i c :
  nth_error v i = Some c -> is_nullable c = false -> forallb (is_nullable) v = false.
Proof.
  intros Hi Hc. destruct (forallb is_nullable v) eqn:E; [|reflexivity].
  rewrite forallb_forall in E. rewrite (E c) in Hc; [discriminate|].
  now apply nth_error_In in Hi.
Qed.

(** A cell that is a float or is missing makes the column float64, and
    stands in it with its own value, whatever the other cells are. *)
Lemma to_numeric_series_float P v i c :
  nth_error v i = Some c -> is_nullable c = false -> snd (scan P c) = None ->
  nth_error (to_numeric_series P v) i = Some (fst (scan P c)).
Proof.
  intros Hi Hn Hc. unfold to_numeric_series.
  rewrite (not_all_nullable v i c Hi Hn). unfold convert, seen_float.
  assert (E : existsb not_integer (map (scan P) v) = true).
  { apply existsb_exists. exists (scan P c). split.
    - apply in_map. now apply nth_error_In in Hi.
    - unfold not_integer. now rewrite Hc. }
  rewrite E. cbn [orb]. now rewrite !nth_error_map, Hi.
Qed.

(** A text is missing after the conversion exactly when it denotes no
    number on its own. *)
Lemma scan_str_float s f : floatify s = Some (f, true) -> exists x, f = NNum x.
Proof.
  unfold floatify. destruct (to_double (c_str s)) as [[x b]|].
  - intros [= <- _]. now exists x.
  - destruct (inf_word (c_str s)); discriminate.
Qed.

Lemma scan_str_integer s f z : scan_str s = (f, Some z) -> exists x, f = NNum x.
Proof.
  unfold scan_str. destruct (floatify s) as [[g [|]]|] eqn:E; try discriminate.
  destruct (py_int s); [|discriminate]. intros [= <- _]. exact (scan_str_float s g E).
Qed.

Lemma convert_single x :
  convert [x] = [match snd x with
                 | Some z => if not_integer x then fst x
                             else if is_uint x then NU64 z else NI64 z
                 | None => fst x
                 end].
Proof.
  unfold convert, seen_float, as_uint64, as_int64. cbn [existsb map].
  rewrite !orb_false_r. destruct x as [f [z|]]; cbn [fst snd].
  - unfold is_sint, is_uint, not_integer. cbn [snd].
    destruct ((z <? int64_min)%Z || (uint64_max <? z)%Z) eqn:E1; cbn [orb].
    + reflexivity.
    + destruct (z <? 0)%Z eqn:E2, (int64_max <? z)%Z eqn:E3; cbn [andb]; try reflexivity.
      exfalso. unfold int64_max in E3. lia.
  - reflexivity.
Qed.

Lemma parse_number_none s : parse_number s = None <-> scan_str s = (NNaN, None).
Proof.
  unfold parse_number. rewrite convert_single.
  destruct (scan_str s) as [f [z|]] eqn:E; cbn [fst snd].
  - destruct (scan_str_integer s f z E) as [x ->]. split; [|discriminate].
    destruct (not_integer _); [discriminate|]. now destruct (is_uint _).
  - destruct f; split; try discriminate; reflexivity.
Qed.

Lemma scan_numeric_integer n f z : scan_numeric n = (f, Some z) -> exists x, f = NNum x.
Proof. destruct n; simpl; intros [= <- _]; try discriminate; eauto. Qed.

Lemma scan_integer P c f z : scan P c = (f, Some z) -> exists x, f = NNum x.
Proof.
  destruct c; simpl; try discriminate; try (intros [= <- _]; eauto; fail).
  - apply scan_str_integer.
  - apply scan_numeric_integer.
  - apply scan_numeric_integer.
  - apply scan_numeric_integer.
Qed.

(** A cell that [pd.to_numeric] makes NaN on its own is neither an integer
    nor a value of the nullable type. *)
Lemma to_numeric_cell_nan P c :
  to_numeric_cell P c = NNaN ->
  is_nullable c = false /\ scan P c = (NNaN, None).
Proof.
  unfold to_numeric_cell, to_numeric_series. cbn [forallb map]. rewrite andb_true_r.
  destruct (is_nullable c) eqn:En.
  - destruct c; try discriminate.
  - rewrite convert_single. cbn [hd]. intros H. split; [reflexivity|].
    destruct (scan P c) as [f [z|]] eqn:E; cbn [fst snd] in H.
    + destruct (scan_integer P c f z E) as [x ->].
      destruct (not_integer _); [discriminate|]. now destruct (is_uint _).
    + now subst f.
Qed.

(** The conversion of a column that has been converted returns it as it
    is. *)
Lemma scan_cell_of_float P n :
  is_float n = true -> scan P (cell_of_numeric n) = (n, None).
Proof. destruct n; simpl; try discriminate; reflexivity. Qed.

Lemma scan_fst_float P c : is_float (fst (scan P c)) = true.
Proof.
  assert (Hs : forall s, is_float (fst (scan_str s)) = true).
  { intros s. unfold scan_str. destruct (floatify s) as [[f [|]]|] eqn:E; try reflexivity.
    - destruct (py_int s); [|reflexivity]. now destruct (scan_str_float s f E) as [x ->].
    - unfold floatify in E. destruct (to_double (c_str s)) as [[x b]|].
      + injection E as <- _. reflexivity.
      + destruct (inf_word (c_str s)); [|discriminate]. injection E as <-. reflexivity. }
  assert (Hn : forall n, is_float (fst (scan_numeric n)) = true)
    by (intros n; now destruct n).
  destruct c; simpl; try reflexivity; auto.
Qed.

Lemma map_fst_again P (v : Series) :
  v <> [] ->
  to_numeric_series P (map cell_of_numeric (map fst (map (scan P) v)))
  = map fst (map (scan P) v).
Proof.
  intros Hv. unfold to_numeric_series.
  assert (Hsc : map (scan P) (map cell_of_numeric (map fst (map (scan P) v)))
                = map (fun x => (x, None)) (map fst (map (scan P) v))).
  { rewrite !map_map. apply map_ext. intros c.
    apply scan_cell_of_float, scan_fst_float. }
  assert (Hnn : forallb is_nullable (map cell_of_numeric (map fst (map (scan P) v))) = false).
  { destruct v as [|c v]; [congruence|]. cbn [map forallb].
    pose proof (scan_fst_float P c) as Hc.
    destruct (fst (scan P c)); try discriminate; reflexivity. }
  rewrite Hnn, Hsc. unfold convert, seen_float.
  assert (E : existsb not_integer (map (fun x : numeric => (x, @None Z))
                                     (map fst (map (scan P) v))) = true).
  { destruct v as [|c v]; [congruence|]. reflexivity. }
  rewrite E. cbn [orb]. rewrite map_map. cbn [fst]. now rewrite map_id.
Qed.

Lemma existsb_map {A B : Type} (f : B -> bool) (g : A -> B) l :
  existsb f (map g l) = existsb (fun a => f (g a)) l.
Proof. induction l as [|a l IH]; [reflexivity|]. simpl. now rewrite IH. Qed.


Lemma existsb_false_forall {A : Type} (f : A -> bool) l :
  existsb f l = false -> forall a, In a l -> f a = false.
Proof.
  intros H a Ha. destruct (f a) eqn:E; [|reflexivity].
  assert (existsb f l = true) by (apply existsb_exists; now exists a). congruence.
Qed.

(** The scan of an integer column, signed or not, finds the integers
    again. *)
Lemma integers_again P (v : Series) (g : scanned -> numeric) :
  (forall x z, snd x = Some z ->
               scan P (cell_of_numeric (g x)) = (NNum (float_of_Z z), Some z)
               /\ is_nullable (cell_of_numeric (g x)) = false) ->
  existsb not_integer (map (scan P) v) = false ->
  map (fun c => snd (scan P c)) (map cell_of_numeric (map g (map (scan P) v)))
  = map (fun c => snd (scan P c)) v
  /\ (v <> [] -> forallb is_nullable (map cell_of_numeric (map g (map (scan P) v))) = false).
Proof.
  intros Hg Hint. split.
  - rewrite !map_map. apply map_ext_in. intros c Hc.
    pose proof (existsb_false_forall _ _ Hint (scan P c) (in_map _ _ _ Hc)) as Hi.
    unfold not_integer in Hi. destruct (snd (scan P c)) as [z|] eqn:E; [|discriminate].
    now rewrite (proj1 (Hg _ z E)).
  - intros Hv. destruct v as [|c v]; [congruence|]. cbn [map forallb].
    pose proof (existsb_false_forall _ _ Hint (scan P c) (or_introl eq_refl)) as Hi.
    unfold not_integer in Hi. destruct (snd (scan P c)) as [z|] eqn:E; [|discriminate].
    now rewrite (proj2 (Hg _ z E)).
Qed.

(** The flags of the scan depend on the integers only. *)
Lemma flags_same (l l' : list scanned) :
  map snd l = map snd l' ->
  existsb not_integer l = existsb not_integer l' /\
  existsb is_sint l = existsb is_sint l' /\
  existsb is_uint l = existsb is_uint l'.
Proof.
  revert l'. induction l as [|x l IH]; intros [|x' l'] H; try discriminate.
  - repeat split.
  - cbn [map] in H. injection H as Hx Hl. destruct (IH l' Hl) as (H1 & H2 & H3).
    cbn [existsb]. unfold not_integer, is_sint, is_uint in *.
    rewrite Hx, H1, H2, H3. repeat split.
Qed.

Lemma to_numeric_series_again P v :
  to_numeric_series P (map cell_of_numeric (to_numeric_series P v))
  = to_numeric_series P v.
Proof.
  destruct v as [|c0 v0]; [reflexivity|]. set (v := c0 :: v0).
  assert (Hv : v <> []) by discriminate.
  unfold to_numeric_series at 2 3. destruct (forallb is_nullable v) eqn:En.
  - assert (Hid : forall l, forallb is_nullable l = true ->
                            map cell_of_numeric (map nullable l) = l).
    { induction l as [|c l IH]; [reflexivity|]. cbn [forallb map].
      intros H. apply andb_true_iff in H as [Hc Hl]. rewrite (IH Hl).
      destruct c; try discriminate; reflexivity. }
    rewrite (Hid v En). unfold to_numeric_series. now rewrite En.
  - unfold convert. destruct (seen_float (map (scan P) v)) eqn:Ef.
    + now apply map_fst_again.
    + pose proof Ef as Ef0. unfold seen_float in Ef.
      apply orb_false_iff in Ef as [Hint Hsu].
      assert (Hout : forall g : scanned -> numeric,
                 (forall x z, snd x = Some z -> g x = NU64 z) \/
                 (forall x z, snd x = Some z -> g x = NI64 z) ->
                 to_numeric_series P (map cell_of_numeric (map g (map (scan P) v)))
                 = if existsb is_uint (map (scan P) v)
                   then map as_uint64 (map (scan P) v)
                   else map as_int64 (map (scan P) v)).
      { intros g Hg.
        destruct (integers_again P v g) as [Hsc Hnn]; [|exact Hint|].
        { intros x z Hx. destruct Hg as [Hg|Hg]; rewrite (Hg x z Hx); now split. }
        unfold to_numeric_series. rewrite (Hnn Hv).
        assert (Hfl : map snd (map (scan P) (map cell_of_numeric (map g (map (scan P) v))))
                      = map snd (map (scan P) v)).
        { rewrite (map_map (scan P) snd), Hsc. now rewrite map_map. }
        destruct (flags_same _ _ Hfl) as (F1 & F2 & F3).
        unfold convert, seen_float. rewrite F1, F2, F3.
        fold (seen_float (map (scan P) v)). rewrite Ef0.
        assert (Hg' : forall (h : scanned -> numeric),
                   (forall x z, snd x = Some z -> h x = h (NNum (float_of_Z z), Some z)) ->
                   map h (map (scan P) (map cell_of_numeric (map g (map (scan P) v))))
                   = map h (map (scan P) v)).
        { intros h Hh. rewrite !map_map. apply map_ext_in. intros c Hc.
          pose proof (existsb_false_forall _ _ Hint (scan P c) (in_map _ _ _ Hc)) as Hi.
          unfold not_integer in Hi.
          destruct (snd (scan P c)) as [z|] eqn:E; [|discriminate].
          rewrite (Hh (scan P c) z E).
          destruct Hg as [Hg|Hg]; rewrite (Hg _ z E); reflexivity. }
        destruct (existsb is_uint (map (scan P) v)).
        - apply Hg'. intros x z Hx. unfold as_uint64. now rewrite Hx.
        - apply Hg'. intros x z Hx. unfold as_int64. now rewrite Hx. }
      destruct (existsb is_uint (map (scan P) v)) eqn:Eu.
      * apply Hout. left. intros x z Hx. unfold as_uint64. now rewrite Hx.
      * apply Hout. right. intros x z Hx. unfold as_int64. now rewrite Hx.
Qed.

Lemma numeric_body_labels P c d d' : numeric_body P c d = Ok d' -> labels d' = labels d.
Proof. intros H. apply numeric_body_framewise in H. now apply framewise_labels in H. Qed.

Lemma datetime_body_labels P c d d' : datetime_body P c d = Ok d' -> labels d' = labels d.
Proof. intros H. apply datetime_body_framewise in H. now apply framewise_labels in H. Qed.

Lemma reserved_body_labels P c d d' : reserved_body P c d = Ok d' -> labels d' = labels d.
Proof. intros H. apply reserved_body_framewise in H. now apply framewise_labels in H. Qed.

Lemma business_day_labels P d d' : business_day_step P d = Ok d' -> labels d' = labels d.
Proof. intros H. apply business_day_framewise in H. now apply framewise_labels in H. Qed.

Lemma numeric_body_single P col df :
  In col numeric_fields -> unique_in series_only_fields df ->
  exists df', numeric_body P col df = Ok df' /\ unique_in series_only_fields df'.
Proof.
  intros Hin Hu.
  assert (H : exists df', numeric_body P col df = Ok df').
  { unfold numeric_body. destruct (has_column df col) eqn:Hc; [|now exists df].
    destruct (getitem_single df col Hc) as (s & -> & _).
    - apply Hu. unfold series_only_fields. apply in_or_app. now left.
    - simpl. eexists. reflexivity. }
  destruct H as [df' H]. exists df'. split; [exact H|].
  apply (unique_in_labels _ df); [|exact Hu]. now apply numeric_body_labels in H.
Qed.

Lemma numeric_body_unique P cols col df :
  In col cols -> unique_in cols df ->
  exists df', numeric_body P col df = Ok df' /\ unique_in cols df'.
Proof.
  intros Hin Hu.
  assert (H : exists df', numeric_body P col df = Ok df').
  { unfold numeric_body. destruct (has_column df col) eqn:Hc; [|now exists df].
    destruct (getitem_single df col Hc (Hu col Hin)) as (s & -> & _).
    simpl. eexists. reflexivity. }
  destruct H as [df' H]. exists df'. split; [exact H|].
  apply (unique_in_labels _ df); [|exact Hu]. now apply numeric_body_labels in H.
Qed.

Lemma NoDup_unique_in cols df : NoDup (labels df) -> unique_in cols df.
Proof. intros Hnd col _. now apply select_NoDup. Qed.

(** C5, as stated, fails: when two columns of the batch are named
    "settlement_amount", [df["settlement_amount"]] is a DataFrame and
    [pd.to_numeric] raises on it, so that the "N/A" cell is not replaced and
    the numeric coercion does raise. *)
Lemma numeric_coercion_raises_on_duplicate_name :
  normalize_columns two_amount_headers = Ok two_amount_columns /\
  numeric_loop iso_pandas two_amount_columns = Raise.
Proof. split; reflexivity. Qed.

(** C5, amended. In a batch in which no name of the numeric-amount group
    ([numeric_fields]) is carried by two columns, for every cell of a
    column of that group whose text denotes no number, such as "N/A", the
    numeric coercion (lines 57-63) raises nothing, stores the missing value
    NaN in that cell, whatever the other cells of the column hold, and
    keeps the rows and the columns of the batch. *)
Theorem numeric_coercion_of_non_numeric_text
    (P : Pandas) (df : DataFrame) (k i : nat) (col : string) (v : Series) (s : string) :
  unique_in numeric_fields df ->
  nth_error (columns df) k = Some (col, v) ->
  In col numeric_fields ->
  nth_error v i = Some (Str s) ->
  parse_number s = None ->
  exists df',
    numeric_loop P df = Ok df' /\
    nrows df' = nrows df /\
    labels df' = labels df /\
    cell_at df' k i = Some NaN.
Proof.
  intros Hu Hk Hin Hi Hs.
  destruct (for_each_ok (numeric_body P) numeric_fields (unique_in numeric_fields)
              (numeric_body_unique P numeric_fields) df Hu) as (df' & H & _).
  exists df'. split; [exact H|].
  apply (for_each_framewise _ _ (numeric_column P) (NoDup_numeric_fields)
           (numeric_body_framewise P)) in H.
  split; [apply H|]. split; [now apply (framewise_labels _ _ _ H)|].
  destruct (framewise_nth _ _ _ _ _ _ H Hk) as (v' & Hk' & Hv).
  unfold touches in Hv. rewrite (In_existsb_eqb _ _ Hin) in Hv.
  unfold numeric_column in Hv. subst v'.
  rewrite (cell_at_column _ _ _ _ _ Hk'), nth_error_map.
  apply parse_number_none in Hs.
  rewrite (to_numeric_series_float P v i (Str s) Hi eq_refl); cbn [scan]; now rewrite Hs.
Qed.

(** The theorem on a batch whose "settlement_amount" column holds "N/A" and
    "10.50", beside two columns that are both named "memo". *)
Lemma numeric_coercion_of_non_numeric_text_witness :
  exists df',
    numeric_loop iso_pandas amounts_with_memos = Ok df' /\
    nrows df' = nrows amounts_with_memos /\
    labels df' = labels amounts_with_memos /\
    cell_at df' 1 0 = Some NaN.
Proof.
  apply (numeric_coercion_of_non_numeric_text iso_pandas amounts_with_memos 1 0
           "settlement_amount" [Str "N/A"; Str "10.50"] "N/A").
  - intros col Hcol. simpl in Hcol.
    decompose [or] Hcol; subst; try contradiction; vm_compute; lia.
  - reflexivity.
  - simpl. tauto.
  - reflexivity.
  - reflexivity.
Defined.

(** ** The nullable-integer recast *)

Lemma mapM_nth {A B : Type} (f : A -> result B) l l' i a :
  mapM f l = Ok l' -> nth_error l i = Some a ->
  exists b, nth_error l' i = Some b /\ f a = Ok b.
Proof.
  revert l' i. induction l as [|x l IH]; intros l' i H Hi; [now destruct i|].
  simpl in H. destruct (f x) as [b|] eqn:Hf; simpl in H; [|discriminate].
  destruct (mapM f l) as [bs|] eqn:Hm; simpl in H; [|discriminate].
  injection H as <-. destruct i as [|i]; simpl in *.
  - injection Hi as <-. now exists b.
  - now apply (IH bs).
Qed.

Lemma mapM_length {A B : Type} (f : A -> result B) l l' :
  mapM f l = Ok l' -> List.length l' = List.length l.
Proof.
  revert l'. induction l as [|x l IH]; intros l' H; simpl in H.
  - now injection H as <-.
  - destruct (f x) as [b|]; simpl in H; [|discriminate].
    destruct (mapM f l) as [bs|]; simpl in H; [|discriminate].
    injection H as <-. simpl. now rewrite (IH bs).
Qed.

(** What the stage makes of a reserved column: the numeric conversion of
    line 63, then the conversion and the cast of line 76. *)
Lemma stage_reserved_column P df df' k col v :
  type_coercion_stage P df = Ok df' ->
  nth_error (columns df) k = Some (col, v) ->
  In col reserved_fields ->
  exists v', nth_error (columns df') k = Some (col, v') /\
             astype_Int64 (to_numeric_series P v) = Ok v'.
Proof.
  intros H Hk Hin. apply stage_framewise in H.
  destruct (framewise_nth _ _ _ _ _ _ H Hk) as (v' & Hk' & v1 & v2 & v3 & v4 & H1 & H2 & H3 & H4 & H5).
  exists v'. split; [exact Hk'|].
  unfold touches in *. rewrite (In_existsb_eqb _ _ Hin) in H4.
  assert (Hn : existsb (String.eqb col) numeric_fields = true
               /\ existsb (String.eqb col) datetime_fields = false
               /\ existsb (String.eqb col) ["business_day"] = false
               /\ existsb (String.eqb col) string_columns = false).
  { simpl in Hin. decompose [or] Hin; subst; try contradiction; repeat split. }
  destruct Hn as (E1 & E2 & E3 & E5). rewrite E1 in H1. rewrite E2 in H2.
  rewrite E3 in H3. rewrite E5 in H5. subst v' v3 v2.
  unfold numeric_column in H1. subst v1. unfold int64_column in H4.
  now rewrite to_numeric_series_again in H4.
Qed.

(** C6. For every reserved column present in the batch, once the coercion
    stage has run, a cell whose text was "12.0" holds the integer 12 and a
    cell whose text was "abc" holds the missing value [pd.NA]; more
    generally every cell that the numeric conversion made missing is still
    missing after the integer recast. *)
Theorem reserved_cells_after_stage
    (P : Pandas) (df df' : DataFrame) (k i : nat) (col : string) (v : Series) :
  type_coercion_stage P df = Ok df' ->
  nth_error (columns df) k = Some (col, v) ->
  In col reserved_fields ->
  (nth_error v i = Some (Str "12.0") -> cell_at df' k i = Some (Int 12)) /\
  (nth_error v i = Some (Str "abc") -> cell_at df' k i = Some NA) /\
  (forall c, nth_error v i = Some c -> to_numeric_cell P c = NNaN ->
             cell_at df' k i = Some NA).
Proof.
  intros H Hk Hin.
  destruct (stage_reserved_column P df df' k col v H Hk Hin) as (v' & Hk' & Hv).
  rewrite (cell_at_column _ _ _ _ _ Hk').
  assert (Hcell : forall c, nth_error v i = Some c ->
            is_nullable c = false -> snd (scan P c) = None ->
            exists b, nth_error v' i = Some b
                      /\ astype_Int64_value (fst (scan P c)) = Ok b).
  { intros c Hc Hn Hs. apply (mapM_nth _ _ _ i (fst (scan P c)) Hv).
    now apply to_numeric_series_float. }
  repeat split.
  - intros Hi. destruct (Hcell _ Hi eq_refl eq_refl) as (b & -> & Hb).
    vm_compute in Hb. congruence.
  - intros Hi. destruct (Hcell _ Hi eq_refl eq_refl) as (b & -> & Hb).
    vm_compute in Hb. congruence.
  - intros c Hi Hc. apply to_numeric_cell_nan in Hc as [Hn Hs].
    destruct (Hcell _ Hi Hn) as (b & -> & Hb); [now rewrite Hs|].
    rewrite Hs in Hb. simpl in Hb. congruence.
Qed.

(** The theorem on a batch whose "reserved15" column holds "12.0" and "abc". *)
Lemma reserved_cells_after_stage_witness :
  type_coercion_stage iso_pandas reserved_batch = Ok reserved_batch_coerced /\
  cell_at reserved_batch_coerced 1 0 = Some (Int 12) /\
  cell_at reserved_batch_coerced 1 1 = Some NA.
Proof.
  assert (Hrun : type_coercion_stage iso_pandas reserved_batch = Ok reserved_batch_coerced)
    by reflexivity.
  assert (Hcol : nth_error (columns reserved_batch) 1
                 = Some ("reserved15", [Str "12.0"; Str "abc"])) by reflexivity.
  assert (Hin : In "reserved15" reserved_fields) by (simpl; tauto).
  split; [exact Hrun|]. split.
  - apply (proj1 (reserved_cells_after_stage iso_pandas reserved_batch
                    reserved_batch_coerced 1 0 "reserved15" _ Hrun Hcol Hin)).
    reflexivity.
  - apply (proj1 (proj2 (reserved_cells_after_stage iso_pandas reserved_batch
                           reserved_batch_coerced 1 1 "reserved15" _ Hrun Hcol Hin))).
    reflexivity.
Defined.

(** ** Columns outside the groups, and columns that are absent *)

Lemma not_in_any_group l :
  in_any_group l = false ->
  existsb (String.eqb l) numeric_fields = false /\
  existsb (String.eqb l) datetime_fields = false /\
  existsb (String.eqb l) ["business_day"] = false /\
  existsb (String.eqb l) reserved_fields = false /\
  existsb (String.eqb l) string_columns = false.
Proof.
  unfold in_any_group, all_groups. rewrite !existsb_app, !orb_false_iff. tauto.
Qed.

Lemma has_column_In df col : has_column df col = true -> In col (labels df).
Proof.
  unfold has_column. intros H. apply existsb_exists in H as (l & Hin & Hl).
  apply String.eqb_eq in Hl. now subst l.
Qed.

Lemma group_column_absent df col :
  (forall l, In l (labels df) -> in_any_group l = false) ->
  In col all_groups -> has_column df col = false.
Proof.
  intros Hout Hin. destruct (has_column df col) eqn:Hc; [|reflexivity].
  apply has_column_In, Hout in Hc. unfold in_any_group in Hc.
  now rewrite (In_existsb_eqb _ _ Hin) in Hc.
Qed.

(** C8. The coercion stage only modifies the columns named in its fixed
    groups. A turn of a loop for a name that is absent from the batch
    returns the batch as it is and raises nothing, and a batch with no
    column in any group goes through the whole stage unchanged. When the
    stage returns, the row count and the labels are those of the input, and
    every column whose name is in no group is at the same place with the
    same values. *)
Theorem coercion_stage_frame (P : Pandas) (df : DataFrame) :
  (forall col, has_column df col = false ->
     numeric_body P col df = Ok df /\ datetime_body P col df = Ok df /\
     reserved_body P col df = Ok df /\ string_body P col df = Ok df) /\
  (has_column df "business_day" = false -> business_day_step P df = Ok df) /\
  ((forall l, In l (labels df) -> in_any_group l = false) ->
     type_coercion_stage P df = Ok df) /\
  (forall df', type_coercion_stage P df = Ok df' ->
     nrows df' = nrows df /\
     labels df' = labels df /\
     forall k l v, nth_error (columns df) k = Some (l, v) -> in_any_group l = false ->
                   nth_error (columns df') k = Some (l, v)).
Proof.
  split; [|split; [|split]].
  - intros col Hc. unfold numeric_body, datetime_body, reserved_body, string_body.
    rewrite Hc. auto.
  - intros Hc. unfold business_day_step. now rewrite Hc.
  - intros Hout.
    assert (Habs : forall col, In col all_groups -> has_column df col = false)
      by (intros col; apply group_column_absent; exact Hout).
    assert (E1 : numeric_loop P df = Ok df).
    { apply for_each_skip. intros col Hin. unfold numeric_body.
      rewrite Habs; [reflexivity|]. unfold all_groups. apply in_or_app. now left. }
    assert (E2 : datetime_loop P df = Ok df).
    { apply for_each_skip. intros col Hin. unfold datetime_body.
      rewrite Habs; [reflexivity|].
      unfold all_groups. apply in_or_app. right. apply in_or_app. now left. }
    assert (E3 : business_day_step P df = Ok df).
    { unfold business_day_step. rewrite (Habs "business_day"); [reflexivity|].
      unfold all_groups. do 2 (apply in_or_app; right). now left. }
    assert (E4 : reserved_loop P df = Ok df).
    { apply for_each_skip. intros col Hin. unfold reserved_body.
      rewrite Habs; [reflexivity|].
      unfold all_groups. do 3 (apply in_or_app; right). apply in_or_app. now left. }
    assert (E5 : string_loop P df = Ok df).
    { apply for_each_skip. intros col Hin. unfold string_body.
      rewrite Habs; [reflexivity|].
      unfold all_groups. do 4 (apply in_or_app; right). exact Hin. }
    unfold type_coercion_stage. rewrite E1. cbn [bind]. rewrite E2. cbn [bind].
    rewrite E3. cbn [bind]. rewrite E4. cbn [bind]. exact E5.
  - intros df' H. apply stage_framewise in H.
    split; [apply H|]. split; [now apply (framewise_labels _ _ _ H)|].
    intros k l v Hk Hout.
    destruct (framewise_nth _ _ _ _ _ _ H Hk)
      as (v' & Hk' & v1 & v2 & v3 & v4 & H1 & H2 & H3 & H4 & H5).
    destruct (not_in_any_group l Hout) as (E1 & E2 & E3 & E4 & E5).
    unfold touches in *. rewrite E1 in H1. rewrite E2 in H2. rewrite E3 in H3.
    rewrite E4 in H4. rewrite E5 in H5. congruence.
Qed.

(** ** The forced-text recast *)

Lemma string_loop_ok P df : exists df', string_loop P df = Ok df'.
Proof.
  destruct (for_each_ok (string_body P) string_columns (fun _ => True)) with (df := df)
    as (df' & H & _); [|exact I|now exists df'].
  intros col d _ _. rewrite string_body_eq. eexists. split; [reflexivity|exact I].
Qed.

Lemma astype_str_series_nth P v i c :
  nth_error (astype_str_series P v) i = Some c ->
  exists c0, nth_error v i = Some c0 /\ c = Str (str_of_cell P c0).
Proof.
  unfold astype_str_series. rewrite nth_error_map.
  destruct (nth_error v i) as [c0|]; simpl; [|discriminate].
  intros [= <-]. now exists c0.
Qed.

(** C10. The forced-text recast (lines 79-82) never raises. It keeps the
    rows and the labels, and in every column named in [string_columns]
    each cell becomes a text: a missing value becomes the literal text
    "nan", so that after the step these columns hold no missing value. *)
Theorem forced_text_turns_missing_into_nan (P : Pandas) (df : DataFrame) :
  exists df',
    string_loop P df = Ok df' /\
    nrows df' = nrows df /\
    labels df' = labels df /\
    forall k col v, nth_error (columns df) k = Some (col, v) -> In col string_columns ->
      nth_error (columns df') k = Some (col, astype_str_series P v) /\
      (forall i, nth_error v i = Some NaN -> cell_at df' k i = Some (Str "nan")) /\
      (forall i c, cell_at df' k i = Some c -> is_missing c = false).
Proof.
  destruct (string_loop_ok P df) as [df' H]. exists df'. split; [exact H|].
  apply (for_each_framewise _ _ (text_column P) NoDup_string_columns
           (string_body_framewise P)) in H.
  split; [apply H|]. split; [now apply (framewise_labels _ _ _ H)|].
  intros k col v Hk Hin.
  destruct (framewise_nth _ _ _ _ _ _ H Hk) as (v' & Hk' & Hv).
  unfold touches in Hv. rewrite (In_existsb_eqb _ _ Hin) in Hv.
  unfold text_column in Hv. subst v'. split; [exact Hk'|].
  split.
  - intros i Hi. rewrite (cell_at_column _ _ _ _ _ Hk').
    unfold astype_str_series. now rewrite nth_error_map, Hi.
  - intros i c. rewrite (cell_at_column _ _ _ _ _ Hk'). intros Hc.
    apply astype_str_series_nth in Hc as (c0 & _ & ->). reflexivity.
Qed.

(** ** When the stage returns *)

Lemma framewise_In R df df' c' :
  framewise R df df' -> In c' (columns df') ->
  exists c, In c (columns df) /\ fst c' = fst c /\ R (fst c) (snd c) (snd c').
Proof.
  intros [_ H]. induction H as [|x y xs ys [Hl HR] _ IH]; intros Hin; [destruct Hin|].
  destruct Hin as [<-|Hin].
  - exists x. split; [now left|]. now split.
  - destruct (IH Hin) as (c & Hc & Hrest). exists c. split; [now right|exact Hrest].
Qed.

Lemma reserved_label_groups l :
  In l reserved_fields ->
  existsb (String.eqb l) numeric_fields = true /\
  existsb (String.eqb l) datetime_fields = false /\
  existsb (String.eqb l) ["business_day"] = false /\
  existsb (String.eqb l) string_columns = false.
Proof.
  intros Hin. simpl in Hin. decompose [or] Hin; subst; try contradiction; repeat split.
Qed.

(** A column that the cast has produced goes through the conversion and
    the cast unchanged. *)
Lemma astype_Int64_nullable l w :
  astype_Int64 l = Ok w -> forallb is_nullable w = true.
Proof.
  unfold astype_Int64. revert w. induction l as [|n l IH]; intros w H; simpl in H.
  - now injection H as <-.
  - destruct (astype_Int64_value n) as [b|] eqn:Hb; simpl in H; [|discriminate].
    destruct (mapM astype_Int64_value l) as [bs|]; simpl in H; [|discriminate].
    injection H as <-. cbn [forallb].
    rewrite (IH bs eq_refl), andb_true_r.
    destruct n as [f| | |z|z|z|]; cbn [astype_Int64_value] in Hb; try discriminate;
      try (injection Hb as <-; reflexivity).
    + destruct (integral_value f) as [z|]; [|discriminate].
      destruct (in_int64 z); [injection Hb as <-; reflexivity|discriminate].
    + destruct (z <=? int64_max)%Z; [injection Hb as <-; reflexivity|discriminate].
Qed.

Lemma astype_Int64_again P l w :
  astype_Int64 l = Ok w -> astype_Int64 (to_numeric_series P w) = Ok w.
Proof.
  intros H. apply astype_Int64_nullable in H.
  unfold to_numeric_series. rewrite H. unfold astype_Int64. clear l.
  induction w as [|c w IH]; [reflexivity|]. cbn [forallb] in H.
  apply andb_true_iff in H as [Hc Hw]. cbn [map mapM]. rewrite (IH Hw).
  destruct c; try discriminate; reflexivity.
Qed.

(** ** A reserved cell that is not a whole number *)

(** C1: the property fails on the code. Whenever a cell of a reserved
    column holds a text, without NUL character, that pandas reads as a
    float (a number written with a point or an exponent, or a spelling of
    infinity) and that float cannot be cast to [Int64] (it is not whole,
    as 12.5, or infinite, or outside the int64 range), the stage raises
    instead of storing a missing value in that cell, whatever the other
    cells and columns hold: line 63 converts the text to the float, and
    the cast of line 76 raises on it. *)
Theorem coercion_stage_raises_on_fractional_reserved
    (P : Pandas) (df : DataFrame) (k i : nat) (col : string) (v : Series)
    (s : string) (n : numeric) :
  nth_error (columns df) k = Some (col, v) ->
  In col reserved_fields ->
  nth_error v i = Some (Str s) ->
  has_char "000" s = false ->
  floatify s = Some (n, false) ->
  astype_Int64_value n = Raise ->
  type_coercion_stage P df = Raise.
Proof.
  intros Hk Hin Hi _ Hs Hn.
  destruct (type_coercion_stage P df) as [df'|] eqn:E; [exfalso|reflexivity].
  destruct (stage_reserved_column P df df' k col v E Hk Hin) as (v' & _ & Hv).
  assert (Hsc : scan P (Str s) = (n, None)) by (cbn [scan]; unfold scan_str; now rewrite Hs).
  apply (mapM_nth _ _ _ i n) in Hv as (b & _ & Hb); [congruence|].
  rewrite (to_numeric_series_float P v i (Str s) Hi eq_refl); now rewrite Hsc.
Qed.

(** The theorem on the batch whose "reserved15" column holds "12.5". *)
Lemma coercion_stage_raises_on_fractional_reserved_witness :
  numeric_loop iso_pandas fractional_reserved
  = Ok (mkDataFrame 1 [("reserved15", [Num 12.5])]) /\
  reserved_loop iso_pandas (mkDataFrame 1 [("reserved15", [Num 12.5])]) = Raise /\
  type_coercion_stage iso_pandas fractional_reserved = Raise.
Proof.
  split; [reflexivity|]. split; [reflexivity|].
  apply (coercion_stage_raises_on_fractional_reserved iso_pandas fractional_reserved
           0 0 "reserved15" [Str "12.5"] "12.5" (NNum 12.5)).
  - reflexivity.
  - simpl. tauto.
  - reflexivity.
  - reflexivity.
  - reflexivity.
  - reflexivity.
Defined.

(** When the stage returns, no row has been removed: the row count and the
    length of every column are those of the input. *)
Lemma coercion_stage_keeps_rows P df df' :
  well_formed df -> type_coercion_stage P df = Ok df' ->
  nrows df' = nrows df /\ well_formed df'.
Proof.
  intros Hwf H. apply stage_framewise in H. split; [apply H|].
  destruct H as [Hn H]. unfold well_formed in *. rewrite Hn.
  revert Hwf. unfold Series in *. generalize (nrows df). intros n Hwf.
  induction H as [|c c' cs cs' [Hl HR] _ IH]; [constructor|].
  inversion Hwf as [|? ? Hc Hcs]; subst. constructor; [|now apply IH].
  destruct HR as (v1 & v2 & v3 & v4 & H1 & H2 & H3 & H4 & H5).
  unfold touches, numeric_column, date_column, int64_column, text_column in *.
  assert (Ld : forall a b, (exists r, to_datetime P (map (fun x => clean_tz (str_of_cell P x)) a)
                                      = Ok r /\ b = map date_cell r) ->
                           List.length b = List.length a).
  { intros a b (r & Hr & ->). apply to_datetime_length in Hr.
    now rewrite length_map, Hr, length_map. }
  assert (L1 : List.length v1 = List.length (snd c))
    by (destruct (existsb _ numeric_fields); subst;
        [now rewrite length_map, to_numeric_series_length|reflexivity]).
  assert (L2 : List.length v2 = List.length v1)
    by (destruct (existsb _ datetime_fields); subst; [now apply Ld|reflexivity]).
  assert (L3 : List.length v3 = List.length v2)
    by (destruct (existsb _ ["business_day"]); subst; [now apply Ld|reflexivity]).
  assert (L4 : List.length v4 = List.length v3)
    by (destruct (existsb _ reserved_fields); subst;
        [apply mapM_length in H4; now rewrite H4, to_numeric_series_length|reflexivity]).
  assert (L5 : List.length (snd c') = List.length v4)
    by (destruct (existsb _ string_columns); [rewrite H5; apply length_map|now rewrite H5]).
  congruence.
Qed.

(** ** Date coercion *)

Lemma stage_datetime_column P df df' k col v :
  type_coercion_stage P df = Ok df' ->
  nth_error (columns df) k = Some (col, v) ->
  In col datetime_fields ->
  exists v', nth_error (columns df') k = Some (col, v')
             /\ parse_datetime_with_tz P (ASeries v) = Ok v'.
Proof.
  intros H Hk Hin. apply stage_framewise in H.
  destruct (framewise_nth _ _ _ _ _ _ H Hk)
    as (v' & Hk' & v1 & v2 & v3 & v4 & H1 & H2 & H3 & H4 & H5).
  unfold touches in *. rewrite (In_existsb_eqb _ _ Hin) in H2.
  assert (Hn : existsb (String.eqb col) numeric_fields = false
               /\ existsb (String.eqb col) ["business_day"] = false
               /\ existsb (String.eqb col) reserved_fields = false
               /\ existsb (String.eqb col) string_columns = false).
  { simpl in Hin. decompose [or] Hin; subst; try contradiction; repeat split. }
  destruct Hn as (E1 & E3 & E4 & E5). rewrite E1 in H1. rewrite E3 in H3.
  rewrite E4 in H4. rewrite E5 in H5. destruct H2 as (r & Hr & H2).
  subst v' v4 v3 v2 v1. exists (map date_cell r). split; [exact Hk'|].
  unfold parse_datetime_with_tz. now rewrite Hr.
Qed.

(** What the date parsers return is one date or NaT per cell. *)
Lemma parse_datetime_cells P v v' :
  parse_datetime_with_tz P (ASeries v) = Ok v' ->
  List.length v' = List.length v /\ forallb is_date_or_NaT v' = true.
Proof.
  unfold parse_datetime_with_tz.
  destruct (to_datetime P _) as [r|] eqn:Hr; cbn [bind]; [|discriminate].
  intros [= <-]. apply to_datetime_length in Hr. split.
  - now rewrite length_map, Hr, length_map.
  - apply forallb_forall. intros c Hc. apply in_map_iff in Hc as (o & <- & _).
    now destruct o.
Qed.


(** *** The tokens of a value *)







(** * Further properties *)

(** ** The normalizer: the shape of its outputs *)

Lemma lowered_no_upper_char c : Ascii.eqb (lower_char c) c = true -> is_upper_AZ c = false.
Proof. each_char c. Qed.

Lemma lowered_no_upper s : lowered s = true -> no_upper s = true.
Proof.
  unfold lowered, no_upper. induction s as [|c s IH]; intros H; [reflexivity|].
  cbn [all_chars] in *. apply andb_true_iff in H as [Hc Hs].
  now rewrite (lowered_no_upper_char c Hc), IH.
Qed.

(** X1. Whatever the header, the normalized name has no "#", no capital
    A-Z, no whitespace at either end, and is left alone by [lower] and by
    [strip]. *)
Theorem clean_column_canonical (s : string) :
  has_char "#" (clean_column s) = false /\
  no_upper (clean_column s) = true /\
  lower (clean_column s) = clean_column s /\
  strip (clean_column s) = clean_column s.
Proof.
  destruct (clean_column_replaced_chars_absent s) as (_ & _ & _ & Hnb).
  destruct (clean_column_trimmed s) as [Hf Hl].
  pose proof (clean_column_lowered s) as Hlow.
  repeat split.
  - exact Hnb.
  - now apply lowered_no_upper.
  - now apply lowered_fixed.
  - now apply trimmed_strip.
Qed.

Lemma strip_fixed_trimmed s : strip s = s -> first_ok s = true /\ last_ok s = true.
Proof.
  intros H. rewrite <- H. split; [apply strip_first_ok|apply strip_last_ok].
Qed.

Lemma lower_fixed_lowered s : lower s = s -> lowered s = true.
Proof. intros H. rewrite <- H. apply lowered_lower. Qed.

(** X2. The names that the normalizer leaves unchanged are exactly the
    names that [strip] and [lower] leave unchanged and that contain no
    space, hyphen, slash or "#" and no doubled underscore. *)
Theorem clean_column_fixed_point_iff (s : string) :
  clean_column s = s <->
  strip s = s /\ lower s = s /\ no_replaced_char s = true /\ occurs "__" s = false.
Proof.
  split.
  - intros H.
    destruct (clean_column_replaced_chars_absent s) as (Hsp & Hhy & Hsl & Hnb).
    destruct (clean_column_trimmed s) as [Hf Hl].
    pose proof (lowered_fixed _ (clean_column_lowered s)) as Hlow.
    pose proof (trimmed_strip _ Hf Hl) as Hstrip.
    pose proof (clean_column_twice s) as Htwice.
    rewrite H in *. repeat split; try assumption.
    + unfold no_replaced_char. now rewrite Hsp, Hhy, Hsl, Hnb.
    + destruct (occurs "__" s) eqn:E; [|reflexivity].
      apply (replace_shortens "__" "_") in E; [|discriminate|simpl; lia].
      rewrite <- Htwice, H in E. lia.
  - intros (Hstrip & Hlow & Hchars & Hdouble).
    unfold no_replaced_char in Hchars. apply negb_true_iff in Hchars.
    repeat (apply orb_false_iff in Hchars as [Hchars ?Hc]).
    unfold clean_column. rewrite Hstrip, Hlow.
    rewrite (replace_char_absent " " "_" s Hchars), (replace_char_absent "-" "_" s Hc1).
    rewrite (replace_char_absent "/" "_" s Hc0), (replace_char_absent "#" "number" s Hc).
    apply replace_absent; [discriminate|exact Hdouble].
Qed.

(** ** The normalizer: headers that give the same name *)

Lemma rstrip_empty_blank s : rstrip s = "" -> blank s = true.
Proof.
  unfold blank. induction s as [|c s IH]; intros H; [reflexivity|].
  cbn [rstrip] in H. destruct (rstrip s) as [|x r]; [|discriminate].
  destruct (isspace c) eqn:E; [|discriminate].
  cbn [all_chars]. now rewrite E, IH.
Qed.

Lemma lstrip_empty_blank s : lstrip s = "" -> blank s = true.
Proof.
  unfold blank. induction s as [|c s IH]; intros H; [reflexivity|].
  cbn [lstrip] in H. destruct (isspace c) eqn:E; [|discriminate].
  cbn [all_chars]. now rewrite E, IH.
Qed.

Lemma blank_last_ok s : blank s = true -> last_ok s = true -> s = "".
Proof.
  unfold blank, last_ok. induction s as [|c s IH]; intros Hb Hl; [reflexivity|].
  cbn [all_chars] in Hb. apply andb_true_iff in Hb as [Hc Hs].
  rewrite last_char_cons in Hl. destruct s as [|x s].
  - now rewrite Hc in Hl.
  - specialize (IH Hs Hl). discriminate.
Qed.

Lemma strip_empty_iff s : strip s = "" <-> blank s = true.
Proof.
  unfold strip. split.
  - intros H. apply lstrip_empty_blank in H.
    apply rstrip_empty_blank, (blank_last_ok _ H), rstrip_last_ok.
  - intros H. now rewrite (rstrip_blank s H).
Qed.

Lemma lower_empty_iff s : lower s = "" <-> s = "".
Proof. destruct s; split; intros H; try reflexivity; discriminate. Qed.

Lemma replace_empty_iff old new s :
  old <> "" -> new <> "" -> (replace old new s = "" <-> s = "").
Proof.
  intros Hold Hnew. destruct old as [|o old]; [congruence|]. unfold replace. split.
  - now apply replace_from_empty.
  - now intros ->.
Qed.

(** X3. The normalized name is empty exactly when the header is empty or
    made of whitespace only. *)
Theorem clean_column_empty_iff (s : string) :
  clean_column s = "" <-> blank s = true.
Proof.
  unfold clean_column.
  rewrite !replace_empty_iff by discriminate.
  rewrite lower_empty_iff. apply strip_empty_iff.
Qed.

Lemma lstrip_lower s : lstrip (lower s) = lower (lstrip s).
Proof.
  induction s as [|c s IH]; [reflexivity|].
  cbn [lower lstrip]. rewrite isspace_lower_char.
  destruct (isspace c); [exact IH|reflexivity].
Qed.

Lemma rstrip_lower s : rstrip (lower s) = lower (rstrip s).
Proof.
  induction s as [|c s IH]; [reflexivity|].
  cbn [lower rstrip]. rewrite IH, isspace_lower_char.
  destruct (rstrip s); cbn [lower]; [|reflexivity].
  now destruct (isspace c).
Qed.

Lemma strip_lower s : strip (lower s) = lower (strip s).
Proof. unfold strip. now rewrite rstrip_lower, lstrip_lower. Qed.

Lemma lower_idem s : lower (lower s) = lower s.
Proof.
  induction s as [|c s IH]; [reflexivity|].
  cbn [lower]. now rewrite lower_char_idem, IH.
Qed.

Lemma strip_idem s : strip (strip s) = strip s.
Proof. apply trimmed_strip; [apply strip_first_ok|apply strip_last_ok]. Qed.

Lemma strip_pad a s b :
  blank a = true -> blank b = true -> strip (a ++ s ++ b) = strip s.
Proof.
  intros Ha Hb. unfold strip.
  replace (a ++ s ++ b) with ((a ++ s) ++ b).
  - rewrite (rstrip_app_blank (a ++ s) b Hb). clear Hb b.
    unfold blank in Ha. induction a as [|c a IH].
    + reflexivity.
    + cbn [all_chars] in Ha. apply andb_true_iff in Ha as [Hc Ha].
      specialize (IH Ha). cbn [append rstrip].
      destruct (rstrip (a ++ s)) as [|x r] eqn:E.
      * rewrite Hc. cbn [lstrip] in *. exact IH.
      * cbn [lstrip]. rewrite Hc. exact IH.
  - clear. induction a as [|c a IH]; [reflexivity|]. cbn [append]. now rewrite IH.
Qed.

(** X4. Headers that differ only by the case of their letters or by
    whitespace around them get the same normalized name. *)
Theorem clean_column_ignores_case_and_padding (s a b : string) :
  blank a = true -> blank b = true ->
  clean_column (lower s) = clean_column s /\
  clean_column (a ++ s ++ b) = clean_column s.
Proof.
  intros Ha Hb. unfold clean_column. split.
  - now rewrite strip_lower, lower_idem.
  - now rewrite (strip_pad a s b Ha Hb).
Qed.

(** X4 on the header "Settlement Amount", with two blanks before it and
    one after. *)
Lemma clean_column_ignores_case_and_padding_witness :
  clean_column (lower "Settlement Amount") = clean_column "Settlement Amount" /\
  clean_column ("  " ++ "Settlement Amount" ++ " ") = clean_column "Settlement Amount".
Proof.
  exact (clean_column_ignores_case_and_padding "Settlement Amount" "  " " "
           eq_refl eq_refl).
Defined.

(** ** The date cleaning: what it keeps *)

(** X5. A value with no capital letter A-Z, such as "2024-01-15 10:30:00",
    is only trimmed by the cleaning step of the date parsers. *)
Theorem clean_tz_without_capitals (x : string) :
  no_upper x = true -> clean_tz x = strip x.
Proof.
  intros H. unfold clean_tz, re_sub_tz. now rewrite re_sub_tz_from_no_upper.
Qed.

(** X5 on " 2024-01-15 10:30:00 ". *)
Lemma clean_tz_without_capitals_witness :
  clean_tz " 2024-01-15 10:30:00 " = strip " 2024-01-15 10:30:00 ".
Proof. apply (clean_tz_without_capitals " 2024-01-15 10:30:00 "). reflexivity. Defined.

Lemma upper_run_upper_prefix n last s :
  upper_run_then_boundary n last s = true -> upper_prefix n s = true.
Proof.
  revert last s. induction n as [|n IH]; intros last s H; [reflexivity|].
  destruct s as [|c s]; [reflexivity|].
  cbn [upper_run_then_boundary] in H. apply andb_true_iff in H as [Hc Hs].
  cbn [upper_prefix]. now rewrite Hc, (IH _ _ Hs).
Qed.

Lemma tz_match_upper_prefix prev s n :
  tz_match prev s = Some n -> exists m, n = S m /\ upper_prefix n s = true.
Proof.
  unfold tz_match. destruct (word_boundary prev (first_char s)); [|discriminate].
  destruct (upper_run_then_boundary 4 prev s) eqn:E4.
  { intros [= <-]. exists 3%nat. split; [reflexivity|]. now apply upper_run_upper_prefix in E4. }
  destruct (upper_run_then_boundary 3 prev s) eqn:E3.
  { intros [= <-]. exists 2%nat. split; [reflexivity|]. now apply upper_run_upper_prefix in E3. }
  destruct (upper_run_then_boundary 2 prev s) eqn:E2; [|discriminate].
  intros [= <-]. exists 1%nat. split; [reflexivity|]. now apply upper_run_upper_prefix in E2.
Qed.

Lemma re_sub_tz_from_drop_upper s :
  forall prev k, upper_prefix k s = true ->
                 drop_upper (re_sub_tz_from prev k s) = drop_upper s.
Proof.
  induction s as [|c s IH]; intros prev k Hk; [reflexivity|].
  cbn [re_sub_tz_from]. destruct k as [|k].
  - destruct (tz_match prev (String c s)) as [n|] eqn:E.
    + apply tz_match_upper_prefix in E as (m & -> & Hm).
      cbn [upper_prefix] in Hm. apply andb_true_iff in Hm as [Hc Hm].
      cbn [drop_upper]. rewrite Hc. replace (S m - 1)%nat with m by lia.
      now apply IH.
    + cbn [drop_upper]. rewrite (IH (Some c) 0%nat eq_refl). reflexivity.
  - cbn [upper_prefix] in Hk. apply andb_true_iff in Hk as [Hc Hk].
    cbn [drop_upper]. rewrite Hc. now apply IH.
Qed.

Lemma drop_upper_length s : (String.length (drop_upper s) <= String.length s)%nat.
Proof.
  induction s as [|c s IH]; [simpl; lia|].
  cbn [drop_upper]. destruct (is_upper_AZ c); simpl; lia.
Qed.

Lemma re_sub_tz_from_length s :
  forall prev k, (String.length (re_sub_tz_from prev k s) <= String.length s)%nat.
Proof.
  induction s as [|c s IH]; intros prev k; [simpl; lia|].
  cbn [re_sub_tz_from]. destruct k as [|k].
  - destruct (tz_match prev (String c s)) as [n|].
    + specialize (IH (Some c) (n - 1)%nat). simpl. lia.
    + specialize (IH (Some c) 0%nat). simpl. lia.
  - specialize (IH (Some c) k). simpl. lia.
Qed.

(** X6. The regular expression of the date parsers deletes nothing but
    capital letters A-Z: the other characters of the value (digits,
    separators, lowercase letters, whitespace) are all kept, in order, and
    the value never gets longer. *)
Theorem re_sub_tz_deletes_capitals_only (x : string) :
  drop_upper (re_sub_tz x) = drop_upper x /\
  (String.length (re_sub_tz x) <= String.length x)%nat.
Proof.
  unfold re_sub_tz. split.
  - now apply re_sub_tz_from_drop_upper.
  - apply re_sub_tz_from_length.
Qed.

(** ** The plain date column *)

Lemma stage_business_day_column P df df' k v :
  type_coercion_stage P df = Ok df' ->
  nth_error (columns df) k = Some ("business_day", v) ->
  exists v', nth_error (columns df') k = Some ("business_day", v')
             /\ parse_date P (ASeries v) = Ok v'.
Proof.
  intros H Hk. apply stage_framewise in H.
  destruct (framewise_nth _ _ _ _ _ _ H Hk)
    as (v' & Hk' & v1 & v2 & v3 & v4 & H1 & H2 & H3 & H4 & H5).
  unfold touches in *. cbn in H1, H2, H3, H4, H5.
  destruct H3 as (r & Hr & H3). subst v' v4 v3 v2 v1.
  exists (map date_cell r). split; [exact Hk'|].
  unfold parse_date. now rewrite Hr.
Qed.

(** X7. [parse_date] does what [parse_datetime_with_tz] does, on every
    argument. When the stage returns, the "business_day" column holds what
    [parse_date] returns for the column it was: one cell per row, each a
    date or the missing value NaT. *)
Theorem business_day_after_stage (P : Pandas) :
  (forall arg, parse_date P arg = parse_datetime_with_tz P arg) /\
  (forall df df' k v,
      type_coercion_stage P df = Ok df' ->
      nth_error (columns df) k = Some ("business_day", v) ->
      exists v',
        nth_error (columns df') k = Some ("business_day", v') /\
        parse_date P (ASeries v) = Ok v' /\
        List.length v' = List.length v /\
        forallb is_date_or_NaT v' = true).
Proof.
  split; [reflexivity|].
  intros df df' k v H Hk.
  destruct (stage_business_day_column P df df' k v H Hk) as (v' & Hk' & Hv).
  exists v'. split; [exact Hk'|]. split; [exact Hv|].
  exact (parse_datetime_cells P v v' Hv).
Qed.

(** ** The choice of the reader *)

Lemma substring_all s : substring 0 (String.length s) s = s.
Proof. induction s as [|c s IH]; [reflexivity|]. simpl. now rewrite IH. Qed.

Lemma substring_app_suffix base suf :
  substring (String.length base) (String.length suf) (base ++ suf) = suf.
Proof.
  induction base as [|c base IH]; [apply substring_all|]. simpl. exact IH.
Qed.

Lemma endswith_app base suf suffix :
  String.length suf = String.length suffix ->
  endswith (base ++ suf) suffix = String.eqb suf suffix.
Proof.
  intros Hlen. unfold endswith. rewrite string_length_app, <- Hlen.
  replace (String.length base + String.length suf - String.length suf)%nat
    with (String.length base) by lia.
  rewrite substring_app_suffix.
  assert (Hle : (String.length suf <=? String.length base + String.length suf)%nat = true)
    by (apply Nat.leb_le; lia).
  now rewrite Hle.
Qed.

(** X8. The reader is chosen by the last four characters of the file
    name, compared as they are: a name that ends in ".csv" is read as CSV,
    and every other name, also one that ends in ".CSV" or has fewer than
    four characters, is given to the Excel reader. *)
Theorem reader_for_last_four (base suf : string) :
  (String.length suf = 4%nat ->
   reader_for (base ++ suf) = if String.eqb suf ".csv" then ReadCsv else ReadExcel) /\
  ((String.length base < 4)%nat -> reader_for base = ReadExcel).
Proof.
  split.
  - intros Hlen. unfold reader_for. now rewrite (endswith_app base suf ".csv" Hlen).
  - intros Hlen. unfold reader_for, endswith.
    assert (Hle : (String.length ".csv" <=? String.length base)%nat = false)
      by (apply Nat.leb_gt; simpl; lia).
    now rewrite Hle.
Qed.

(** X8 on the names "data.csv", "DATA.CSV" and "book.xlsx". *)
Lemma reader_for_last_four_witness :
  reader_for ("data" ++ ".csv") = ReadCsv /\
  reader_for ("DATA" ++ ".CSV") = ReadExcel /\
  reader_for ("book." ++ "xlsx") = ReadExcel.
Proof.
  split; [|split].
  - apply (proj1 (reader_for_last_four "data" ".csv")). reflexivity.
  - apply (proj1 (reader_for_last_four "DATA" ".CSV")). reflexivity.
  - apply (proj1 (reader_for_last_four "book." "xlsx")). reflexivity.
Defined.

(** ** When the coercion stage returns and when it raises *)

(** A turn of the numeric loop or of a date loop on a name that two
    columns carry raises. *)
Lemma series_bodies_raise P df col :
  (2 <= label_count col df)%nat ->
  numeric_body P col df = Raise /\ datetime_body P col df = Raise /\
  reserved_body P col df = Raise.
Proof.
  intros Hge. destruct (getitem_several df col Hge) as (Hc & ss & Hg).
  unfold numeric_body, datetime_body, reserved_body. rewrite Hc, Hg. auto.
Qed.

Lemma business_day_raises P df :
  (2 <= label_count "business_day" df)%nat -> business_day_step P df = Raise.
Proof.
  intros Hge. destruct (getitem_several df "business_day" Hge) as (Hc & ss & Hg).
  unfold business_day_step. now rewrite Hc, Hg.
Qed.

(** If a loop returns, so did each of its turns, on a batch with the
    labels of the input. *)
Lemma for_each_turn body cols col :
  (forall c d d', body c d = Ok d' -> labels d' = labels d) ->
  In col cols ->
  forall df df', for_each body cols df = Ok df' ->
  exists d d', labels d = labels df /\ body col d = Ok d'.
Proof.
  intros Hlab. induction cols as [|c rest IH]; intros Hin df df' H; [destruct Hin|].
  simpl in H. destruct (body c df) as [d1|] eqn:E; simpl in H; [|discriminate].
  destruct Hin as [->|Hin].
  - now exists df, d1.
  - destruct (IH Hin d1 df' H) as (d & d' & Hl & Hb).
    exists d, d'. split; [|exact Hb]. rewrite Hl. now apply Hlab in E.
Qed.

Lemma for_each_labels body cols :
  (forall c d d', body c d = Ok d' -> labels d' = labels d) ->
  forall df df', for_each body cols df = Ok df' -> labels df' = labels df.
Proof.
  intros Hlab. induction cols as [|c rest IH]; intros df df' H; simpl in H.
  - now injection H as <-.
  - destruct (body c df) as [d1|] eqn:E; simpl in H; [|discriminate].
    rewrite (IH _ _ H). now apply Hlab in E.
Qed.

(** A column that a step does not name is the column it was. *)
Lemma framewise_untouched cols F d d' c' :
  framewise (touches cols F) d d' -> In c' (columns d') ->
  existsb (String.eqb (fst c')) cols = false -> In c' (columns d).
Proof.
  intros H Hc' Hout. destruct (framewise_In _ _ _ _ H Hc') as (c & Hc & Hl & HR).
  unfold touches in HR. rewrite <- Hl, Hout in HR.
  destruct c as [l v], c' as [l' v']. simpl in *. now subst.
Qed.

Lemma not_In_existsb l cols : ~ In l cols -> existsb (String.eqb l) cols = false.
Proof.
  intros H. destruct (existsb (String.eqb l) cols) eqn:E; [|reflexivity].
  apply existsb_exists in E as (x & Hx & Heq). apply String.eqb_eq in Heq. now subst x.
Qed.

Lemma datable_on_untouched P names cols F d d' :
  framewise (touches cols F) d d' ->
  (forall l, In l names -> ~ In l cols) ->
  datable_on P names d -> datable_on P names d'.
Proof.
  intros H Hout Hd c' Hc' Hn. apply Hd; [|exact Hn].
  apply (framewise_untouched cols F d d' c' H Hc').
  apply not_In_existsb. now apply Hout.
Qed.

Lemma date_fields_not_numeric l : In l date_fields -> ~ In l numeric_fields.
Proof.
  unfold date_fields. simpl. intros H Hn.
  decompose [or] H; subst; try contradiction;
    decompose [or] Hn; try discriminate; contradiction.
Qed.

Lemma parse_datetime_returns P df col :
  (label_count col df <= 1)%nat ->
  datable_on P [col] df ->
  exists df', series_body (parse_datetime_with_tz P) col df = Ok df'.
Proof.
  intros Hle Hd. unfold series_body.
  destruct (has_column df col) eqn:Hc; [|now exists df].
  destruct (getitem_single df col Hc Hle) as (s & -> & Hs).
  destruct (Hd _ Hs) as [r Hr]; [now left|]. cbn [bind fst snd] in *.
  unfold parse_datetime_with_tz. rewrite Hr. cbn [bind]. eexists. reflexivity.
Qed.

Lemma for_each_ok_rest body (Inv : list string -> DataFrame -> Prop) :
  (forall col rest d, Inv (col :: rest) d -> exists d', body col d = Ok d' /\ Inv rest d') ->
  forall cols df, Inv cols df -> exists df', for_each body cols df = Ok df' /\ Inv [] df'.
Proof.
  intros Hbody. induction cols as [|c rest IH]; intros df Hdf; simpl.
  - now exists df.
  - destruct (Hbody c rest df Hdf) as (d1 & -> & H1). simpl. now apply IH.
Qed.

Lemma datetime_body_ahead P col rest df :
  In col datetime_fields ->
  dates_ahead P (col :: rest) df ->
  exists df', datetime_body P col df = Ok df' /\ dates_ahead P rest df'.
Proof.
  intros Hin (Hnd & Hu & Hd).
  assert (H : exists df', datetime_body P col df = Ok df').
  { apply (parse_datetime_returns P df col).
    - apply Hu. unfold series_only_fields. apply in_or_app. right.
      apply in_or_app. now left.
    - intros c Hc' [E|[]]. apply Hd; [exact Hc'|left; exact E]. }
  destruct H as [df' H]. exists df'. split; [exact H|].
  pose proof (datetime_body_framewise P col df df' H) as F.
  cbn [app] in Hnd. inversion Hnd as [|? ? Hnot Hnd']; subst.
  split; [exact Hnd'|]. split.
  - apply (unique_in_labels _ df); [now apply framewise_labels in F|exact Hu].
  - apply (datable_on_untouched P _ [col] _ df df' F).
    + intros l Hl [<-|[]]. contradiction.
    + intros c Hc Hn. apply Hd; [exact Hc|now right].
Qed.

Lemma business_day_single P df :
  unique_in series_only_fields df -> datable_on P ["business_day"] df ->
  exists df', business_day_step P df = Ok df'.
Proof.
  intros Hu Hd.
  apply (parse_datetime_returns P df "business_day"); [|exact Hd].
  apply Hu. unfold series_only_fields. do 2 (apply in_or_app; right). now left.
Qed.

Lemma reserved_in_series_only col : In col reserved_fields -> In col series_only_fields.
Proof.
  intros H. unfold series_only_fields. apply in_or_app. left.
  simpl in *. tauto.
Qed.

Lemma reserved_body_single P col df :
  In col reserved_fields ->
  unique_in series_only_fields df /\ castable P df ->
  exists df', reserved_body P col df = Ok df'
              /\ (unique_in series_only_fields df' /\ castable P df').
Proof.
  intros Hin [Hu Hcast].
  assert (H : exists df', reserved_body P col df = Ok df').
  { unfold reserved_body. destruct (has_column df col) eqn:Hc; [|now exists df].
    destruct (getitem_single df col Hc) as (s & -> & Hs).
    - apply Hu. now apply reserved_in_series_only.
    - cbn [bind to_numeric]. destruct (Hcast _ Hs Hin) as [w Hw].
      simpl in Hw. rewrite Hw. simpl. eexists. reflexivity. }
  destruct H as [df' H]. exists df'. split; [exact H|]. split.
  - apply (unique_in_labels _ df); [|exact Hu]. now apply reserved_body_labels in H.
  - apply reserved_body_framewise in H. intros c' Hc' Hres.
    destruct (framewise_In _ _ _ _ H Hc') as (c & Hc & Hl & HR).
    apply touches_single in HR. destruct (String.eqb (fst c) col).
    + unfold int64_column in HR. exists (snd c'). now apply (astype_Int64_again P _ _ HR).
    + rewrite HR. apply Hcast; [exact Hc|now rewrite <- Hl].
Qed.

Lemma castable_until_reserved P df d1 d2 d3 :
  numeric_loop P df = Ok d1 -> datetime_loop P d1 = Ok d2 ->
  business_day_step P d2 = Ok d3 ->
  castable P df -> castable P d3.
Proof.
  intros E1 E2 E3 Hcast.
  pose proof (for_each_framewise _ _ (numeric_column P) NoDup_numeric_fields
                (numeric_body_framewise P) _ _ E1) as F1.
  pose proof (for_each_framewise _ _ (date_column P) NoDup_datetime_fields
                (datetime_body_framewise P) _ _ E2) as F2.
  pose proof (business_day_framewise P _ _ E3) as F3.
  intros c3 Hc3 Hres.
  destruct (framewise_In _ _ _ _ F3 Hc3) as (c2 & Hc2 & Hl3 & R3).
  destruct (framewise_In _ _ _ _ F2 Hc2) as (c1 & Hc1 & Hl2 & R2).
  destruct (framewise_In _ _ _ _ F1 Hc1) as (c & Hc & Hl1 & R1).
  assert (Hres0 : In (fst c) reserved_fields) by congruence.
  destruct (reserved_label_groups _ Hres0) as (G1 & G2 & G3 & _).
  unfold touches in *. rewrite Hl2, Hl1, G3 in R3. rewrite Hl1, G2 in R2.
  rewrite G1 in R1. unfold numeric_column in R1. rewrite R3, R2, R1.
  destruct (Hcast c Hc Hres0) as [w Hw]. exists w. rewrite <- Hw.
  now rewrite to_numeric_series_again.
Qed.

Lemma stage_steps P df df' :
  type_coercion_stage P df = Ok df' ->
  exists d1 d2 d3 d4,
    numeric_loop P df = Ok d1 /\ datetime_loop P d1 = Ok d2 /\
    business_day_step P d2 = Ok d3 /\ reserved_loop P d3 = Ok d4 /\
    string_loop P d4 = Ok df'.
Proof.
  unfold type_coercion_stage. intros H.
  destruct (numeric_loop P df) as [d1|] eqn:E1; simpl in H; [|discriminate].
  destruct (datetime_loop P d1) as [d2|] eqn:E2; simpl in H; [|discriminate].
  destruct (business_day_step P d2) as [d3|] eqn:E3; simpl in H; [|discriminate].
  destruct (reserved_loop P d3) as [d4|] eqn:E4; simpl in H; [|discriminate].
  exists d1, d2, d3, d4. auto.
Qed.

Lemma parse_returns_datable P v v' :
  parse_datetime_with_tz P (ASeries v) = Ok v' ->
  exists r, to_datetime P (map (fun x => clean_tz (str_of_cell P x)) v) = Ok r.
Proof.
  unfold parse_datetime_with_tz. destruct (to_datetime P _) as [r|]; [|discriminate].
  intros _. now exists r.
Qed.

(** The stage raises when a numeric or date name is carried twice, when
    the date parser raises on a date column, and when a reserved column
    cannot be cast. *)
Lemma stage_returns_only_if P df df' :
  type_coercion_stage P df = Ok df' ->
  unique_in series_only_fields df /\ datable P df /\ castable P df.
Proof.
  intros H. split; [|split].
  - intros col Hin.
    destruct (le_lt_dec (label_count col df) 1) as [Hle|Hgt]; [exact Hle|exfalso].
    destruct (stage_steps P df df' H) as (d1 & d2 & d3 & d4 & E1 & E2 & E3 & _).
    pose proof (for_each_labels _ _ (numeric_body_labels P) _ _ E1) as L1.
    pose proof (for_each_labels _ _ (datetime_body_labels P) _ _ E2) as L2.
    unfold series_only_fields in Hin.
    apply in_app_or in Hin as [Hin|Hin]; [|apply in_app_or in Hin as [Hin|Hin]].
    + destruct (for_each_turn _ _ col (numeric_body_labels P) Hin _ _ E1)
        as (d & d' & Hl & Hb).
      destruct (series_bodies_raise P d col) as (Hr & _).
      { rewrite (label_count_labels col df d Hl). lia. }
      congruence.
    + destruct (for_each_turn _ _ col (datetime_body_labels P) Hin _ _ E2)
        as (d & d' & Hl & Hb).
      destruct (series_bodies_raise P d col) as (_ & Hr & _).
      { rewrite (label_count_labels col df d); [lia|congruence]. }
      congruence.
    + destruct Hin as [<-|[]].
      rewrite business_day_raises in E3; [discriminate|].
      rewrite (label_count_labels "business_day" df d2); [lia|congruence].
  - intros c Hc Hd. apply In_nth_error in Hc as [k Hk]. destruct c as [col v].
    cbn [fst snd] in *. unfold date_fields in Hd. apply in_app_or in Hd as [Hd|[<-|[]]].
    + destruct (stage_datetime_column P df df' k col v H Hk Hd) as (v' & _ & Hv).
      exact (parse_returns_datable P v v' Hv).
    + destruct (stage_business_day_column P df df' k v H Hk) as (v' & _ & Hv).
      exact (parse_returns_datable P v v' Hv).
  - intros c Hc Hres. apply In_nth_error in Hc as [k Hk].
    destruct c as [col v].
    destruct (stage_reserved_column P df df' k col v H Hk Hres) as (v' & _ & Hv).
    now exists v'.
Qed.

(** In every other case it returns. *)
Lemma stage_returns_if P df :
  unique_in series_only_fields df -> datable P df -> castable P df ->
  exists df', type_coercion_stage P df = Ok df'.
Proof.
  intros Hu Hd Hcast.
  destruct (for_each_ok (numeric_body P) numeric_fields (unique_in series_only_fields)
              (numeric_body_single P) df Hu) as (d1 & E1 & Hu1).
  pose proof (for_each_framewise _ _ (numeric_column P) NoDup_numeric_fields
                (numeric_body_framewise P) _ _ E1) as F1.
  assert (Hd1 : dates_ahead P datetime_fields d1).
  { split; [|split; [exact Hu1|]].
    - unfold datetime_fields. simpl. repeat (constructor; [simpl; intuition discriminate|]).
      constructor.
    - apply (datable_on_untouched P _ numeric_fields _ df d1 F1); [|exact Hd].
      intros l Hl. now apply date_fields_not_numeric. }
  destruct (for_each_ok_rest (datetime_body P)
              (fun rest d => (forall c, In c rest -> In c datetime_fields)
                             /\ dates_ahead P rest d)) with (cols := datetime_fields) (df := d1)
    as (d2 & E2 & _ & _ & Hu2 & Hd2).
  { intros col rest d [Hsub Ha].
    destruct (datetime_body_ahead P col rest d (Hsub col (or_introl eq_refl)) Ha)
      as (d' & Hb & Ha').
    exists d'. split; [exact Hb|]. split; [|exact Ha'].
    intros c Hc. apply Hsub. now right. }
  { split; [auto|exact Hd1]. }
  destruct (business_day_single P d2 Hu2 Hd2) as [d3 E3].
  assert (Hu3 : unique_in series_only_fields d3)
    by (apply (unique_in_labels _ d2); [now apply business_day_labels in E3|exact Hu2]).
  pose proof (castable_until_reserved P df d1 d2 d3 E1 E2 E3 Hcast) as Hcast3.
  destruct (for_each_ok (reserved_body P) reserved_fields
              (fun d => unique_in series_only_fields d /\ castable P d)
              (reserved_body_single P) d3 (conj Hu3 Hcast3)) as (d4 & E4 & _).
  destruct (string_loop_ok P d4) as [d5 E5].
  exists d5. unfold type_coercion_stage.
  change (for_each (numeric_body P) numeric_fields df) with (numeric_loop P df) in E1.
  change (for_each (datetime_body P) datetime_fields d1) with (datetime_loop P d1) in E2.
  change (for_each (reserved_body P) reserved_fields d3) with (reserved_loop P d3) in E4.
  rewrite E1. cbn [bind]. rewrite E2. cbn [bind]. rewrite E3. cbn [bind].
  rewrite E4. cbn [bind]. exact E5.
Qed.

(** X9. The coercion stage returns exactly when no numeric or date name is
    carried by two columns of the batch, the date parser returns on every
    date column, and every reserved column can be cast to [Int64]; in
    every other case it raises. *)
Theorem coercion_stage_returns_exactly (P : Pandas) (df : DataFrame) :
  (exists df', type_coercion_stage P df = Ok df') <->
  unique_in series_only_fields df /\ datable P df /\ castable P df.
Proof.
  split.
  - intros [df' H]. exact (stage_returns_only_if P df df' H).
  - intros (Hu & Hd & Hcast). exact (stage_returns_if P df Hu Hd Hcast).
Qed.

(** ** What the stage keeps *)

(** X10. When the stage returns, no cell has been dropped or added: the
    result has as many columns as the input, and each of them has one cell
    per row of the input. *)
Theorem coercion_stage_keeps_cell_count (P : Pandas) (df df' : DataFrame) :
  well_formed df ->
  type_coercion_stage P df = Ok df' ->
  List.length (columns df') = List.length (columns df) /\
  (forall c', In c' (columns df') -> List.length (snd c') = nrows df).
Proof.
  intros Hwf H.
  destruct (coercion_stage_keeps_rows P df df' Hwf H) as [Hn Hwf'].
  apply stage_framewise in H. pose proof (framewise_labels _ _ _ H) as Hl.
  split.
  - unfold labels in Hl. apply (f_equal (@List.length string)) in Hl.
    now rewrite !length_map in Hl.
  - intros c' Hc'. unfold well_formed in Hwf'. rewrite Forall_forall in Hwf'.
    etransitivity; [exact (Hwf' c' Hc')|exact Hn].
Qed.

(** X10 on a batch of two rows and five columns. *)
Lemma coercion_stage_keeps_cell_count_witness :
  List.length (columns mixed_batch_coerced) = List.length (columns mixed_batch_clean) /\
  (forall c', In c' (columns mixed_batch_coerced) ->
              List.length (snd c') = nrows mixed_batch_clean).
Proof.
  apply (coercion_stage_keeps_cell_count iso_pandas mixed_batch_clean mixed_batch_coerced).
  - repeat constructor.
  - reflexivity.
Defined.

(** ** The amount columns *)





(** ** A reserved column of integers *)

Lemma existsb_false_map {A B : Type} (f : B -> bool) (g : A -> B) l :
  (forall a, In a l -> f (g a) = false) -> existsb f (map g l) = false.
Proof.
  intros H. induction l as [|a l IH]; [reflexivity|]. cbn [map existsb].
  rewrite (H a (or_introl eq_refl)), IH; [reflexivity|].
  intros x Hx. apply H. now right.
Qed.

(** X12. When every cell of a reserved column is a text written as an
    integer of the int64 range, the column is converted as a column of
    integers: no float64 is involved, and when the stage returns every
    cell holds exactly the integer that was written, also above 2^53. *)
Theorem reserved_integers_are_exact
    (P : Pandas) (df df' : DataFrame) (k i : nat) (col : string) (v : Series)
    (s : string) (z : Z) :
  type_coercion_stage P df = Ok df' ->
  nth_error (columns df) k = Some (col, v) ->
  In col reserved_fields ->
  forallb int64_cell v = true ->
  nth_error v i = Some (Str s) ->
  int64_text s = Some z ->
  cell_at df' k i = Some (Int z).
Proof.
  intros H Hk Hin Hall Hi Hz.
  destruct (stage_reserved_column P df df' k col v H Hk Hin) as (v' & Hk' & Hv).
  rewrite (cell_at_column _ _ _ _ _ Hk').
  rewrite forallb_forall in Hall.
  assert (Hcell : forall c, In c v ->
            exists t f y, c = Str t /\ scan_str t = (f, Some y) /\ in_int64 y = true).
  { intros c Hc. specialize (Hall c Hc). destruct c as [t| | | | | | | | | |]; try discriminate.
    unfold int64_cell, int64_text in Hall.
    destruct (scan_str t) as [f [y|]] eqn:Et; [|discriminate].
    destruct (in_int64 y) eqn:Ey; [|discriminate]. now exists t, f, y. }
  assert (Hnth : nth_error (to_numeric_series P v) i = Some (NI64 z)).
  { unfold to_numeric_series.
    rewrite (not_all_nullable v i (Str s) Hi eq_refl). unfold convert, seen_float.
    assert (E1 : existsb not_integer (map (scan P) v) = false).
    { apply existsb_false_map. intros c Hc.
      destruct (Hcell c Hc) as (t & f & y & -> & Hs & Hy). cbn [scan]. rewrite Hs.
      unfold not_integer, in_int64, int64_min, int64_max, uint64_max in *. cbn [snd]. lia. }
    assert (E2 : existsb is_uint (map (scan P) v) = false).
    { apply existsb_false_map. intros c Hc.
      destruct (Hcell c Hc) as (t & f & y & -> & Hs & Hy). cbn [scan]. rewrite Hs.
      unfold is_uint, in_int64 in *. cbn [snd]. lia. }
    rewrite E1, E2, andb_false_r. cbn [orb]. rewrite !nth_error_map, Hi. cbn [option_map scan].
    unfold as_int64. unfold int64_text in Hz.
    destruct (scan_str s) as [f [y|]]; [|discriminate]. cbn [snd].
    destruct (in_int64 y); [|discriminate]. now injection Hz as ->. }
  apply (mapM_nth _ _ _ i (NI64 z)) in Hv as (b & -> & Hb); [|exact Hnth].
  now injection Hb as <-.
Qed.

(** X12 on a "reserved15" column that holds "9007199254740993" and "-7". *)
Lemma reserved_integers_are_exact_witness :
  type_coercion_stage iso_pandas big_reserved = Ok big_reserved_coerced /\
  cell_at big_reserved_coerced 0 0 = Some (Int 9007199254740993).
Proof.
  assert (Hrun : type_coercion_stage iso_pandas big_reserved = Ok big_reserved_coerced)
    by reflexivity.
  split; [exact Hrun|].
  apply (reserved_integers_are_exact iso_pandas big_reserved big_reserved_coerced 0 0
           "reserved15" [Str "9007199254740993"; Str "-7"] "9007199254740993").
  - exact Hrun.
  - reflexivity.
  - simpl. tauto.
  - reflexivity.
  - reflexivity.
  - reflexivity.
Defined.

(** The same text beside an empty cell is converted as a float64, and
    rounded. *)
Example integer_beside_missing_is_rounded :
  to_numeric_series iso_pandas [Str "9007199254740993"; NaN]
  = [NNum 9007199254740992; NNaN].
Proof. reflexivity. Qed.

(** ** Running a loop on its own output *)

Lemma Forall2_impl_In {A B : Type} (R Q : A -> B -> Prop) l l' :
  (forall x y, In x l -> In y l' -> R x y -> Q x y) -> Forall2 R l l' -> Forall2 Q l l'.
Proof.
  intros Himp H. induction H as [|x y xs ys HR _ IH]; constructor.
  - apply Himp; [now left|now left|exact HR].
  - apply IH. intros a b Ha Hb. apply Himp; now right.
Qed.

Lemma Forall2_eq_same {A : Type} (l l' : list A) :
  Forall2 (fun x y => y = x) l l' -> l' = l.
Proof. intros H. induction H as [|x y xs ys -> _ IH]; [reflexivity|now rewrite IH]. Qed.

(** A step that relates every column of [a] to itself only returns [a]. *)
Lemma framewise_fixed R a b :
  framewise R a b ->
  (forall c v', In c (columns a) -> R (fst c) (snd c) v' -> v' = snd c) ->
  b = a.
Proof.
  intros [Hn H] Hfix. destruct a as [n cols], b as [n' cols']. simpl in *. subst n'.
  f_equal. apply Forall2_eq_same.
  revert H. apply Forall2_impl_In. intros x y Hx _ [Hl HR].
  apply (Hfix x _ Hx) in HR. destruct x, y. simpl in *. congruence.
Qed.

Lemma numeric_loop_unique P df d1 :
  numeric_loop P df = Ok d1 -> unique_in numeric_fields df.
Proof.
  intros E1 col Hin.
  destruct (le_lt_dec (label_count col df) 1) as [Hle|Hgt]; [exact Hle|exfalso].
  destruct (for_each_turn _ _ col (numeric_body_labels P) Hin _ _ E1) as (d & d' & Hl & Hb).
  destruct (series_bodies_raise P d col) as (Hr & _).
  { rewrite (label_count_labels col df d Hl). lia. }
  congruence.
Qed.

Lemma astype_str_series_again P v :
  astype_str_series P (astype_str_series P v) = astype_str_series P v.
Proof. unfold astype_str_series. rewrite map_map. reflexivity. Qed.

(** X13. The numeric loop and the forced-text loop change nothing when
    they run on their own output: a batch on which one of them has
    returned goes through it again unchanged, without an exception. *)
Theorem numeric_and_text_loops_idempotent (P : Pandas) :
  (forall df d1, numeric_loop P df = Ok d1 -> numeric_loop P d1 = Ok d1) /\
  (forall df d1, string_loop P df = Ok d1 -> string_loop P d1 = Ok d1).
Proof.
  split.
  - intros df d1 E1.
    pose proof (numeric_loop_unique P df d1 E1) as Hu.
    pose proof (for_each_framewise _ _ (numeric_column P) NoDup_numeric_fields
                  (numeric_body_framewise P) _ _ E1) as F1.
    assert (Hu1 : unique_in numeric_fields d1)
      by (apply (unique_in_labels _ df); [now apply framewise_labels in F1|exact Hu]).
    destruct (for_each_ok (numeric_body P) numeric_fields (unique_in numeric_fields)
                (numeric_body_unique P numeric_fields) d1 Hu1) as (d2 & E2 & _).
    change (numeric_loop P d1 = Ok d2) in E2. rewrite E2. f_equal.
    pose proof (for_each_framewise _ _ (numeric_column P) NoDup_numeric_fields
                  (numeric_body_framewise P) _ _ E2) as F2.
    apply (framewise_fixed _ _ _ F2). intros c1 v' Hc1 HR.
    destruct (framewise_In _ _ _ _ F1 Hc1) as (c & _ & Hl & HR1).
    unfold touches, numeric_column in *. rewrite Hl in HR.
    destruct (existsb (String.eqb (fst c)) numeric_fields); [|exact HR].
    rewrite HR, HR1. now rewrite to_numeric_series_again.
  - intros df d1 E1.
    pose proof (for_each_framewise _ _ (text_column P) NoDup_string_columns
                  (string_body_framewise P) _ _ E1) as F1.
    destruct (string_loop_ok P d1) as [d2 E2]. rewrite E2. f_equal.
    pose proof (for_each_framewise _ _ (text_column P) NoDup_string_columns
                  (string_body_framewise P) _ _ E2) as F2.
    apply (framewise_fixed _ _ _ F2). intros c1 v' Hc1 HR.
    destruct (framewise_In _ _ _ _ F1 Hc1) as (c & _ & Hl & HR1).
    unfold touches, text_column in *. rewrite Hl in HR.
    destruct (existsb (String.eqb (fst c)) string_columns); [|exact HR].
    rewrite HR, HR1. apply astype_str_series_again.
Qed.

(** ** A file with a header and no row *)

Lemma empty_columns df :
  well_formed df -> nrows df = 0%nat -> forall c, In c (columns df) -> snd c = [].
Proof.
  unfold well_formed. intros Hwf Hn c Hc. rewrite Forall_forall in Hwf.
  specialize (Hwf c Hc). rewrite Hn in Hwf. now apply length_zero_iff_nil.
Qed.

Lemma stage_column_nil P l v' : stage_column P l [] v' -> v' = [].
Proof.
  intros (v1 & v2 & v3 & v4 & H1 & H2 & H3 & H4 & H5).
  unfold touches, numeric_column, date_column, int64_column, text_column in *.
  assert (E1 : v1 = []) by (destruct (existsb _ numeric_fields); exact H1).
  subst v1.
  assert (Hd : forall b, (exists r, to_datetime P (map (fun x => clean_tz (str_of_cell P x)) [])
                                     = Ok r /\ b = map date_cell r) -> b = []).
  { intros b (r & Hr & ->). apply to_datetime_length in Hr.
    apply length_zero_iff_nil. now rewrite length_map, Hr. }
  assert (E2 : v2 = []) by (destruct (existsb _ datetime_fields); [now apply Hd|exact H2]).
  subst v2.
  assert (E3 : v3 = []) by (destruct (existsb _ ["business_day"]); [now apply Hd|exact H3]).
  subst v3.
  assert (E4 : v4 = []).
  { destruct (existsb _ reserved_fields); [|exact H4].
    unfold astype_Int64 in H4. simpl in H4. now injection H4 as <-. }
  subst v4. destruct (existsb _ string_columns); exact H5.
Qed.

(** X14. A batch with no row, in which no numeric or date name is carried
    by two columns, goes through the coercion stage without an exception
    and comes out with the same columns and still no cell. *)
Theorem header_only_batch_unchanged (P : Pandas) (df : DataFrame) :
  well_formed df -> nrows df = 0%nat -> unique_in series_only_fields df ->
  type_coercion_stage P df = Ok df.
Proof.
  intros Hwf Hn Hu.
  assert (Hcast : castable P df).
  { intros c Hc _. rewrite (empty_columns df Hwf Hn c Hc). now exists []. }
  assert (Hd : datable P df).
  { intros c Hc _. rewrite (empty_columns df Hwf Hn c Hc). exists [].
    exact (to_datetime_iso P DateOnly [] eq_refl). }
  destruct (stage_returns_if P df Hu Hd Hcast) as [df' H].
  rewrite H. f_equal.
  apply stage_framewise in H. apply (framewise_fixed _ _ _ H).
  intros c v' Hc HR. rewrite (empty_columns df Hwf Hn c Hc) in *.
  now apply stage_column_nil in HR.
Qed.

(** X14 on a batch of three columns and no row. *)
Lemma header_only_batch_unchanged_witness :
  type_coercion_stage iso_pandas header_only = Ok header_only.
Proof.
  apply (header_only_batch_unchanged iso_pandas header_only).
  - repeat constructor.
  - reflexivity.
  - apply NoDup_unique_in. repeat constructor; simpl; intuition discriminate.
Defined.

(** ** Stamping twice *)

Lemma has_column_setitem_series df col s :
  has_column (setitem_series df col s) col = true.
Proof.
  unfold setitem_series. destruct (has_column df col) eqn:Hc.
  - unfold has_column, labels in *. simpl. rewrite map_map.
    apply existsb_exists in Hc as (l & Hin & Hl). apply existsb_exists.
    exists l. split; [|exact Hl].
    apply in_map_iff in Hin as (c & <- & Hin). apply in_map_iff. exists c.
    split; [|exact Hin]. now destruct (String.eqb (fst c) col).
  - unfold has_column, labels. simpl. rewrite map_app, existsb_app. simpl.
    now rewrite String.eqb_refl, orb_true_r.
Qed.

(** X15. Stamping a batch that is already stamped adds no second column
    and replaces the earlier moment: the result is the batch stamped once
    with the later moment. *)
Theorem stamp_load_time_last_wins (now1 now2 : datetime) (df : DataFrame) :
  stamp_load_time now2 (stamp_load_time now1 df) = stamp_load_time now2 df.
Proof.
  unfold stamp_load_time, setitem_scalar.
  set (r1 := repeat (Timestamp now1) (nrows df)).
  assert (Hn : nrows (setitem_series df "load_time" r1) = nrows df)
    by (unfold setitem_series; now destruct (has_column df "load_time")).
  rewrite Hn. set (r2 := repeat (Timestamp now2) (nrows df)).
  unfold setitem_series at 1. rewrite has_column_setitem_series, Hn.
  unfold setitem_series. destruct (has_column df "load_time") eqn:Hc; simpl; f_equal.
  - rewrite map_map. apply map_ext. intros c.
    destruct (String.eqb (fst c) "load_time") eqn:E; simpl; now rewrite E.
  - rewrite map_app. simpl. f_equal.
    rewrite <- (map_id (columns df)) at 2. apply map_ext_in. intros c Hin.
    now rewrite (has_column_false df "load_time" c Hc Hin).
Qed.

(** ** The whole pipeline of lines 54-85 *)

Lemma stamp_columns_In now df l v :
  In (l, v) (columns (stamp_load_time now df)) ->
  (l = "load_time" /\ v = repeat (Timestamp now) (nrows df)) \/
  (l <> "load_time" /\ In (l, v) (columns df)).
Proof.
  rewrite stamp_load_time_eq. destruct (has_column df "load_time") eqn:Hc; simpl.
  - intros Hin. apply in_map_iff in Hin as (c & Hcv & Hin).
    destruct (String.eqb (fst c) "load_time") eqn:E.
    + apply String.eqb_eq in E. injection Hcv as <- <-. now left.
    + subst c. right. split; [|exact Hin]. simpl in E. now apply String.eqb_neq.
  - intros Hin. apply in_app_or in Hin as [Hin|[Hin|[]]].
    + right. split; [|exact Hin].
      apply (has_column_false df "load_time" _ Hc) in Hin. simpl in Hin.
      now apply String.eqb_neq.
    + injection Hin as <- <-. now left.
Qed.

Lemma process_batch_steps P now df df' :
  process_batch P now df = Ok df' ->
  exists d0 d1,
    normalize_columns df = Ok d0 /\
    d0 = mkDataFrame (nrows df) (map (fun c => (clean_column (fst c), snd c)) (columns df)) /\
    type_coercion_stage P d0 = Ok d1 /\
    df' = stamp_load_time now d1.
Proof.
  unfold process_batch. rewrite normalize_columns_eq. cbn [bind].
  set (d0 := mkDataFrame (nrows df) _).
  destruct (type_coercion_stage P d0) as [d1|] eqn:E; cbn [bind]; [|discriminate].
  intros [= <-]. exists d0, d1. auto.
Qed.

(** X16. When the processing of a batch returns, the row count is that of
    the file and the column names are the normalized headers, in the order
    of the file, followed by "load_time" unless a header already normalizes
    to that name; in both cases every "load_time" column holds the moment
    of the stamping on each row. *)
Theorem process_batch_shape (P : Pandas) (now : datetime) (df df' : DataFrame) :
  process_batch P now df = Ok df' ->
  nrows df' = nrows df /\
  labels df'
  = (if existsb (String.eqb "load_time") (map clean_column (labels df))
     then map clean_column (labels df)
     else map clean_column (labels df) ++ ["load_time"])%list /\
  (forall v, In ("load_time", v) (columns df') -> v = repeat (Timestamp now) (nrows df)).
Proof.
  intros H. destruct (process_batch_steps P now df df' H) as (d0 & d1 & _ & Hd0 & Hs & ->).
  apply stage_framewise in Hs. pose proof (framewise_labels _ _ _ Hs) as Hl.
  destruct Hs as [Hn _].
  assert (Hl0 : labels d0 = map clean_column (labels df))
    by (subst d0; unfold labels; simpl; now rewrite !map_map).
  assert (Hn0 : nrows d0 = nrows df) by now subst d0.
  split; [|split].
  - rewrite stamp_load_time_eq. destruct (has_column d1 "load_time"); simpl; congruence.
  - rewrite <- Hl0, <- Hl. rewrite stamp_load_time_eq.
    change (existsb (String.eqb "load_time") (labels d1)) with (has_column d1 "load_time").
    destruct (has_column d1 "load_time"); unfold labels; simpl.
    + rewrite map_map. apply map_ext. intros c. cbv beta.
      destruct (String.eqb _ _); reflexivity.
    + now rewrite map_app.
  - intros v Hin. apply stamp_columns_In in Hin as [[_ ->]|[Hne _]]; [|congruence].
    congruence.
Qed.

(** X16 on a file of five columns and two rows. *)
Lemma process_batch_shape_witness :
  nrows (stamp_load_time some_moment mixed_batch_coerced) = nrows mixed_batch /\
  labels (stamp_load_time some_moment mixed_batch_coerced)
  = (if existsb (String.eqb "load_time") (map clean_column (labels mixed_batch))
     then map clean_column (labels mixed_batch)
     else map clean_column (labels mixed_batch) ++ ["load_time"])%list /\
  (forall v, In ("load_time", v) (columns (stamp_load_time some_moment mixed_batch_coerced)) ->
             v = repeat (Timestamp some_moment) (nrows mixed_batch)).
Proof.
  apply (process_batch_shape iso_pandas some_moment mixed_batch). reflexivity.
Defined.

(** ** The processed batch and the schema of the load job *)

Lemma schema_entries_ok : forallb schema_entry_ok schema = true.
Proof. vm_compute. reflexivity. Qed.

Lemma mapM_In {A B : Type} (f : A -> result B) l l' b :
  mapM f l = Ok l' -> In b l' -> exists a, In a l /\ f a = Ok b.
Proof.
  revert l'. induction l as [|x l IH]; intros l' H Hb; simpl in H.
  - injection H as <-. destruct Hb.
  - destruct (f x) as [y|] eqn:Hf; simpl in H; [|discriminate].
    destruct (mapM f l) as [ys|] eqn:Hm; simpl in H; [|discriminate].
    injection H as <-. destruct Hb as [<-|Hb].
    + exists x. split; [now left|exact Hf].
    + destruct (IH ys eq_refl Hb) as (a & Ha & Hfa). exists a. split; [now right|exact Hfa].
Qed.

(** The conversion of a column of texts and empty cells is a column of
    numbers. *)
Lemma raw_numeric_dtype P v :
  forallb raw_cell v = true ->
  numeric_dtype (map cell_of_numeric (to_numeric_series P v)) = true.
Proof.
  intros Hraw. destruct v as [|c0 v0]; [reflexivity|]. set (v := c0 :: v0) in *.
  assert (Hn : forallb is_nullable v = false).
  { apply (not_all_nullable v 0 c0 eq_refl). cbn [forallb] in Hraw.
    apply andb_true_iff in Hraw as [Hc _]. destruct c0; try discriminate; reflexivity. }
  unfold to_numeric_series. rewrite Hn. unfold convert, numeric_dtype.
  destruct (seen_float (map (scan P) v)) eqn:Ef.
  - assert (E : forallb (holds_type FLOAT64) (map cell_of_numeric (map fst (map (scan P) v)))
                = true).
    { apply forallb_forall. intros c Hc. rewrite !map_map in Hc.
      apply in_map_iff in Hc as (c1 & <- & _).
      pose proof (scan_fst_float P c1) as Hf. now destruct (fst (scan P c1)). }
    now rewrite E.
  - unfold seen_float in Ef. apply orb_false_iff in Ef as [Hint Hsu].
    assert (Hz : forall c, In c v -> exists z, snd (scan P c) = Some z
                                               /\ (int64_min <= z <= uint64_max)%Z).
    { intros c Hc.
      pose proof (existsb_false_forall _ _ Hint (scan P c) (in_map _ _ _ Hc)) as Hi.
      unfold not_integer in Hi. destruct (snd (scan P c)) as [z|]; [|discriminate].
      exists z. split; [reflexivity|]. lia. }
    destruct (existsb is_uint (map (scan P) v)) eqn:Eu.
    + rewrite andb_true_r in Hsu.
      assert (E : forallb is_uint64_cell (map cell_of_numeric (map as_uint64 (map (scan P) v)))
                  = true).
      { apply forallb_forall. intros c Hc. rewrite !map_map in Hc.
        apply in_map_iff in Hc as (c1 & <- & Hc1).
        destruct (Hz c1 Hc1) as (z & Hs & Hr).
        pose proof (existsb_false_forall _ _ Hsu (scan P c1) (in_map _ _ _ Hc1)) as Hneg.
        unfold is_sint in Hneg. unfold as_uint64. rewrite Hs in *. cbn [cell_of_numeric].
        unfold is_uint64_cell. lia. }
      rewrite E. now rewrite !orb_true_r.
    + assert (E : forallb is_int64_cell (map cell_of_numeric (map as_int64 (map (scan P) v)))
                  = true).
      { apply forallb_forall. intros c Hc. rewrite !map_map in Hc.
        apply in_map_iff in Hc as (c1 & <- & Hc1).
        destruct (Hz c1 Hc1) as (z & Hs & Hr).
        pose proof (existsb_false_forall _ _ Eu (scan P c1) (in_map _ _ _ Hc1)) as Hbig.
        unfold is_uint in Hbig. unfold as_int64. rewrite Hs in *. cbn [cell_of_numeric].
        unfold is_int64_cell, in_int64. lia. }
      rewrite E. now rewrite orb_true_r.
Qed.

(** The cast of such a column, when it returns, is a column of nullable
    integers of the int64 range. *)
Lemma raw_int64 P v v' :
  forallb raw_cell v = true ->
  astype_Int64 (to_numeric_series P v) = Ok v' ->
  forallb (holds_type INT64) v' = true.
Proof.
  intros Hraw Hv. pose proof (raw_numeric_dtype P v Hraw) as Hd.
  apply forallb_forall. intros b Hb.
  destruct (mapM_In _ _ _ _ Hv Hb) as (n & Hn & Hcast).
  assert (Hc : In (cell_of_numeric n) (map cell_of_numeric (to_numeric_series P v)))
    by now apply in_map.
  unfold numeric_dtype in Hd.
  destruct n as [f| | |z|z|z|]; cbn [astype_Int64_value] in Hcast.
  - destruct (integral_value f) as [z|]; [|discriminate].
    destruct (in_int64 z) eqn:E; [|discriminate]. injection Hcast as <-. exact E.
  - discriminate.
  - now injection Hcast as <-.
  - injection Hcast as <-. cbn [holds_type cell_of_numeric] in *.
    apply orb_true_iff in Hd as [Hd|Hd]; [apply orb_true_iff in Hd as [Hd|Hd]|];
      rewrite forallb_forall in Hd; specialize (Hd _ Hc); try discriminate. exact Hd.
  - destruct (z <=? int64_max)%Z eqn:E; [|discriminate]. injection Hcast as <-.
    cbn [holds_type cell_of_numeric] in *.
    apply orb_true_iff in Hd as [Hd|Hd]; [apply orb_true_iff in Hd as [Hd|Hd]|];
      rewrite forallb_forall in Hd; specialize (Hd _ Hc); try discriminate.
    unfold is_uint64_cell in Hd. unfold in_int64, int64_min. lia.
  - exfalso. cbn [cell_of_numeric] in Hc.
    apply orb_true_iff in Hd as [Hd|Hd]; [apply orb_true_iff in Hd as [Hd|Hd]|];
      rewrite forallb_forall in Hd; specialize (Hd _ Hc); discriminate.
  - exfalso. cbn [cell_of_numeric] in Hc.
    apply orb_true_iff in Hd as [Hd|Hd]; [apply orb_true_iff in Hd as [Hd|Hd]|];
      rewrite forallb_forall in Hd; specialize (Hd _ Hc); discriminate.
Qed.

Lemma date_cells_hold (r : list (option datetime)) :
  forallb (holds_type DATE) (map date_cell r) = true.
Proof.
  apply forallb_forall. intros c Hc. apply in_map_iff in Hc as (o & <- & _).
  now destruct o.
Qed.

Lemma raw_holds_string v : forallb raw_cell v = true -> forallb (holds_type STRING) v = true.
Proof.
  intros H. rewrite forallb_forall in *. intros c Hc. specialize (H c Hc).
  now destruct c.
Qed.

(** What the stage leaves in a column of raw cells, by the type that the
    schema declares for its name. *)
Lemma stage_column_fits P l T v v' :
  schema_entry_ok (l, T) = true -> T <> DATETIME ->
  forallb raw_cell v = true ->
  stage_column P l v v' ->
  fits T v' = true.
Proof.
  intros Hok HT Hraw (v1 & v2 & v3 & v4 & H1 & H2 & H3 & H4 & H5).
  unfold schema_entry_ok in Hok. cbn [fst snd] in Hok.
  unfold touches, numeric_column, date_column, int64_column, text_column in *.
  destruct T; try congruence; cbn [fits];
    repeat (apply andb_true_iff in Hok as [Hok ?E]);
    repeat match goal with
           | E : negb _ = true |- _ => apply negb_true_iff in E
           end.
  - (* STRING *)
    rewrite E2 in H1. rewrite E1 in H2. rewrite E0 in H3. rewrite E in H4.
    subst v1 v2 v3 v4. destruct (existsb _ string_columns).
    + rewrite H5. apply forallb_forall. intros c Hc.
      unfold astype_str_series in Hc. apply in_map_iff in Hc as (c0 & <- & _). reflexivity.
    + rewrite H5. now apply raw_holds_string.
  - (* FLOAT64 *)
    rewrite E3 in H1. rewrite E2 in H2. rewrite E1 in H3. rewrite E0 in H4.
    rewrite E in H5. subst v' v4 v3 v2 v1. now apply raw_numeric_dtype.
  - (* DATE *)
    rewrite E2 in H1. rewrite E0 in H4. rewrite E in H5. subst v' v4 v1.
    destruct (existsb _ ["business_day"]).
    + destruct H3 as (r & _ & ->). apply date_cells_hold.
    + rewrite H3. rewrite orb_false_r in E1. rewrite E1 in H2.
      destruct H2 as (r & _ & ->). apply date_cells_hold.
  - (* INT64 *)
    rewrite E3 in H1. rewrite E2 in H2. rewrite E1 in H3. rewrite E0 in H4.
    rewrite E in H5. subst v' v3 v2 v1.
    rewrite to_numeric_series_again in H4. exact (raw_int64 P v v4 Hraw H4).
Qed.

(** X17. After the processing of a batch read as text, every column whose
    name is in the schema of the load job is of the kind that the schema
    declares for it: texts for STRING, dates for DATE, nullable 64-bit
    integers for INT64 and timestamps for DATETIME, each with the missing
    value of its kind; for FLOAT64 a column of numbers, which is a column
    of float64 values, or of integers when every cell of the column is
    written as an integer. *)
Theorem processed_batch_fits_schema
    (P : Pandas) (now : datetime) (df df' : DataFrame) :
  raw_batch df ->
  process_batch P now df = Ok df' ->
  forall l v T, In (l, v) (columns df') -> In (l, T) schema -> fits T v = true.
Proof.
  intros Hraw H l v T Hin HT.
  pose proof schema_entries_ok as Hok. rewrite forallb_forall in Hok.
  specialize (Hok _ HT).
  destruct (process_batch_steps P now df df' H) as (d0 & d1 & _ & Hd0 & Hs & ->).
  apply stamp_columns_In in Hin as [[-> ->]|[Hne Hin]].
  - destruct T; try discriminate Hok. cbn [fits].
    apply forallb_forall. intros c Hc. apply repeat_spec in Hc. now subst c.
  - assert (HT' : T <> DATETIME).
    { intros ->. unfold schema_entry_ok in Hok. simpl in Hok.
      apply String.eqb_eq in Hok. contradiction. }
    apply stage_framewise in Hs.
    destruct (framewise_In _ _ _ _ Hs Hin) as (c0 & Hc0 & Hl & HR).
    simpl in Hl, HR. rewrite <- Hl in HR.
    apply (stage_column_fits P l T (snd c0) v Hok HT'); [|exact HR].
    subst d0. simpl in Hc0. apply in_map_iff in Hc0 as (c & <- & Hc). simpl.
    now apply Hraw.
Qed.

(** X17 on a file of six columns and two rows, at its "total_amount"
    column, whose cells are written as integers, and at its
    "settlement_amount" column. *)
Lemma processed_batch_fits_schema_witness :
  fits FLOAT64 [I64 100; I64 250] = true /\ fits FLOAT64 [NaN; Num 10.5] = true.
Proof.
  assert (Hraw : raw_batch whole_amounts).
  { intros c Hc. simpl in Hc. decompose [or] Hc; subst; try contradiction; reflexivity. }
  assert (Hrun : process_batch iso_pandas some_moment whole_amounts
                 = Ok (stamp_load_time some_moment whole_amounts_coerced)) by reflexivity.
  split.
  - apply (processed_batch_fits_schema iso_pandas some_moment whole_amounts _ Hraw Hrun
             "total_amount" [I64 100; I64 250] FLOAT64).
    + simpl. tauto.
    + unfold schema. repeat (first [left; reflexivity | right]).
  - apply (processed_batch_fits_schema iso_pandas some_moment whole_amounts _ Hraw Hrun
             "settlement_amount" [NaN; Num 10.5] FLOAT64).
    + simpl. tauto.
    + unfold schema. repeat (first [left; reflexivity | right]).
Defined.

(** ** Texts that denote no number *)

Lemma skip_space_chars s :
  all_chars numeric_char (skip_space s) = true -> all_chars numeric_char s = true.
Proof.
  induction s as [|c s IH]; intros H; [reflexivity|].
  cbn [skip_space] in H. destruct (c_isspace c) eqn:E; [|exact H].
  cbn [all_chars]. rewrite (IH H), andb_true_r.
  unfold numeric_char. now rewrite E, orb_true_r.
Qed.

Lemma digit_numeric c : is_digit c = true -> numeric_char c = true.
Proof. intros E. unfold numeric_char. now rewrite E. Qed.

Lemma integer_digits_chars s :
  forall number nd e number' nd' e' r,
    integer_digits number nd e s = (number', nd', e', r) ->
    all_chars numeric_char r = true -> all_chars numeric_char s = true.
Proof.
  induction s as [|c s IH]; intros number nd e number' nd' e' r H Hr.
  - simpl in H. now injection H as _ _ _ <-.
  - cbn [integer_digits] in H. destruct (is_digit c) eqn:E.
    + cbn [all_chars]. rewrite (digit_numeric c E). cbn [andb].
      destruct (nd <? max_digits)%nat; exact (IH _ _ _ _ _ _ _ H Hr).
    + now injection H as _ _ _ <-.
Qed.

Lemma decimal_digits_chars s :
  forall number nd dec number' nd' dec' r,
    decimal_digits number nd dec s = (number', nd', dec', r) ->
    all_chars numeric_char r = true -> all_chars numeric_char s = true.
Proof.
  induction s as [|c s IH]; intros number nd dec number' nd' dec' r H Hr.
  - simpl in H. now injection H as _ _ _ <-.
  - cbn [decimal_digits] in H.
    destruct ((nd <? max_digits)%nat && is_digit c) eqn:E.
    + apply andb_true_iff in E as [_ E].
      cbn [all_chars]. rewrite (digit_numeric c E). cbn [andb].
      exact (IH _ _ _ _ _ _ _ H Hr).
    + now injection H as _ _ _ <-.
Qed.

Lemma skip_digits_chars s :
  all_chars numeric_char (skip_digits s) = true -> all_chars numeric_char s = true.
Proof.
  induction s as [|c s IH]; intros H; [reflexivity|].
  cbn [skip_digits] in H. destruct (is_digit c) eqn:E; [|exact H].
  cbn [all_chars]. now rewrite (IH H), (digit_numeric c E).
Qed.

Lemma exponent_digits_chars s :
  forall n nd n' nd' r,
    exponent_digits n nd s = (n', nd', r) ->
    all_chars numeric_char r = true -> all_chars numeric_char s = true.
Proof.
  induction s as [|c s IH]; intros n nd n' nd' r H Hr.
  - simpl in H. now injection H as _ _ <-.
  - cbn [exponent_digits] in H.
    destruct ((nd <? max_digits)%nat && is_digit c) eqn:E.
    + apply andb_true_iff in E as [_ E].
      cbn [all_chars]. rewrite (digit_numeric c E). cbn [andb].
      exact (IH _ _ _ _ _ H Hr).
    + now injection H as _ _ <-.
Qed.

Lemma read_sign_chars s neg r :
  read_sign s = (neg, r) ->
  all_chars numeric_char r = true -> all_chars numeric_char s = true.
Proof.
  destruct s as [|c s]; simpl; [now intros [= _ <-]|].
  destruct (Ascii.eqb_spec c "-") as [->|Hm].
  - intros [= _ <-] Hr. cbn [all_chars]. now rewrite Hr.
  - destruct (Ascii.eqb_spec c "+") as [->|Hp].
    + intros [= _ <-] Hr. cbn [all_chars]. now rewrite Hr.
    + assert (E : read_sign (String c s) = (false, String c s)).
      { unfold read_sign.
        destruct c as [[|] [|] [|] [|] [|] [|] [|] [|]]; try reflexivity;
          exfalso; (apply Hm; reflexivity) || (apply Hp; reflexivity). }
      unfold read_sign in E. rewrite E. now intros [= _ <-].
Qed.

Lemma skip_space_empty_chars s : skip_space s = "" -> all_chars numeric_char s = true.
Proof. intros H. apply skip_space_chars. now rewrite H. Qed.

(** A text that [to_double] reads to its end is made of the characters of
    a number. *)
Lemma to_double_chars s r : to_double s = Some r -> all_chars numeric_char s = true.
Proof.
  unfold to_double. intros H. apply skip_space_chars.
  destruct (read_sign (skip_space s)) as [neg s1] eqn:Es.
  apply (read_sign_chars _ _ _ Es).
  destruct (integer_digits 0 0 0 s1) as [[[n1 d1] e1] s2] eqn:Ei.
  apply (integer_digits_chars _ _ _ _ _ _ _ _ Ei).
  match type of H with
  | match ?t with _ => _ end = _ => destruct t as [[[[n2 d2] e2] mi] s3] eqn:Em
  end.
  assert (H2 : all_chars numeric_char s3 = true -> all_chars numeric_char s2 = true).
  { intros H3. destruct s2 as [|c s2']; [now injection Em as _ _ _ _ <-|].
    destruct (Ascii.eqb_spec c ".") as [->|Hne].
    - destruct (decimal_digits n1 d1 0 s2') as [[[a b] dec] s4] eqn:Ed.
      injection Em as _ _ _ _ <-. cbn [all_chars].
      rewrite (decimal_digits_chars _ _ _ _ _ _ _ _ Ed); [reflexivity|].
      clear H. match type of H3 with
      | context [if ?x then _ else _] => destruct x
      end; [now apply skip_digits_chars|exact H3].
    - assert (E : (n2, d2, e2, mi, s3) = (n1, d1, e1, true, String c s2')).
      { rewrite <- Em.
        destruct c as [[|] [|] [|] [|] [|] [|] [|] [|]]; try reflexivity;
          exfalso; apply Hne; reflexivity. }
      now injection E as _ _ _ _ ->. }
  apply H2. clear Em H2.
  destruct d2 as [|d2]; [discriminate|].
  match type of H with
  | match ?t with _ => _ end = _ => destruct t as [[e3 mi3] s4] eqn:Ee
  end.
  assert (H3 : all_chars numeric_char s4 = true -> all_chars numeric_char s3 = true).
  { intros H4. destruct s3 as [|c s3']; [now injection Ee as _ _ <-|].
    destruct (Ascii.eqb c "e" || Ascii.eqb c "E") eqn:E; [|now injection Ee as _ _ <-].
    destruct (read_sign s3') as [neg' t1] eqn:Et.
    destruct (exponent_digits 0 0 t1) as [[n nd] t2] eqn:Ex.
    destruct nd as [|nd]; [now injection Ee as _ _ <-|].
    injection Ee as _ _ <-. cbn [all_chars].
    rewrite (read_sign_chars _ _ _ Et (exponent_digits_chars _ _ _ _ _ _ Ex H4)), andb_true_r.
    unfold numeric_char.
    apply orb_true_iff in E as [E|E]; apply Ascii.eqb_eq in E; now subst c. }
  apply H3. clear Ee H3.
  destruct (scale _ e3) as [f|]; [|discriminate].
  destruct (skip_space s4) eqn:E4; [|discriminate].
  now apply skip_space_empty_chars.
Qed.

Lemma all_chars_has P c s : all_chars P s = true -> has_char c s = true -> P c = true.
Proof.
  induction s as [|x s IH]; intros Ha Hc; [discriminate|].
  cbn [all_chars] in Ha. apply andb_true_iff in Ha as [Hx Ha].
  cbn [has_char] in Hc. apply orb_true_iff in Hc as [Hc|Hc].
  - apply Ascii.eqb_eq in Hc. now subst x.
  - now apply IH.
Qed.

Lemma has_char_lower c s : has_char c s = true -> has_char (lower_char c) (lower s) = true.
Proof.
  induction s as [|x s IH]; intros H; [discriminate|].
  cbn [has_char] in H. cbn [lower has_char]. apply orb_true_iff in H as [H|H].
  - apply Ascii.eqb_eq in H. subst x. now rewrite Ascii.eqb_refl.
  - now rewrite (IH H), orb_true_r.
Qed.

Lemma inf_word_lower s neg :
  inf_word s = Some neg ->
  all_chars (fun x => has_char x "+-infty") (lower s) = true.
Proof.
  unfold inf_word. generalize (lower s). intros l H.
  destruct (String.eqb l "inf") eqn:E1; [apply String.eqb_eq in E1; now subst l|].
  destruct (String.eqb l "+inf") eqn:E2; [apply String.eqb_eq in E2; now subst l|].
  destruct (String.eqb l "infinity") eqn:E3; [apply String.eqb_eq in E3; now subst l|].
  destruct (String.eqb l "+infinity") eqn:E4; [apply String.eqb_eq in E4; now subst l|].
  destruct (String.eqb l "-inf") eqn:E5; [apply String.eqb_eq in E5; now subst l|].
  destruct (String.eqb l "-infinity") eqn:E6; [apply String.eqb_eq in E6; now subst l|].
  discriminate.
Qed.

Lemma inf_word_chars s neg c :
  inf_word s = Some neg -> has_char c s = true -> infinity_char c = true.
Proof.
  intros H Hc. apply inf_word_lower in H. apply has_char_lower in Hc.
  unfold infinity_char.
  exact (all_chars_has (fun x => has_char x "+-infty") _ _ H Hc).
Qed.

(** X18. A text that contains, before any NUL character, a character
    other than a digit, a sign, a point, "e" or "E", a blank, or a letter
    of "infinity" denotes no number, so that [pd.to_numeric] makes it NaN:
    an amount written with a currency sign or with a thousands separator
    becomes a missing value. *)
Theorem text_with_foreign_char_is_nan (s : string) (c : ascii) :
  has_char c (c_str s) = true -> numeric_char c = false -> infinity_char c = false ->
  parse_number s = None /\ to_numeric_str s = NNaN.
Proof.
  intros Hc Hn Hi.
  assert (Hf : floatify s = None).
  { unfold floatify. destruct (to_double (c_str s)) as [[f mi]|] eqn:Ex.
    - apply to_double_chars in Ex. rewrite (all_chars_has _ c _ Ex Hc) in Hn. discriminate.
    - destruct (inf_word (c_str s)) as [neg|] eqn:Ei; [|reflexivity].
      rewrite (inf_word_chars _ neg c Ei Hc) in Hi. discriminate. }
  assert (H : parse_number s = None).
  { unfold parse_number, scan_str. now rewrite Hf. }
  split; [exact H|]. unfold to_numeric_str. now rewrite H.
Qed.

(** X18 on "1,000.50", at its comma. *)
Lemma text_with_foreign_char_is_nan_witness :
  parse_number "1,000.50" = None /\ to_numeric_str "1,000.50" = NNaN.
Proof. apply (text_with_foreign_char_is_nan "1,000.50" ","); reflexivity. Defined.
